(** * Nest AC Troubleshooter: a shallow embedding of [nest.go]

    The program polls the Nest cloud API, compares consecutive samples and,
    when the thermostat claims to be cooling while the temperature rises,
    switches the device off and back to its previous mode.

    Go functions become functions in a small monad [M]: the input is the
    list of outcomes of the successive [client.Do] calls (the network is the
    only input the control flow depends on), the output is the list of
    observable actions (requests, rows handed to the output file, console
    lines, sleeps) together with a result that is either a return value or
    the reason why the Go function did not return (a run-time panic,
    [os.Exit], a network call that never answers).  Library functions the
    source calls ([strings.ToLower], [strconv.Atoi], [url.ParseRequestURI],
    [http.NewRequest], the file system, [int(float64)]) are the fields of
    the class [Host]. *)

From Stdlib Require Import ZArith String Ascii List Bool Lia.
From stdpp Require Import gmap strings.
Import ListNotations.

#[local] Set Warnings "-register-all".
#[local] Open Scope Z_scope.
#[local] Open Scope string_scope.

(** ** Strings and errors *)

Definition nl : string := String "010"%char EmptyString.
Definition dquote : string := String "034"%char EmptyString.

(** A Go [error] is represented by its [Error()] text; [option error] is an
    [error] that may be [nil]. *)
Definition error : Type := string.

(** [fmt.Sprintf("%s", err)] for an [err] that may be [nil]. *)
Definition fmt_s (err : option error) : string :=
  match err with
  | Some e => e
  | None => "%!s(<nil>)"
  end.

(** [errors.New(fmt.Sprintf("%s:\n%s\n", message, err))] *)
Definition wrapErr (message : string) (err : option error) : error :=
  message +:+ ":" +:+ nl +:+ fmt_s err +:+ nl.

(** ** Data model *)

Record NestConfig := mkConfig {
  Token : string;
  ThermostatID : string;
  Minutes : Z;
  Output : string;
  LastOutput : string;
  Debug : bool;
  WebhookPost : string;
  WebhookGet : string
}.

Record NestData := mkData {
  CurrentTemperature : Z;
  HvacMode : string;
  IsCooling : bool
}.

(** [NestData{}] and [NestConfig{}] *)
Definition zeroData : NestData := mkData 0 "" false.
Definition zeroConfig : NestConfig := mkConfig "" "" 0 "" "" false "" "".

Definition NEST_GET : string := "https://developer-api.nest.com".
Definition NEST_PUT : string := "https://developer-api.nest.com/devices/thermostats/".

(** The [NestCommand] constants. *)
Definition cmdThermostatID : string := "thermostatID".
Definition cmdToken : string := "token".
Definition cmdMinutes : string := "minute".
Definition cmdConfig : string := "config".
Definition cmdOutput : string := "output".
Definition cmdWebhookPost : string := "webhook-post".
Definition cmdWebhookGet : string := "webhook-get".

(** A row handed to [outputFile.WriteString].  The first column of every
    row but the header is [timeAsStr()], which is not part of the model.
    - [RowHeader]: ["timestamp\tcooling\ttemp\tnotes\n"]
    - [RowSample c t]: [Sprintf("%s\t%t\t%d\n", timeAsStr(), c, t)]
    - [RowNote n]: [Sprintf("%s\t\t\t%s\n", timeAsStr(), n)] *)
Inductive Row :=
| RowHeader
| RowSample (cooling : bool) (temp : Z)
| RowNote (note : string).

Record Request := mkRequest {
  Method : string;
  URL : string;
  Payload : option string;
  Header : list (string * string)
}.

(** What the program does to the outside world, in order. *)
Inductive Event :=
| EvDo (req : Request)                  (* client.Do(req) *)
| EvWriteString (r : Row)               (* outputFile.WriteString(...) *)
| EvPrintf (s : string)                 (* fmt.Printf(...) *)
| EvSleep (d : Z)                       (* time.Sleep(d), d in nanoseconds *)
| EvCreate (path : string)              (* os.Create(path) *)
| EvOpenFile (path : string)            (* os.OpenFile(path, O_RDWR|O_APPEND, 0666) *)
| EvSync
| EvClose
| EvDump (path : string) (body : string). (* debug dump of the last response *)

(** Why a Go function did not return. *)
Inductive Halt :=
| PanicNilDeref                 (* invalid memory address or nil pointer dereference *)
| PanicInterfaceConversion      (* failed single-value type assertion *)
| Exit (code : Z)               (* os.Exit(code) *)
| Blocked                       (* a network call that is never answered *)
| OutOfFuel.                    (* the model's iteration bound was reached *)

Inductive Res (A : Type) :=
| Ret (a : A)
| Stop (h : Halt).
Arguments Ret {A} a.
Arguments Stop {A} h.

(** Exit status of the process when [main] ends with the given result: 0 on
    a normal return, 2 after an unrecovered panic, the argument of
    [os.Exit] otherwise; none while the process is still running. *)
Definition exitStatus {A} (r : Res A) : option Z :=
  match r with
  | Ret _ => Some 0
  | Stop PanicNilDeref | Stop PanicInterfaceConversion => Some 2
  | Stop (Exit c) => Some c
  | Stop Blocked | Stop OutOfFuel => None
  end.

(** ** Durations

    A [time.Duration] is a count of nanoseconds held in an [int64]; the
    product [time.Minute * time.Duration(n)] is computed in that type and
    wraps around silently ([n] is an [int], 64 bits wide where [Atoi] and
    the configuration file can give it the values in question).
    [time.Sleep] returns at once for a duration that is zero or negative. *)
Definition int64 (z : Z) : Z := (z + 2 ^ 63) mod 2 ^ 64 - 2 ^ 63.

Definition time_Minute : Z := 60000000000.

(** [time.Minute * time.Duration(n)] *)
Definition minutes (n : Z) : Z := int64 (time_Minute * n).

(** ** Library functions and host used by the source *)

Class Host := {
  float64 : Type;
  (** the conversion [int(x)] of a [float64] *)
  int_of_float64 : float64 -> Z;
  (** [strings.ToLower] *)
  strings_ToLower : string -> string;
  (** [strconv.Atoi] *)
  strconv_Atoi : string -> Z + error;
  (** the error of [url.ParseRequestURI], if any *)
  url_ParseRequestURI : string -> option error;
  (** the error of [http.NewRequest(method, url, body)], if any *)
  http_NewRequest : string -> string -> option error;
  (** the errors of [os.Create] and [os.OpenFile], if any *)
  os_Create : string -> option error;
  os_OpenFile : string -> option error;
  (** [ioutil.ReadFile], and [json.Unmarshal] of a file's content into a
      zero [NestConfig] *)
  ioutil_ReadFile : string -> string + error;
  json_UnmarshalConfig : string -> NestConfig + error
}.

Section Nest.

Context `{Host}.

(** ** Decoded JSON: the [interface{}] values [json.Unmarshal] produces.
    [JNull] is the nil interface. *)
Inductive json : Type :=
| JNull
| JBool (b : bool)
| JNum (f : float64)
| JStr (s : string)
| JArr (l : list json)
| JObj (m : gmap string json).

(** The body of a response: what [ioutil.ReadAll] returns and, for the bytes
    read, what [json.Unmarshal] into an [interface{}] makes of them. *)
Inductive RespBody :=
| BodyReadErr (e : error)
| BodyBytes (raw : string) (decoded : json + error).

Record Response := mkResponse {
  StatusCode : Z;
  Body : RespBody
}.

(** The two results [(resp, err)] of [client.Do].  A non-nil response
    together with a non-nil error only happens when [CheckRedirect] fails. *)
Inductive DoResult :=
| DoResp (resp : Response)                       (* (resp, nil) *)
| DoRedirectErr (resp : Response) (e : error)    (* (resp, err) *)
| DoErr (e : error).                             (* (nil, err)  *)

(** ** The monad *)

Record Out (A : Type) := mkOut {
  res : Res A;
  rest : list DoResult;
  evs : list Event
}.
Arguments mkOut {A} res rest evs.
Arguments res {A} o.
Arguments rest {A} o.
Arguments evs {A} o.

Definition M (A : Type) : Type := list DoResult -> Out A.

Definition ret {A} (a : A) : M A := fun s => mkOut (Ret a) s [].

Definition halt {A} (h : Halt) : M A := fun s => mkOut (Stop h) s [].

Definition bind {A B} (m : M A) (k : A -> M B) : M B := fun s =>
  let o := m s in
  match res o with
  | Ret a => let o' := k a (rest o) in mkOut (res o') (rest o') (evs o ++ evs o')%list
  | Stop h => mkOut (Stop h) (rest o) (evs o)
  end.

Definition emit (e : Event) : M unit := fun s => mkOut (Ret tt) s [e].

Notation "x <- c1 ;; c2" := (bind c1 (fun x => c2))
  (at level 100, c1 at next level, right associativity).
Notation "c1 ;; c2" := (bind c1 (fun _ => c2))
  (at level 100, right associativity).

(** [client.Do(req)]: the request goes out and the next outcome comes in. *)
Definition clientDo (req : Request) : M DoResult := fun s =>
  match s with
  | [] => mkOut (Stop Blocked) [] [EvDo req]
  | r :: s' => mkOut (Ret r) s' [EvDo req]
  end.

(** [defer resp.Body.Close()]: the receiver [resp.Body] is evaluated when the
    [defer] statement runs, which dereferences [resp]. *)
Definition deferBodyClose (r : DoResult) : M unit :=
  match r with
  | DoErr _ => halt PanicNilDeref
  | _ => ret tt
  end.

Definition writeString (r : Row) : M unit := emit (EvWriteString r).

(** [time.Sleep(time.Minute * time.Duration(n))] *)
Definition sleepMinutes (n : Z) : M unit := emit (EvSleep (minutes n)).

Definition printError (message : string) (err : option error) : M unit :=
  match err with
  | None => emit (EvPrintf (message +:+ nl))
  | Some e => emit (EvPrintf (message +:+ ":" +:+ nl +:+ e +:+ nl))
  end.

Definition printErrorExit (message : string) (err : option error) : M unit :=
  printError message err ;; halt (Exit 1).

(** ** API client *)

(** [x.(map[string]interface{})] *)
Definition assertMap (x : json) : M (option (gmap string json)) :=
  match x with
  | JObj m => ret (Some m)
  | _ => halt PanicInterfaceConversion
  end.

(** [x.(float64)] *)
Definition assertFloat64 (x : json) : M float64 :=
  match x with
  | JNum f => ret f
  | _ => halt PanicInterfaceConversion
  end.

(** [x.(string)] *)
Definition assertString (x : json) : M string :=
  match x with
  | JStr s => ret s
  | _ => halt PanicInterfaceConversion
  end.

(** [m[key]] on a [map[string]interface{}]: the nil interface when the key
    is absent (or the map is nil). *)
Definition index (m : option (gmap string json)) (key : string) : json :=
  match m with
  | Some m => default JNull (m !! key)
  | None => JNull
  end.

(** The loop [for dataNavigator != nil && i < len(dataPath)]; the second
    component is [dataPath[i:]] when the loop ends. *)
Fixpoint navigate (dataNavigator : option (gmap string json)) (dataPath : list string)
  : M (option (gmap string json) * list string) :=
  match dataNavigator, dataPath with
  | Some _, key :: dataPath' =>
      dataNavigator' <- assertMap (index dataNavigator key) ;;
      navigate dataNavigator' dataPath'
  | _, _ => ret (dataNavigator, dataPath)
  end.

Definition getRequest (config : NestConfig) : Request :=
  mkRequest "GET" NEST_GET None
    [("Content-Type", "application/json"); ("Authorization", Token config)].

(** The end of [nestGet]: from the result of [json.Unmarshal] to the sample. *)
Definition readSample (config : NestConfig) (decoded : json + error)
  : M (NestData * option error) :=
  match decoded with
  | inr err =>
      ret (zeroData, Some (wrapErr "Could not process JSON file from Nest" (Some err)))
  | inl rawData =>
      dataNavigator <- assertMap rawData ;;
      nav <- navigate dataNavigator ["devices"; "thermostats"; ThermostatID config] ;;
      let '(dataNavigator, remaining) := nav in
      match dataNavigator, remaining with
      | Some _, [] =>
          temperature <- assertFloat64 (index dataNavigator "ambient_temperature_f") ;;
          mode <- assertString (index dataNavigator "hvac_mode") ;;
          state <- assertString (index dataNavigator "hvac_state") ;;
          ret (mkData (int_of_float64 temperature) mode (String.eqb state "cooling"), None)
      | _, _ =>
          ret (zeroData, Some (wrapErr "Could not find thermoastat in Nest GET call" None))
      end
  end.

Definition nestGet (config : NestConfig) : M (NestData * option error) :=
  match http_NewRequest "GET" NEST_GET with
  | Some err =>
      ret (zeroData, Some (wrapErr "Could not create GET request with included URL" (Some err)))
  | None =>
  r <- clientDo (getRequest config) ;;
  match r with
  | DoErr err | DoRedirectErr _ err =>
      ret (zeroData, Some (wrapErr "Could not communicate with Nest" (Some err)))
  | DoResp resp =>
  if negb (Z.eqb (StatusCode resp) 200) then
    ret (zeroData, Some (wrapErr "Problem getting an answer from Nest" None))
  else
  match Body resp with
  | BodyReadErr err =>
      ret (zeroData, Some (wrapErr "Could not read response from Nest" (Some err)))
  | BodyBytes body decoded =>
  if Debug config then
    emit (EvCreate (LastOutput config)) ;;
    match os_Create (LastOutput config) with
    | Some err =>
        ret (zeroData, Some (wrapErr "Could not create debug dump file" (Some err)))
    | None =>
        emit (EvDump (LastOutput config) body) ;;
        readSample config decoded
    end
  else readSample config decoded
  end
  end
  end.

Definition putPayload (hvacMode : string) : string :=
  "{" +:+ dquote +:+ "hvac_mode" +:+ dquote +:+ ": " +:+ dquote +:+ hvacMode +:+ dquote +:+ "}".

Definition putRequest (config : NestConfig) (hvacMode : string) : Request :=
  mkRequest "PUT" (NEST_PUT +:+ ThermostatID config) (Some (putPayload hvacMode))
    [("Authorization", Token config)].

Definition nestPut (config : NestConfig) (hvacMode : string) : M (NestData * option error) :=
  match http_NewRequest "PUT" (NEST_PUT +:+ ThermostatID config) with
  | Some err =>
      ret (zeroData, Some (wrapErr "Could not create PUT request with included URL" (Some err)))
  | None =>
  r <- clientDo (putRequest config hvacMode) ;;
  deferBodyClose r ;;
  match r with
  | DoErr err | DoRedirectErr _ err =>
      ret (zeroData, Some (wrapErr "Could not communicate with Nest" (Some err)))
  | DoResp resp =>
  if negb (Z.eqb (StatusCode resp) 200) then
    ret (zeroData, Some (wrapErr "Problem getting an answer from Nest" None))
  else
    sleepMinutes 1 ;;
    nestGet config
  end
  end.

Definition webhook (method url : string) : M (option error) :=
  match http_NewRequest method url with
  | Some err => ret (Some (wrapErr "Could not create request with webhook url" (Some err)))
  | None =>
  r <- clientDo (mkRequest method url None []) ;;
  deferBodyClose r ;;
  match r with
  | DoErr err | DoRedirectErr _ err =>
      ret (Some (wrapErr "Problem communicating with webhook" (Some err)))
  | DoResp resp =>
  if negb (Z.eqb (StatusCode resp) 200) then
    ret (Some (wrapErr "Problem communicating with webhook" None))
  else ret None
  end
  end.

(** ** Recovery sequencer *)

(** The body of the function started with [go] when a fault is detected. *)
Definition notify (config : NestConfig) : M unit :=
  (if negb (String.eqb (WebhookPost config) "") then
     err <- webhook "POST" (WebhookPost config) ;;
     match err with
     | Some e => printError "Problem with webhook-post" (Some e)
     | None => writeString (RowNote "webhook-post performed")
     end
   else ret tt) ;;
  (if negb (String.eqb (WebhookGet config) "") then
     err <- webhook "GET" (WebhookGet config) ;;
     match err with
     | Some e => printError "Problem with webhook-get" (Some e)
     | None => writeString (RowNote "webhook-get performed")
     end
   else ret tt).

(** [go f()]: the started function runs concurrently with what follows the
    [go] statement.  The model follows one schedule, the one in which the
    started function runs to its end, and is given the answers of its calls,
    before the starting one goes on.  What is stated of the events and of
    the answers of both together holds for that schedule.  Three things do
    not depend on it: a panic that the started function does not recover
    ends the process; the started function sends no PUT and writes none of
    the variables of the starting one; and when no webhook is configured the
    started function does nothing at all. *)
Definition go (f : M unit) : M unit := f.

(** The [if] / [else if] / [else] that follows [nestPut] in the shut-off loop. *)
Definition shutoffReport (shutoffData : NestData) (err : option error) : M unit :=
  match err with
  | Some e =>
      writeString (RowNote ("Error turning system off:" +:+ nl +:+ e)) ;;
      printError "Error turning system off" (Some e)
  | None =>
      if negb (String.eqb (HvacMode shutoffData) "off") then
        writeString (RowNote "RESTART: waiting on turn off") ;;
        printError "RESTART: waiting on turn off" None
      else
        writeString (RowNote "RESTART: system turned off")
  end.

(** [for shutoffData.HvacMode != "off" { ... }] *)
Fixpoint shutoffLoop (fuel : nat) (config : NestConfig) (shutoffData : NestData)
  : M NestData :=
  if negb (String.eqb (HvacMode shutoffData) "off") then
    match fuel with
    | O => halt OutOfFuel
    | S fuel' =>
        r <- nestPut config "off" ;;
        let '(shutoffData, err) := r in
        shutoffReport shutoffData err ;;
        shutoffLoop fuel' config shutoffData
    end
  else ret shutoffData.

(** The [if] / [else if] / [else] that follows [nestPut] in the restart loop. *)
Definition restartReport (thermostatData restartData : NestData) (err : option error)
  : M unit :=
  match err with
  | Some e =>
      writeString (RowNote ("Error turning system back on:" +:+ nl +:+ e)) ;;
      printError "Error turning system back on" (Some e)
  | None =>
      if negb (String.eqb (HvacMode restartData) (HvacMode thermostatData)) then
        writeString (RowNote "RESTART: waiting on turn on") ;;
        printError "RESTART: waiting on turn on" None
      else
        writeString (RowNote "RESTART: system turned on")
  end.

(** [for restartData.HvacMode != thermostatData.HvacMode { ... }] *)
Fixpoint restartLoop (fuel : nat) (config : NestConfig) (thermostatData restartData : NestData)
  : M NestData :=
  if negb (String.eqb (HvacMode restartData) (HvacMode thermostatData)) then
    match fuel with
    | O => halt OutOfFuel
    | S fuel' =>
        r <- nestPut config (HvacMode thermostatData) ;;
        let '(restartData, err) := r in
        restartReport thermostatData restartData err ;;
        restartLoop fuel' config thermostatData restartData
    end
  else ret restartData.

(** [NestData{HvacMode: "unrestarted"}] *)
Definition unrestarted : NestData := mkData 0 "unrestarted" false.

(** ** Poll loop *)

(** The two variables carried from one tick to the next. *)
Record Baseline := mkBaseline {
  lastIsCooling : bool;
  lastTemp : Z
}.

Definition baselineOf (d : NestData) : Baseline :=
  mkBaseline (IsCooling d) (CurrentTemperature d).

(** The part of a tick that follows the fault test: the off/on cycle. *)
Definition recover (fuel : nat) (config : NestConfig) (thermostatData : NestData)
  : M Baseline :=
  writeString (RowNote "RESTARTING SYSTEM") ;;
  go (notify config) ;;
  shutoffData <- shutoffLoop fuel config unrestarted ;;
  restartData <- restartLoop fuel config thermostatData unrestarted ;;
  ret (baselineOf restartData).

(** The first statements of a tick: the output file is opened again. *)
Definition reopen (config : NestConfig) : M unit :=
  emit (EvOpenFile (Output config)) ;;
  match os_OpenFile (Output config) with
  | Some err => printError ("Problem reopening output file " +:+ Output config) (Some err)
  | None => ret tt
  end.

(** The branch of a tick taken when [nestGet] returned no error. *)
Definition onSample (fuel : nat) (config : NestConfig) (last : Baseline)
  (thermostatData : NestData) : M Baseline :=
  writeString (RowSample (IsCooling thermostatData) (CurrentTemperature thermostatData)) ;;
  if Bool.eqb (lastIsCooling last) true && Bool.eqb (IsCooling thermostatData) true then
    if (lastTemp last <? CurrentTemperature thermostatData)%Z then
      recover fuel config thermostatData
    else ret (baselineOf thermostatData)
  else ret (baselineOf thermostatData).

(** One iteration of [for true { ... }] in [loop]; the result is the
    baseline of the next iteration. *)
Definition tick (fuel : nat) (config : NestConfig) (last : Baseline) : M Baseline :=
  reopen config ;;
  r <- nestGet config ;;
  let '(thermostatData, err) := r in
  next <-
    match err with
    | Some e =>
        writeString (RowNote e) ;;
        printError "Error in GET request" (Some e) ;;
        ret last
    | None => onSample fuel config last thermostatData
    end ;;
  emit EvSync ;;
  emit EvClose ;;
  sleepMinutes (Minutes config) ;;
  ret next.

Fixpoint ticks (fuel : nat) (config : NestConfig) (last : Baseline) : M unit :=
  match fuel with
  | O => halt OutOfFuel
  | S fuel' =>
      next <- tick fuel config last ;;
      ticks fuel' config next
  end.

Definition loop (fuel : nat) (config : NestConfig) : M unit :=
  emit (EvCreate (Output config)) ;;
  match os_Create (Output config) with
  | Some err => printError "Problem creating output file" (Some err)
  | None => ret tt
  end ;;
  writeString RowHeader ;;
  emit EvSync ;;
  emit EvClose ;;
  ticks fuel config (mkBaseline false 0).

(** The fault detector: the two nested tests of [onSample], as one decision
    on the baseline and the current sample. *)
Definition restartNeeded (last : Baseline) (thermostatData : NestData) : bool :=
  if Bool.eqb (lastIsCooling last) true && Bool.eqb (IsCooling thermostatData) true then
    if (lastTemp last <? CurrentTemperature thermostatData)%Z then true else false
  else false.

(** ** Start-up: [main] up to the call of [loop] *)

Definition expectedArguments : M unit :=
  printError ("Expected at least one parameter. Please add arguments or call '--help' for help" +:+ nl) None.

Definition unexpectedArgument : M unit :=
  printError ("Unrecognized or unexpected parameter. Please check your inputs or call '--help' for help" +:+ nl) None.

Definition displayHelp : M unit :=
  emit (EvPrintf ("--help, -h, help            display this help menu" +:+ nl)) ;;
  emit (EvPrintf ("--thermostat -id [id]       supply the thermostat id" +:+ nl)) ;;
  emit (EvPrintf ("--token -t [auth token]     supply the OAuth token" +:+ nl)) ;;
  emit (EvPrintf ("--minute -m [1-99]          set sampling time in minutes" +:+ nl)) ;;
  emit (EvPrintf ("--config -c [config file]   location of config file" +:+ nl)) ;;
  emit (EvPrintf ("--output -o [output file]   where to save the output .tsv file" +:+ nl)) ;;
  emit (EvPrintf ("--webhook-post -wp [url]    webhook post to be fired when system restart begins" +:+ nl)) ;;
  emit (EvPrintf ("--webhook-get -wg [url]     webhook get to be fired when system restart begins" +:+ nl)).

Definition setToken (c : NestConfig) (v : string) : NestConfig :=
  mkConfig v (ThermostatID c) (Minutes c) (Output c) (LastOutput c) (Debug c) (WebhookPost c) (WebhookGet c).
Definition setThermostatID (c : NestConfig) (v : string) : NestConfig :=
  mkConfig (Token c) v (Minutes c) (Output c) (LastOutput c) (Debug c) (WebhookPost c) (WebhookGet c).
Definition setMinutes (c : NestConfig) (v : Z) : NestConfig :=
  mkConfig (Token c) (ThermostatID c) v (Output c) (LastOutput c) (Debug c) (WebhookPost c) (WebhookGet c).
Definition setOutput (c : NestConfig) (v : string) : NestConfig :=
  mkConfig (Token c) (ThermostatID c) (Minutes c) v (LastOutput c) (Debug c) (WebhookPost c) (WebhookGet c).
Definition setLastOutput (c : NestConfig) (v : string) : NestConfig :=
  mkConfig (Token c) (ThermostatID c) (Minutes c) (Output c) v (Debug c) (WebhookPost c) (WebhookGet c).
Definition setWebhookPost (c : NestConfig) (v : string) : NestConfig :=
  mkConfig (Token c) (ThermostatID c) (Minutes c) (Output c) (LastOutput c) (Debug c) v (WebhookGet c).
Definition setWebhookGet (c : NestConfig) (v : string) : NestConfig :=
  mkConfig (Token c) (ThermostatID c) (Minutes c) (Output c) (LastOutput c) (Debug c) (WebhookPost c) v.

Definition processConfig (fileName : string) (config : NestConfig)
  : NestConfig * option error :=
  match ioutil_ReadFile fileName with
  | inr err => (zeroConfig, Some err)
  | inl fileContent =>
  match json_UnmarshalConfig fileContent with
  | inr err => (zeroConfig, Some err)
  | inl configOverride =>
      let configOverride :=
        if (Minutes configOverride <? 1)%Z
        then setMinutes configOverride (Minutes config) else configOverride in
      let configOverride :=
        if String.eqb (Output configOverride) ""
        then setOutput configOverride (Output config) else configOverride in
      let configOverride :=
        if String.eqb (LastOutput configOverride) ""
        then setLastOutput configOverride (LastOutput config) else configOverride in
      (configOverride, None)
  end
  end.

(** [NestConfig{Minutes:10, Debug:false, Output:"nest.tsv", LastOutput:"nest_last.json"}] *)
Definition defaultConfig : NestConfig :=
  mkConfig "" "" 10 "nest.tsv" "nest_last.json" false "" "".

Definition allowedSingles : gmap string (M unit) :=
  <["help" := displayHelp]> (<["-h" := displayHelp]> (<["--help" := displayHelp]> ∅)).

Definition argTranslate : gmap string string :=
  list_to_map [
    ("--thermostat", cmdThermostatID); ("-id", cmdThermostatID);
    ("--token", cmdToken); ("-t", cmdToken);
    ("--minute", cmdMinutes); ("-m", cmdMinutes);
    ("--config", cmdConfig); ("-c", cmdConfig);
    ("--output", cmdOutput); ("-o", cmdOutput);
    ("--webhook-post", cmdWebhookPost); ("-wp", cmdWebhookPost);
    ("--webhook-get", cmdWebhookGet); ("-wg", cmdWebhookGet)].

(** [m[key]] on a map with string values: the empty string when absent. *)
Definition at_ (m : gmap string string) (key : string) : string :=
  default "" (m !! key).

(** [for i := 1; i < len(os.Args) - 1; i += 2 { ... }], on [os.Args[i:]];
    no result when the loop leaves [main] through [unexpectedArgument]. *)
Fixpoint parseArgs (argsFromI : list string) (argMap : gmap string string)
  : option (gmap string string) :=
  match argsFromI with
  | name :: value :: argsFromI' =>
      let argName := strings_ToLower name in
      if bool_decide (is_Some (allowedSingles !! argName))
         || String.eqb (at_ argTranslate argName) "" then None
      else parseArgs argsFromI' (<[at_ argTranslate argName := value]> argMap)
  | _ => Some argMap
  end.

(** A step of [main] that may end it with [return]. *)
Definition andThen (c : M (option NestConfig)) (k : NestConfig -> M (option NestConfig))
  : M (option NestConfig) :=
  x <- c ;;
  match x with
  | None => ret None
  | Some config => k config
  end.

Definition stepConfigFile (argMap : gmap string string) (config : NestConfig)
  : M (option NestConfig) :=
  let configFile := at_ argMap cmdConfig in
  if negb (String.eqb configFile "") then
    match processConfig configFile config with
    | (_, Some err) => printError "Error reading config file" (Some err) ;; ret None
    | (configOverride, None) => ret (Some configOverride)
    end
  else ret (Some config).

Definition stepThermostatID (argMap : gmap string string) (config : NestConfig)
  : M (option NestConfig) :=
  let thermostatID := at_ argMap cmdThermostatID in
  if negb (String.eqb thermostatID "") then ret (Some (setThermostatID config thermostatID))
  else if String.eqb (ThermostatID config) "" then
    printError "Must provide a thermostat ID" None ;; ret None
  else ret (Some config).

Definition stepToken (argMap : gmap string string) (config : NestConfig)
  : M (option NestConfig) :=
  let token := at_ argMap cmdToken in
  if negb (String.eqb token "") then ret (Some (setToken config token))
  else if String.eqb (Token config) "" then
    printError "Must provide a token" None ;; ret None
  else ret (Some config).

Definition stepMinutes (argMap : gmap string string) (config : NestConfig)
  : M (option NestConfig) :=
  let minutesStr := at_ argMap cmdMinutes in
  if negb (String.eqb minutesStr "") then
    match strconv_Atoi minutesStr with
    | inr err => printError "minutes parameter is not a parseable number" (Some err) ;; ret None
    | inl minutesInt =>
        if (minutesInt <? 1)%Z then
          printError "minutes parameter must be at least 1" None ;; ret None
        else ret (Some (setMinutes config minutesInt))
    end
  else ret (Some config).

Definition stepOutput (argMap : gmap string string) (config : NestConfig)
  : M (option NestConfig) :=
  let output := at_ argMap cmdOutput in
  if negb (String.eqb output "") then ret (Some (setOutput config output))
  else ret (Some config).

Definition stepWebhookPost (argMap : gmap string string) (config : NestConfig)
  : M (option NestConfig) :=
  let webhookPost := at_ argMap cmdWebhookPost in
  if negb (String.eqb webhookPost "") then
    match url_ParseRequestURI webhookPost with
    | Some err => printError "invalid webhook-post url" (Some err) ;; ret None
    | None => ret (Some (setWebhookPost config webhookPost))
    end
  else ret (Some config).

Definition stepWebhookGet (argMap : gmap string string) (config : NestConfig)
  : M (option NestConfig) :=
  let webhookGet := at_ argMap cmdWebhookGet in
  if negb (String.eqb webhookGet "") then
    match url_ParseRequestURI webhookGet with
    | Some err => printError "invalid webhook-get url" (Some err) ;; ret None
    | None => ret (Some (setWebhookGet config webhookGet))
    end
  else ret (Some config).

(** [main] up to its last statement: the configuration [loop] is called
    with, or nothing when [main] returns before. *)
Definition mainSetup (args : list string) : M (option NestConfig) :=
  let config := defaultConfig in
  if Nat.eqb (length args) 1 then expectedArguments ;; ret None
  else if Nat.eqb (length args) 2 then
    let singleCheck := strings_ToLower (nth 1 args "") in
    match allowedSingles !! singleCheck with
    | None => unexpectedArgument ;; ret None
    | Some f => f ;; ret None
    end
  else
    match parseArgs (tail args) ∅ with
    | None => unexpectedArgument ;; ret None
    | Some argMap =>
        andThen (andThen (andThen (andThen (andThen (andThen
          (stepConfigFile argMap config)
          (stepThermostatID argMap))
          (stepToken argMap))
          (stepMinutes argMap))
          (stepOutput argMap))
          (stepWebhookPost argMap))
          (stepWebhookGet argMap)
    end.

Definition main (fuel : nat) (args : list string) : M unit :=
  c <- mainSetup args ;;
  match c with
  | None => ret tt
  | Some config => loop fuel config
  end.

(** ** Observations on runs *)

(** The rows handed to the output file, in order. *)
Fixpoint rowsOf (l : list Event) : list Row :=
  match l with
  | [] => []
  | EvWriteString r :: l' => r :: rowsOf l'
  | _ :: l' => rowsOf l'
  end.

(** The requests sent, in order. *)
Fixpoint requestsOf (l : list Event) : list Request :=
  match l with
  | [] => []
  | EvDo r :: l' => r :: requestsOf l'
  | _ :: l' => requestsOf l'
  end.

Definition isPut (r : Request) : bool := String.eqb (Method r) "PUT".

(** Write attempts: the PUT requests sent. *)
Definition countPuts (l : list Event) : nat :=
  length (filter (fun r => isPut r = true) (requestsOf l)).

Definition isNote (note : string) (r : Row) : bool :=
  match r with
  | RowNote n => String.eqb n note
  | _ => false
  end.

(** The rows carrying a given note. *)
Definition countNotes (note : string) (l : list Event) : nat :=
  length (filter (fun r => isNote note r = true) (rowsOf l)).

(** The write operation answers with a sample of another mode [N] times and
    then with a sample of the requested mode. *)
Fixpoint writesSettle (config : NestConfig) (hvacMode : string) (N : nat)
  (s : list DoResult) : Prop :=
  let o := nestPut config hvacMode s in
  match N with
  | O => exists d, res o = Ret (d, None) /\ HvacMode d = hvacMode
  | S n =>
      exists d, res o = Ret (d, None) /\ HvacMode d <> hvacMode /\
                writesSettle config hvacMode n (rest o)
  end.

(** The retry discipline when the writes settle after [N] mismatches:
    [N + 1] write attempts, [N] rows with the waiting note, and the loop
    ends with a sample of the requested mode. *)
Definition retriesOnce (o : Out NestData) (hvacMode waiting : string) (N : nat) : Prop :=
  (exists d, res o = Ret d /\ HvacMode d = hvacMode) /\
  countPuts (evs o) = S N /\
  countNotes waiting (evs o) = N.


Definition restartRetries (fuel : nat) (config : NestConfig) (thermostatData : NestData)
  (N : nat) (s : list DoResult) : Prop :=
  writesSettle config (HvacMode thermostatData) N s ->
  retriesOnce (restartLoop fuel config thermostatData unrestarted s)
    (HvacMode thermostatData) "RESTART: waiting on turn on" N.


(** The write attempts: the PUT requests among the events, in order. *)
Definition putsOf (l : list Event) : list Request :=
  filter (fun r => isPut r = true) (requestsOf l).

(** A computation that neither consumes an answer nor does anything
    observable. *)
Definition silent {A} (m : M A) : Prop :=
  forall s, rest (m s) = s /\ evs (m s) = [].

(** A computation leaves a suffix of the answers it was given. *)
Definition consuming {A} (m : M A) : Prop :=
  forall s, exists consumed, s = (consumed ++ rest (m s))%list.

(** A computation that returns, consumes no answer, and at most prints. *)
Definition printsOnly {A} (m : M A) : Prop :=
  forall s, (exists a, res (m s) = Ret a) /\ rest (m s) = s /\
            Forall (fun e => exists t, e = EvPrintf t) (evs (m s)).

(** What holds of the command line and of the configuration when [main]
    calls [loop]: none of the start-up errors was met. *)
Definition validated (args : list string) (config : NestConfig) : Prop :=
  ThermostatID config <> "" /\ Token config <> "" /\ (1 <= Minutes config)%Z /\
  exists argMap,
    parseArgs (tail args) ∅ = Some argMap /\
    (at_ argMap cmdConfig <> "" ->
     exists c, processConfig (at_ argMap cmdConfig) defaultConfig = (c, None)) /\
    (at_ argMap cmdMinutes <> "" ->
     exists z, strconv_Atoi (at_ argMap cmdMinutes) = inl z /\ (1 <= z)%Z /\
               Minutes config = z) /\
    (at_ argMap cmdWebhookPost <> "" ->
     url_ParseRequestURI (at_ argMap cmdWebhookPost) = None) /\
    (at_ argMap cmdWebhookGet <> "" ->
     url_ParseRequestURI (at_ argMap cmdWebhookGet) = None).

(** The sample a well-formed device-state document holds for the configured
    thermostat, if it has one. *)
Definition asObj (x : option json) : option (gmap string json) :=
  match x with Some (JObj m) => Some m | _ => None end.
Definition asNum (x : option json) : option float64 :=
  match x with Some (JNum f) => Some f | _ => None end.
Definition asStr (x : option json) : option string :=
  match x with Some (JStr s) => Some s | _ => None end.

Definition sampleIn (config : NestConfig) (rawData : json) : option NestData :=
  m0 ← asObj (Some rawData);
  m1 ← asObj (m0 !! "devices");
  m2 ← asObj (m1 !! "thermostats");
  m3 ← asObj (m2 !! ThermostatID config);
  t ← asNum (m3 !! "ambient_temperature_f");
  mode ← asStr (m3 !! "hvac_mode");
  state ← asStr (m3 !! "hvac_state");
  Some (mkData (int_of_float64 t) mode (String.eqb state "cooling")).

(** ** Further observations *)

(** The option names the argument loop looks at, lower-cased: the
    arguments at every other place, as far as each is followed by a value. *)
Fixpoint optionNames (argsFromI : list string) : list string :=
  match argsFromI with
  | name :: _ :: argsFromI' => strings_ToLower name :: optionNames argsFromI'
  | _ => []
  end.

(** The spellings [argTranslate] knows. *)
Definition recognised : list string :=
  ["--thermostat"; "-id"; "--token"; "-t"; "--minute"; "-m"; "--config"; "-c";
   "--output"; "-o"; "--webhook-post"; "-wp"; "--webhook-get"; "-wg"].

(** The configuration the command line is applied to: the defaults, or what
    [processConfig] makes of the file named by the config option. *)
Definition baseConfig (argMap : gmap string string) : NestConfig :=
  if String.eqb (at_ argMap cmdConfig) "" then defaultConfig
  else fst (processConfig (at_ argMap cmdConfig) defaultConfig).

(** A field of the final configuration: the value of the command line when
    it is not empty, the one of the base configuration otherwise. *)
Definition preferring (given base : string) : string :=
  if String.eqb given "" then base else given.

(** The configuration [loop] is called with, from the base configuration,
    the options of the command line and the minutes in force. *)
Definition overridden (argMap : gmap string string) (minutes : Z) (base : NestConfig)
  : NestConfig :=
  mkConfig (preferring (at_ argMap cmdToken) (Token base))
           (preferring (at_ argMap cmdThermostatID) (ThermostatID base))
           minutes
           (preferring (at_ argMap cmdOutput) (Output base))
           (LastOutput base)
           (Debug base)
           (preferring (at_ argMap cmdWebhookPost) (WebhookPost base))
           (preferring (at_ argMap cmdWebhookGet) (WebhookGet base)).

(** The configuration and validation errors of a command line, each as
    the text [main] prints for it, listed in the order in which [main] makes
    its checks: the configuration file, the thermostat id, the token, the
    minutes, the two webhook URLs. *)
Definition fileErrors (argMap : gmap string string) : list string :=
  if String.eqb (at_ argMap cmdConfig) "" then []
  else match snd (processConfig (at_ argMap cmdConfig) defaultConfig) with
       | Some err => ["Error reading config file" +:+ ":" +:+ nl +:+ err +:+ nl]
       | None => []
       end.

Definition thermostatIDErrors (argMap : gmap string string) : list string :=
  if String.eqb (at_ argMap cmdThermostatID) ""
     && String.eqb (ThermostatID (baseConfig argMap)) ""
  then ["Must provide a thermostat ID" +:+ nl] else [].

Definition tokenErrors (argMap : gmap string string) : list string :=
  if String.eqb (at_ argMap cmdToken) "" && String.eqb (Token (baseConfig argMap)) ""
  then ["Must provide a token" +:+ nl] else [].

Definition minutesErrors (argMap : gmap string string) : list string :=
  if String.eqb (at_ argMap cmdMinutes) "" then []
  else match strconv_Atoi (at_ argMap cmdMinutes) with
       | inr err => ["minutes parameter is not a parseable number" +:+ ":" +:+ nl +:+ err +:+ nl]
       | inl z => if (z <? 1)%Z then ["minutes parameter must be at least 1" +:+ nl] else []
       end.

Definition webhookPostErrors (argMap : gmap string string) : list string :=
  if String.eqb (at_ argMap cmdWebhookPost) "" then []
  else match url_ParseRequestURI (at_ argMap cmdWebhookPost) with
       | Some err => ["invalid webhook-post url" +:+ ":" +:+ nl +:+ err +:+ nl]
       | None => []
       end.

Definition webhookGetErrors (argMap : gmap string string) : list string :=
  if String.eqb (at_ argMap cmdWebhookGet) "" then []
  else match url_ParseRequestURI (at_ argMap cmdWebhookGet) with
       | Some err => ["invalid webhook-get url" +:+ ":" +:+ nl +:+ err +:+ nl]
       | None => []
       end.

Definition configErrors (argMap : gmap string string) : list string :=
  (fileErrors argMap ++ thermostatIDErrors argMap ++ tokenErrors argMap ++
   minutesErrors argMap ++ webhookPostErrors argMap ++ webhookGetErrors argMap)%list.

(** What a step of the start-up does on the answers [s], given the errors
    it checks for: with none, it hands on a configuration that satisfies
    [P], silently; otherwise it prints the first and ends the start-up. *)
Definition stepOutcome (P : NestConfig -> Prop) (c : M (option NestConfig))
  (s : list DoResult) (errors : list string) : Prop :=
  match errors with
  | [] => exists config, c s = mkOut (Ret (Some config)) s [] /\ P config
  | text :: _ => c s = mkOut (Ret None) s [EvPrintf text]
  end.

(** An answer [(resp, nil)] with status 200. *)
Definition is200 (r : DoResult) : bool :=
  match r with
  | DoResp resp => Z.eqb (StatusCode resp) 200
  | _ => false
  end.

(** An answer that comes with a response: [(resp, nil)] or [(resp, err)]. *)
Definition hasResponse (r : DoResult) : bool :=
  match r with
  | DoErr _ => false
  | _ => true
  end.

(** A computation that never ends the process through [os.Exit]. *)
Definition neverExits {A} (m : M A) : Prop :=
  forall s code, res (m s) <> Stop (Exit code).

(** The files created or dumped to. *)
Fixpoint filesTouched (l : list Event) : list string :=
  match l with
  | [] => []
  | EvCreate p :: l' => p :: filesTouched l'
  | EvDump p _ :: l' => p :: filesTouched l'
  | _ :: l' => filesTouched l'
  end.

(** The PUT of a write is answered [K] times with a status other than 200,
    after which the writes settle after [N] mismatches. *)
Fixpoint refusedThenSettle (config : NestConfig) (hvacMode : string) (K N : nat)
  (s : list DoResult) : Prop :=
  match K with
  | O => writesSettle config hvacMode N s
  | S k =>
      match s with
      | DoResp resp :: s' =>
          StatusCode resp <> 200%Z /\ refusedThenSettle config hvacMode k N s'
      | _ => False
      end
  end.

(** The rows whose note starts with the given text. *)
Definition isNoteFrom (start : string) (r : Row) : bool :=
  match r with
  | RowNote n => String.prefix start n
  | _ => false
  end.

Definition countNotesFrom (start : string) (l : list Event) : nat :=
  length (filter (fun r => isNoteFrom start r = true) (rowsOf l)).

End Nest.

Arguments mkOut {H A} res rest evs.
Arguments res {H A} o.
Arguments rest {H A} o.
Arguments evs {H A} o.

Notation "x <- c1 ;; c2" := (bind c1 (fun x => c2))
  (at level 100, c1 at next level, right associativity).
Notation "c1 ;; c2" := (bind c1 (fun _ => c2))
  (at level 100, right associativity).

(** ** A host for closed examples

    Integral temperature readings, ASCII lower-casing, a decimal [Atoi], a
    file system without a configuration file. *)
Module Demo.

Definition lowerAscii (c : ascii) : ascii :=
  let n := nat_of_ascii c in
  if (65 <=? n)%nat && (n <=? 90)%nat then ascii_of_nat (n + 32) else c.

Fixpoint toLower (s : string) : string :=
  match s with
  | EmptyString => EmptyString
  | String c s' => String (lowerAscii c) (toLower s')
  end.

Fixpoint digits (s : string) (acc : Z) : option Z :=
  match s with
  | EmptyString => Some acc
  | String c s' =>
      let n := Z.of_nat (nat_of_ascii c) in
      if (48 <=? n)%Z && (n <=? 57)%Z then digits s' (10 * acc + (n - 48))%Z else None
  end.

Definition atoi (s : string) : Z + error :=
  match s with
  | EmptyString => inr "invalid syntax"
  | String c s' =>
      let parsed :=
        if Ascii.eqb c "-" then (if String.eqb s' "" then None else option_map Z.opp (digits s' 0))
        else if Ascii.eqb c "+" then (if String.eqb s' "" then None else digits s' 0)
        else digits s 0 in
      match parsed with
      | None => inr "invalid syntax"
      | Some z =>
          if (-(2 ^ 63) <=? z)%Z && (z <? 2 ^ 63)%Z then inl z else inr "value out of range"
      end
  end.

Definition parseRequestURI (u : string) : option error :=
  if String.prefix "http://" u || String.prefix "https://" u || String.prefix "/" u
  then None else Some "invalid URI for request".

Definition host : Host := {|
  float64 := Z;
  int_of_float64 := fun z => z;
  strings_ToLower := toLower;
  strconv_Atoi := atoi;
  url_ParseRequestURI := parseRequestURI;
  http_NewRequest := fun _ _ => None;
  os_Create := fun _ => None;
  os_OpenFile := fun _ => None;
  ioutil_ReadFile := fun _ => inr "no such file or directory";
  json_UnmarshalConfig := fun _ => inr "unexpected end of JSON input"
|}.

Definition config : NestConfig :=
  mkConfig "c.token" "dev1" 10 "nest.tsv" "nest_last.json" false "" "".

Definition configWithHook : NestConfig :=
  mkConfig "c.token" "dev1" 10 "nest.tsv" "nest_last.json" false "http://hooks.example/fire" "".

(** The device-state document of thermostat [dev1]. *)
Definition document (temp : Z) (mode state : string) : @json host :=
  JObj {[ "devices" := JObj {[ "thermostats" := JObj {[ "dev1" :=
    JObj (<["ambient_temperature_f" := @JNum host temp]>
         (<["hvac_mode" := JStr mode]> {[ "hvac_state" := JStr state ]})) ]} ]} ]}.

(** A [200] answer whose body decodes to the given document. *)
Definition answer (doc : @json host) : @DoResult host :=
  DoResp (mkResponse 200 (BodyBytes "" (inl doc))).

Definition ok200 : @DoResult host :=
  DoResp (mkResponse 200 (BodyBytes "" (inr "unexpected end of JSON input"))).

(** A successful write that the device answers with the given mode. *)
Definition written (temp : Z) (mode state : string) : list (@DoResult host) :=
  [ok200; answer (document temp mode state)].

(** A host with one configuration file, [nest.json], that sets the token,
    the thermostat id, the debug flag and the GET webhook and leaves minutes
    and paths out. *)
Definition fileConfig : NestConfig :=
  mkConfig "f.token" "dev9" 0 "" "" true "" "http://hooks.example/seen".

Definition hostWithFile : Host := {|
  float64 := Z;
  int_of_float64 := fun z => z;
  strings_ToLower := toLower;
  strconv_Atoi := atoi;
  url_ParseRequestURI := parseRequestURI;
  http_NewRequest := fun _ _ => None;
  os_Create := fun _ => None;
  os_OpenFile := fun _ => None;
  ioutil_ReadFile := fun name =>
    if String.eqb name "nest.json" then inl "(content of nest.json)"
    else inr "no such file or directory";
  json_UnmarshalConfig := fun content =>
    if String.eqb content "(content of nest.json)" then inl fileConfig
    else inr "unexpected end of JSON input"
|}.

Definition configDebug : NestConfig :=
  mkConfig "c.token" "dev1" 10 "nest.tsv" "nest_last.json" true "" "".

Definition configBothHooks : NestConfig :=
  mkConfig "c.token" "dev1" 10 "nest.tsv" "nest_last.json" false
    "http://hooks.example/fire" "http://hooks.example/seen".

(** An answer with status 503. *)
Definition refused : @DoResult host :=
  DoResp (mkResponse 503 (BodyBytes "" (inr "unexpected end of JSON input"))).

End Demo.

(** * Properties *)

Section Properties.

Context `{Host}.

#[local] Arguments nestGet : simpl never.
#[local] Arguments nestPut : simpl never.
#[local] Arguments webhook : simpl never.

(** ** The monad *)

Lemma bind_eq {A B} (m : M A) (k : A -> M B) (s : list DoResult) :
  bind m k s =
  match res (m s) with
  | Ret a =>
      mkOut (res (k a (rest (m s)))) (rest (k a (rest (m s))))
            (evs (m s) ++ evs (k a (rest (m s))))%list
  | Stop h => mkOut (Stop h) (rest (m s)) (evs (m s))
  end.
Proof. reflexivity. Qed.

Lemma bind_Ret {A B} (m : M A) (k : A -> M B) (s : list DoResult) (a : A) :
  res (m s) = Ret a ->
  bind m k s =
  mkOut (res (k a (rest (m s)))) (rest (k a (rest (m s))))
        (evs (m s) ++ evs (k a (rest (m s))))%list.
Proof. intros E. unfold bind. rewrite E. reflexivity. Qed.

Lemma bind_Stop {A B} (m : M A) (k : A -> M B) (s : list DoResult) (h : Halt) :
  res (m s) = Stop h ->
  bind m k s = mkOut (Stop h) (rest (m s)) (evs (m s)).
Proof. intros E. unfold bind. rewrite E. reflexivity. Qed.

Lemma bind_Ret_inv {A B} (m : M A) (k : A -> M B) (s : list DoResult) (b : B) :
  res (bind m k s) = Ret b ->
  exists a, res (m s) = Ret a /\ res (k a (rest (m s))) = Ret b.
Proof.
  unfold bind. destruct (res (m s)) as [a|h] eqn:E; simpl; intros Hb.
  - exists a. split; [reflexivity | exact Hb].
  - discriminate Hb.
Qed.

(** ** Counting events *)

Lemma rowsOf_app (l1 l2 : list Event) : rowsOf (l1 ++ l2) = (rowsOf l1 ++ rowsOf l2)%list.
Proof.
  induction l1 as [|e l1 IH]; simpl; [reflexivity|].
  destruct e; simpl; rewrite IH; reflexivity.
Qed.

Lemma requestsOf_app (l1 l2 : list Event) :
  requestsOf (l1 ++ l2) = (requestsOf l1 ++ requestsOf l2)%list.
Proof.
  induction l1 as [|e l1 IH]; simpl; [reflexivity|].
  destruct e; simpl; rewrite IH; reflexivity.
Qed.

Lemma countPuts_app (l1 l2 : list Event) :
  countPuts (l1 ++ l2) = (countPuts l1 + countPuts l2)%nat.
Proof. unfold countPuts. rewrite requestsOf_app, filter_app, length_app. reflexivity. Qed.

Lemma countNotes_app (note : string) (l1 l2 : list Event) :
  countNotes note (l1 ++ l2) = (countNotes note l1 + countNotes note l2)%nat.
Proof. unfold countNotes. rewrite rowsOf_app, filter_app, length_app. reflexivity. Qed.

(** ** The poll loop *)

Lemma reopen_out (config : NestConfig) (s : list DoResult) :
  res (reopen config s) = Ret tt /\ rest (reopen config s) = s /\
  rowsOf (evs (reopen config s)) = [] /\ requestsOf (evs (reopen config s)) = [].
Proof.
  unfold reopen, printError. destruct (os_OpenFile (Output config)); repeat split.
Qed.

(** The two nested tests of a tick are the fault detector. *)
Lemma onSample_detector (fuel : nat) (config : NestConfig) (last : Baseline)
  (thermostatData : NestData) :
  onSample fuel config last thermostatData =
  (writeString (RowSample (IsCooling thermostatData) (CurrentTemperature thermostatData)) ;;
   if restartNeeded last thermostatData then recover fuel config thermostatData
   else ret (baselineOf thermostatData)).
Proof.
  unfold onSample, restartNeeded.
  destruct (Bool.eqb (lastIsCooling last) true && Bool.eqb (IsCooling thermostatData) true);
    [|reflexivity].
  destruct (lastTemp last <? CurrentTemperature thermostatData)%Z; reflexivity.
Qed.

(** C1: the fault detector asks for a restart exactly when the previous and
    the current sample both report cooling and the current temperature is
    strictly greater than the previous one; in every other case it does not;
    and this decision is the one a tick takes between recovery and a plain
    advance of the baseline. *)
Theorem fault_detector_truth_table (previous current : NestData) :
  (restartNeeded (baselineOf previous) current = true <->
   IsCooling previous = true /\ IsCooling current = true /\
   (CurrentTemperature current > CurrentTemperature previous)%Z) /\
  (restartNeeded (baselineOf previous) current = false <->
   ~ (IsCooling previous = true /\ IsCooling current = true /\
      (CurrentTemperature current > CurrentTemperature previous)%Z)) /\
  (forall fuel config,
     onSample fuel config (baselineOf previous) current =
     (writeString (RowSample (IsCooling current) (CurrentTemperature current)) ;;
      if restartNeeded (baselineOf previous) current then recover fuel config current
      else ret (baselineOf current))).
Proof.
  assert (E : restartNeeded (baselineOf previous) current = true <->
              IsCooling previous = true /\ IsCooling current = true /\
              (CurrentTemperature current > CurrentTemperature previous)%Z).
  { unfold restartNeeded, baselineOf; simpl.
    destruct (IsCooling previous), (IsCooling current); simpl;
      try (split; [discriminate | intros (A & B & _); discriminate]).
    destruct (Z.ltb_spec (CurrentTemperature previous) (CurrentTemperature current)).
    - split; [intros _; repeat split; lia | reflexivity].
    - split; [discriminate | intros (_ & _ & C); lia]. }
  split; [exact E|]. split.
  - rewrite <- E. destruct (restartNeeded (baselineOf previous) current);
      split; congruence.
  - intros fuel config. apply onSample_detector.
Qed.

(** ** The API client *)

Lemma silent_ret {A} (a : A) : silent (ret a).
Proof. intros s. split; reflexivity. Qed.

Lemma silent_halt {A} (h : Halt) : silent (halt (A := A) h).
Proof. intros s. split; reflexivity. Qed.

Lemma silent_bind {A B} (m : M A) (k : A -> M B) :
  silent m -> (forall a, silent (k a)) -> silent (bind m k).
Proof.
  intros Hm Hk s. unfold bind. destruct (Hm s) as [Hr He].
  destruct (res (m s)) as [a|h]; simpl.
  - destruct (Hk a (rest (m s))) as [Hr' He']. rewrite Hr', He', Hr, He. split; reflexivity.
  - rewrite Hr, He. split; reflexivity.
Qed.

Lemma silent_assertMap (x : json) : silent (assertMap x).
Proof. destruct x; simpl; auto using silent_ret, silent_halt. Qed.

Lemma silent_assertFloat64 (x : json) : silent (assertFloat64 x).
Proof. destruct x; simpl; auto using silent_ret, silent_halt. Qed.

Lemma silent_assertString (x : json) : silent (assertString x).
Proof. destruct x; simpl; auto using silent_ret, silent_halt. Qed.

Lemma silent_navigate (dataPath : list string) (dataNavigator : option (gmap string json)) :
  silent (navigate dataNavigator dataPath).
Proof.
  revert dataNavigator. induction dataPath as [|key dataPath IH]; intros [m|]; simpl;
    try apply silent_ret.
  apply silent_bind; [apply silent_assertMap | intros a; apply IH].
Qed.

Lemma silent_readSample (config : NestConfig) (decoded : json + error) :
  silent (readSample config decoded).
Proof.
  destruct decoded as [rawData|err]; unfold readSample; [|apply silent_ret].
  apply silent_bind; [apply silent_assertMap|]. intros m.
  apply silent_bind; [apply silent_navigate|]. intros [nav remaining].
  destruct nav as [m'|]; [destruct remaining|]; try apply silent_ret.
  repeat (apply silent_bind; [first [apply silent_assertFloat64 | apply silent_assertString]|intro]).
  apply silent_ret.
Qed.

(** The type assertions of the navigation never produce a nil map, and they
    panic where the document has no object. *)
Lemma readSample_result (config : NestConfig) (rawData : json) (s : list DoResult) :
  res (readSample config (inl rawData) s) =
  match sampleIn config rawData with
  | Some d => Ret (d, None)
  | None => Stop PanicInterfaceConversion
  end.
Proof.
  unfold readSample, sampleIn.
  destruct rawData as [| | | | |m0]; try reflexivity.
  simpl. unfold bind at 1. simpl.
  destruct (m0 !! "devices") as [[| | | | |m1]|]; try reflexivity. simpl.
  destruct (m1 !! "thermostats") as [[| | | | |m2]|]; try reflexivity. simpl.
  destruct (m2 !! ThermostatID config) as [[| | | | |m3]|]; try reflexivity. simpl.
  destruct (m3 !! "ambient_temperature_f") as [[| |t| | |]|]; try reflexivity. simpl.
  destruct (m3 !! "hvac_mode") as [[| | |mode| |]|]; try reflexivity. simpl.
  destruct (m3 !! "hvac_state") as [[| | |state| |]|]; try reflexivity.
Qed.

Lemma readSample_rest (config : NestConfig) (decoded : json + error) (s : list DoResult) :
  rest (readSample config decoded s) = s.
Proof. apply silent_readSample. Qed.

Lemma readSample_evs (config : NestConfig) (decoded : json + error) (s : list DoResult) :
  evs (readSample config decoded s) = [].
Proof. apply silent_readSample. Qed.

Lemma readSample_err_zero (config : NestConfig) (decoded : json + error)
  (s : list DoResult) (d : NestData) (e : error) :
  res (readSample config decoded s) = Ret (d, Some e) -> d = zeroData.
Proof.
  destruct decoded as [rawData|err].
  - rewrite readSample_result. destruct (sampleIn config rawData); discriminate.
  - simpl. congruence.
Qed.

(** Case analysis on a run of the API client, up to its decoding tail. *)
Ltac client_step :=
  match goal with
  | |- context [match http_NewRequest ?a ?b with _ => _ end] =>
      destruct (http_NewRequest a b); simpl
  | |- context [clientDo ?r ?s] => destruct s as [|[?|? ?|?] ?]; simpl
  | |- context [negb (Z.eqb ?a ?b)] => destruct (Z.eqb a b); simpl
  | |- context [match Body ?r with _ => _ end] => destruct (Body r); simpl
  | |- context [if Debug ?c then _ else _] => destruct (Debug c); simpl
  | |- context [match os_Create ?p with _ => _ end] => destruct (os_Create p); simpl
  end.

Ltac nestGet_cases :=
  unfold nestGet, bind; repeat client_step;
  rewrite ?readSample_evs, ?readSample_rest.

Ltac case_readSample :=
  match goal with
  | |- context [res (readSample ?c ?d ?s)] =>
      let E := fresh "E" in destruct (res (readSample c d s)) as [[? [?|]]|] eqn:E
  end.

Lemma nestGet_rows (config : NestConfig) (s : list DoResult) :
  rowsOf (evs (nestGet config s)) = [].
Proof. nestGet_cases; try reflexivity; case_readSample; reflexivity. Qed.

Lemma nestGet_requests (config : NestConfig) (s : list DoResult) :
  requestsOf (evs (nestGet config s)) =
  match http_NewRequest "GET" NEST_GET with
  | Some _ => []
  | None => [getRequest config]
  end.
Proof. nestGet_cases; try reflexivity; case_readSample; reflexivity. Qed.

Lemma nestGet_puts (config : NestConfig) (s : list DoResult) :
  countPuts (evs (nestGet config s)) = 0%nat.
Proof.
  unfold countPuts. rewrite nestGet_requests.
  destruct (http_NewRequest "GET" NEST_GET); reflexivity.
Qed.

Lemma nestGet_err_zero (config : NestConfig) (s : list DoResult) (d : NestData) (e : error) :
  res (nestGet config s) = Ret (d, Some e) -> d = zeroData.
Proof.
  nestGet_cases; try (simpl; congruence);
    case_readSample; simpl; try congruence;
    intros [= <- <-]; eapply readSample_err_zero; eassumption.
Qed.

Ltac nestPut_cases :=
  unfold nestPut, bind; repeat client_step;
  try match goal with
      | |- context [res (nestGet ?c ?s)] =>
          let E := fresh "E" in destruct (res (nestGet c s)) as [[? [?|]]|] eqn:E; simpl
      end.

Lemma nestPut_rows (config : NestConfig) (hvacMode : string) (s : list DoResult) :
  rowsOf (evs (nestPut config hvacMode s)) = [].
Proof. nestPut_cases; try reflexivity; apply nestGet_rows. Qed.

Lemma nestPut_puts (config : NestConfig) (hvacMode : string) (s : list DoResult) :
  countPuts (evs (nestPut config hvacMode s)) =
  match http_NewRequest "PUT" (NEST_PUT +:+ ThermostatID config) with
  | Some _ => 0%nat
  | None => 1%nat
  end.
Proof.
  unfold nestPut, bind.
  destruct (http_NewRequest "PUT" (NEST_PUT +:+ ThermostatID config)); [reflexivity|].
  repeat client_step; try reflexivity.
  change (EvDo ?r :: EvSleep (minutes 1) :: ?l) with ([EvDo r; EvSleep (minutes 1)] ++ l)%list.
  rewrite countPuts_app, nestGet_puts. reflexivity.
Qed.

Lemma nestPut_ok_puts (config : NestConfig) (hvacMode : string) (s : list DoResult)
  (d : NestData) :
  res (nestPut config hvacMode s) = Ret (d, None) ->
  countPuts (evs (nestPut config hvacMode s)) = 1%nat.
Proof.
  rewrite nestPut_puts. unfold nestPut.
  destruct (http_NewRequest "PUT" (NEST_PUT +:+ ThermostatID config)); [discriminate|reflexivity].
Qed.

Lemma nestPut_err_zero (config : NestConfig) (hvacMode : string) (s : list DoResult)
  (d : NestData) (e : error) :
  res (nestPut config hvacMode s) = Ret (d, Some e) -> d = zeroData.
Proof.
  nestPut_cases; try congruence.
  intros [= <- <-]. eapply nestGet_err_zero; eassumption.
Qed.

(** A transport failure of the PUT: [client.Do] gives no response, and
    [defer resp.Body.Close()] runs before [err] is looked at. *)
Lemma nestPut_transport_failure (config : NestConfig) (hvacMode : string) (e : error)
  (s : list DoResult) :
  http_NewRequest "PUT" (NEST_PUT +:+ ThermostatID config) = None ->
  nestPut config hvacMode (DoErr e :: s) =
  mkOut (Stop PanicNilDeref) s [EvDo (putRequest config hvacMode)].
Proof. intros E. unfold nestPut. rewrite E. reflexivity. Qed.

(** A status other than 200 on the PUT is returned as an error. *)
Lemma nestPut_protocol_failure (config : NestConfig) (hvacMode : string) (resp : Response)
  (s : list DoResult) :
  http_NewRequest "PUT" (NEST_PUT +:+ ThermostatID config) = None ->
  StatusCode resp <> 200%Z ->
  nestPut config hvacMode (DoResp resp :: s) =
  mkOut (Ret (zeroData, Some (wrapErr "Problem getting an answer from Nest" None))) s
        [EvDo (putRequest config hvacMode)].
Proof.
  intros E Hs. unfold nestPut. rewrite E. unfold bind; simpl.
  destruct (Z.eqb_spec (StatusCode resp) 200); [contradiction|reflexivity].
Qed.

(** ** Ticks *)

Lemma tick_after_read (fuel : nat) (config : NestConfig) (last : Baseline)
  (s : list DoResult) (d : NestData) (err : option error) :
  res (nestGet config s) = Ret (d, err) ->
  tick fuel config last s =
  let o := (next <-
              match err with
              | Some e =>
                  writeString (RowNote e) ;;
                  printError "Error in GET request" (Some e) ;;
                  ret last
              | None => onSample fuel config last d
              end ;;
            emit EvSync ;; emit EvClose ;; sleepMinutes (Minutes config) ;; ret next)
           (rest (nestGet config s)) in
  mkOut (res o) (rest o) (evs (reopen config s) ++ evs (nestGet config s) ++ evs o)%list.
Proof.
  intros E. unfold tick.
  destruct (reopen_out config s) as (Hr & Hs & _).
  rewrite (bind_Ret _ _ _ tt Hr), Hs.
  rewrite (bind_Ret _ _ _ (d, err) E). reflexivity.
Qed.

Lemma tick_read_stops (fuel : nat) (config : NestConfig) (last : Baseline)
  (s : list DoResult) (h : Halt) :
  res (nestGet config s) = Stop h ->
  tick fuel config last s =
  mkOut (Stop h) (rest (nestGet config s)) (evs (reopen config s) ++ evs (nestGet config s))%list.
Proof.
  intros E. unfold tick.
  destruct (reopen_out config s) as (Hr & Hs & _).
  rewrite (bind_Ret _ _ _ tt Hr), Hs.
  rewrite (bind_Stop _ _ _ h E). reflexivity.
Qed.

Lemma ticks_step (n : nat) (config : NestConfig) (last next : Baseline) (s : list DoResult) :
  res (tick (S n) config last s) = Ret next ->
  ticks (S n) config last s =
  let o := tick (S n) config last s in
  let o' := ticks n config next (rest o) in
  mkOut (res o') (rest o') (evs o ++ evs o')%list.
Proof. intros E. simpl. apply (bind_Ret _ _ _ next E). Qed.

Lemma tick_on_error (fuel : nat) (config : NestConfig) (last : Baseline)
  (s : list DoResult) (d : NestData) (e : error) :
  res (nestGet config s) = Ret (d, Some e) ->
  tick fuel config last s =
  mkOut (Ret last) (rest (nestGet config s))
    (evs (reopen config s) ++ evs (nestGet config s) ++
     [EvWriteString (RowNote e);
      EvPrintf ("Error in GET request" +:+ ":" +:+ nl +:+ e +:+ nl);
      EvSync; EvClose; EvSleep (minutes (Minutes config))])%list.
Proof. intros E. rewrite (tick_after_read _ _ _ _ _ _ E). reflexivity. Qed.

Lemma tick_on_calm_sample (fuel : nat) (config : NestConfig) (last : Baseline)
  (s : list DoResult) (d : NestData) :
  res (nestGet config s) = Ret (d, None) ->
  restartNeeded last d = false ->
  tick fuel config last s =
  mkOut (Ret (baselineOf d)) (rest (nestGet config s))
    (evs (reopen config s) ++ evs (nestGet config s) ++
     [EvWriteString (RowSample (IsCooling d) (CurrentTemperature d));
      EvSync; EvClose; EvSleep (minutes (Minutes config))])%list.
Proof.
  intros E Hd. rewrite (tick_after_read _ _ _ _ _ _ E).
  rewrite onSample_detector, Hd. reflexivity.
Qed.

Lemma read_rows (config : NestConfig) (s : list DoResult) (l : list Event) :
  rowsOf (evs (reopen config s) ++ evs (nestGet config s) ++ l) = rowsOf l.
Proof.
  destruct (reopen_out config s) as (_ & _ & Hrows & _).
  rewrite !rowsOf_app, Hrows, nestGet_rows. reflexivity.
Qed.

Lemma read_puts (config : NestConfig) (s : list DoResult) (l : list Event) :
  countPuts (evs (reopen config s) ++ evs (nestGet config s) ++ l) = countPuts l.
Proof.
  destruct (reopen_out config s) as (_ & _ & _ & Hreqs).
  rewrite !countPuts_app, nestGet_puts. unfold countPuts at 1. rewrite Hreqs. reflexivity.
Qed.

(** C9: on a tick whose read succeeds and on which the detector does not
    fire, the baseline handed to the next tick has the cooling flag and the
    temperature of the sample just read. *)
Theorem tick_advances_baseline (fuel : nat) (config : NestConfig) (last : Baseline)
  (s : list DoResult) (d : NestData) :
  res (nestGet config s) = Ret (d, None) ->
  restartNeeded last d = false ->
  let o := tick fuel config last s in
  exists next,
    res o = Ret next /\
    lastIsCooling next = IsCooling d /\
    lastTemp next = CurrentTemperature d /\
    rowsOf (evs o) = [RowSample (IsCooling d) (CurrentTemperature d)] /\
    countPuts (evs o) = 0%nat /\
    (forall n,
       ticks (S n) config last s =
       let o' := ticks n config next (rest o) in
       mkOut (res o') (rest o') (evs o ++ evs o')%list).
Proof.
  intros E Hd o. subst o. exists (baselineOf d).
  rewrite (tick_on_calm_sample fuel _ _ _ _ E Hd). cbv zeta.
  unfold res at 1, rest at 1, evs at 1 2 3.
  split; [reflexivity|]. split; [reflexivity|]. split; [reflexivity|].
  split; [apply read_rows|]. split; [apply read_puts|].
  intros n. rewrite (ticks_step n config last (baselineOf d) s);
    rewrite (tick_on_calm_sample (S n) _ _ _ _ E Hd); reflexivity.
Qed.

(** C10: the loop starts its ticks from the baseline (false, 0); against it
    the detector fires for no sample, so the first tick handles whatever
    sample it reads by logging it and advancing the baseline, and attempts
    no write. *)
Theorem first_tick_never_recovers (fuel : nat) (config : NestConfig) :
  loop fuel config =
    (emit (EvCreate (Output config)) ;;
     match os_Create (Output config) with
     | Some err => printError "Problem creating output file" (Some err)
     | None => ret tt
     end ;;
     writeString RowHeader ;; emit EvSync ;; emit EvClose ;;
     ticks fuel config (mkBaseline false 0)) /\
  (forall d, restartNeeded (mkBaseline false 0) d = false) /\
  (forall d,
     onSample fuel config (mkBaseline false 0) d =
     (writeString (RowSample (IsCooling d) (CurrentTemperature d)) ;; ret (baselineOf d))) /\
  (forall s,
     let o := tick fuel config (mkBaseline false 0) s in
     countPuts (evs o) = 0%nat /\
     (rowsOf (evs o) = [] \/
      (exists d e, res (nestGet config s) = Ret (d, Some e) /\ rowsOf (evs o) = [RowNote e]) \/
      (exists d, res (nestGet config s) = Ret (d, None) /\
                 rowsOf (evs o) = [RowSample (IsCooling d) (CurrentTemperature d)]))).
Proof.
  split; [reflexivity|]. split; [reflexivity|]. split; [reflexivity|].
  intros s o. subst o.
  destruct (res (nestGet config s)) as [[d [e|]]|h] eqn:E.
  - rewrite (tick_on_error fuel _ _ _ _ _ E). unfold evs at 1 4.
    split; [apply read_puts|]. right; left. exists d, e. split; [reflexivity | apply read_rows].
  - rewrite (tick_on_calm_sample fuel config (mkBaseline false 0) s d E eq_refl).
    unfold evs at 1 4.
    split; [apply read_puts|]. right; right. exists d. split; [reflexivity | apply read_rows].
  - rewrite (tick_read_stops _ _ _ _ _ E). unfold evs at 1 4.
    rewrite <- (app_nil_r (evs (nestGet config s))).
    split; [apply read_puts | left; apply read_rows].
Qed.

(** ** The retry loops *)

Lemma shutoffReport_out (d : NestData) (err : option error) (s : list DoResult) :
  res (shutoffReport d err s) = Ret tt /\ rest (shutoffReport d err s) = s /\
  requestsOf (evs (shutoffReport d err s)) = [].
Proof.
  unfold shutoffReport. destruct err; [repeat split|].
  destruct (negb (String.eqb (HvacMode d) "off")); repeat split.
Qed.

Lemma restartReport_out (td d : NestData) (err : option error) (s : list DoResult) :
  res (restartReport td d err s) = Ret tt /\ rest (restartReport td d err s) = s /\
  requestsOf (evs (restartReport td d err s)) = [].
Proof.
  unfold restartReport. destruct err; [repeat split|].
  destruct (negb (String.eqb (HvacMode d) (HvacMode td))); repeat split.
Qed.

Lemma shutoffLoop_done (fuel : nat) (config : NestConfig) (d0 : NestData) (s : list DoResult) :
  HvacMode d0 = "off" -> shutoffLoop fuel config d0 s = mkOut (Ret d0) s [].
Proof. intros E. destruct fuel; simpl; rewrite E; reflexivity. Qed.

Lemma shutoffLoop_step (fuel : nat) (config : NestConfig) (d0 d : NestData)
  (err : option error) (s : list DoResult) :
  HvacMode d0 <> "off" ->
  res (nestPut config "off" s) = Ret (d, err) ->
  shutoffLoop (S fuel) config d0 s =
  let o := nestPut config "off" s in
  let o' := shutoffLoop fuel config d (rest o) in
  mkOut (res o') (rest o') (evs o ++ evs (shutoffReport d err (rest o)) ++ evs o')%list.
Proof.
  intros Hne E. simpl. apply String.eqb_neq in Hne. rewrite Hne. simpl.
  rewrite (bind_Ret _ _ _ (d, err) E).
  destruct (shutoffReport_out d err (rest (nestPut config "off" s))) as (Hr & Hs & _).
  rewrite (bind_Ret _ _ _ tt Hr), Hs. reflexivity.
Qed.

Lemma shutoffLoop_stop (fuel : nat) (config : NestConfig) (d0 : NestData) (h : Halt)
  (s : list DoResult) :
  HvacMode d0 <> "off" ->
  res (nestPut config "off" s) = Stop h ->
  shutoffLoop (S fuel) config d0 s =
  mkOut (Stop h) (rest (nestPut config "off" s)) (evs (nestPut config "off" s)).
Proof.
  intros Hne E. simpl. apply String.eqb_neq in Hne. rewrite Hne. simpl.
  apply (bind_Stop _ _ _ h E).
Qed.

Lemma restartLoop_done (fuel : nat) (config : NestConfig) (td d0 : NestData)
  (s : list DoResult) :
  HvacMode d0 = HvacMode td -> restartLoop fuel config td d0 s = mkOut (Ret d0) s [].
Proof. intros E. destruct fuel; simpl; rewrite E, String.eqb_refl; reflexivity. Qed.

Lemma restartLoop_step (fuel : nat) (config : NestConfig) (td d0 d : NestData)
  (err : option error) (s : list DoResult) :
  HvacMode d0 <> HvacMode td ->
  res (nestPut config (HvacMode td) s) = Ret (d, err) ->
  restartLoop (S fuel) config td d0 s =
  let o := nestPut config (HvacMode td) s in
  let o' := restartLoop fuel config td d (rest o) in
  mkOut (res o') (rest o') (evs o ++ evs (restartReport td d err (rest o)) ++ evs o')%list.
Proof.
  intros Hne E. simpl. apply String.eqb_neq in Hne. rewrite Hne. simpl.
  rewrite (bind_Ret _ _ _ (d, err) E).
  destruct (restartReport_out td d err (rest (nestPut config (HvacMode td) s))) as (Hr & Hs & _).
  rewrite (bind_Ret _ _ _ tt Hr), Hs. reflexivity.
Qed.

Lemma restartLoop_stop (fuel : nat) (config : NestConfig) (td d0 : NestData) (h : Halt)
  (s : list DoResult) :
  HvacMode d0 <> HvacMode td ->
  res (nestPut config (HvacMode td) s) = Stop h ->
  restartLoop (S fuel) config td d0 s =
  mkOut (Stop h) (rest (nestPut config (HvacMode td) s))
        (evs (nestPut config (HvacMode td) s)).
Proof.
  intros Hne E. simpl. apply String.eqb_neq in Hne. rewrite Hne. simpl.
  apply (bind_Stop _ _ _ h E).
Qed.

Lemma countNotes_nestPut (note : string) (config : NestConfig) (hvacMode : string)
  (s : list DoResult) :
  countNotes note (evs (nestPut config hvacMode s)) = 0%nat.
Proof. unfold countNotes. rewrite nestPut_rows. reflexivity. Qed.

Lemma shutoffLoop_settles (config : NestConfig) (N : nat) :
  forall fuel d0 s,
    (N < fuel)%nat -> HvacMode d0 <> "off" ->
    writesSettle config "off" N s ->
    retriesOnce (shutoffLoop fuel config d0 s) "off" "RESTART: waiting on turn off" N.
Proof.
  induction N as [|n IH]; intros fuel d0 s Hfuel Hne Hw;
    (destruct fuel as [|fuel]; [lia|]); simpl in Hw.
  - destruct Hw as (d & E & Hd).
    rewrite (shutoffLoop_step _ _ _ _ _ _ Hne E). cbv zeta.
    rewrite (shutoffLoop_done fuel config d _ Hd).
    unfold retriesOnce, res, evs at 1 4. unfold shutoffReport. rewrite Hd. simpl.
    split; [exists d; split; [reflexivity | exact Hd]|].
    rewrite countPuts_app, countNotes_app, (nestPut_ok_puts _ _ _ _ E), countNotes_nestPut.
    split; reflexivity.
  - destruct Hw as (d & E & Hd & Hw).
    rewrite (shutoffLoop_step _ _ _ _ _ _ Hne E). cbv zeta.
    destruct (IH fuel d (rest (nestPut config "off" s)) ltac:(lia) Hd Hw)
      as ((d' & Hres & Hd') & Hputs & Hnotes).
    unfold retriesOnce, res at 1, evs at 1 5. unfold shutoffReport.
    apply String.eqb_neq in Hd. rewrite Hd. simpl.
    split; [exists d'; split; assumption|].
    rewrite !countPuts_app, !countNotes_app, (nestPut_ok_puts _ _ _ _ E), countNotes_nestPut.
    change (EvWriteString ?r :: EvPrintf ?t :: ?l) with ([EvWriteString r; EvPrintf t] ++ l)%list.
    rewrite countPuts_app, countNotes_app, Hputs, Hnotes. split; reflexivity.
Qed.

Lemma restartLoop_settles (config : NestConfig) (td : NestData) (N : nat) :
  forall fuel d0 s,
    (N < fuel)%nat -> HvacMode d0 <> HvacMode td ->
    writesSettle config (HvacMode td) N s ->
    retriesOnce (restartLoop fuel config td d0 s) (HvacMode td)
      "RESTART: waiting on turn on" N.
Proof.
  induction N as [|n IH]; intros fuel d0 s Hfuel Hne Hw;
    (destruct fuel as [|fuel]; [lia|]); simpl in Hw.
  - destruct Hw as (d & E & Hd).
    rewrite (restartLoop_step _ _ _ _ _ _ _ Hne E). cbv zeta.
    rewrite (restartLoop_done fuel config td d _ Hd).
    unfold retriesOnce, res, evs at 1 4. unfold restartReport.
    rewrite Hd, String.eqb_refl. simpl.
    split; [exists d; split; [reflexivity | exact Hd]|].
    rewrite countPuts_app, countNotes_app, (nestPut_ok_puts _ _ _ _ E), countNotes_nestPut.
    split; reflexivity.
  - destruct Hw as (d & E & Hd & Hw).
    rewrite (restartLoop_step _ _ _ _ _ _ _ Hne E). cbv zeta.
    destruct (IH fuel d (rest (nestPut config (HvacMode td) s)) ltac:(lia) Hd Hw)
      as ((d' & Hres & Hd') & Hputs & Hnotes).
    unfold retriesOnce, res at 1, evs at 1 5. unfold restartReport.
    apply String.eqb_neq in Hd. rewrite Hd. simpl.
    split; [exists d'; split; assumption|].
    rewrite !countPuts_app, !countNotes_app, (nestPut_ok_puts _ _ _ _ E), countNotes_nestPut.
    change (EvWriteString ?r :: EvPrintf ?t :: ?l) with ([EvWriteString r; EvPrintf t] ++ l)%list.
    rewrite countPuts_app, countNotes_app, Hputs, Hnotes. split; reflexivity.
Qed.


(** ** Answers are consumed in order *)



Lemma consuming_ret {A} (a : A) : consuming (ret a).
Proof. intros s. exists []. reflexivity. Qed.

Lemma consuming_halt {A} (h : Halt) : consuming (halt (A := A) h).
Proof. intros s. exists []. reflexivity. Qed.

Lemma consuming_emit (e : Event) : consuming (emit e).
Proof. intros s. exists []. reflexivity. Qed.

Lemma consuming_clientDo (req : Request) : consuming (clientDo req).
Proof. intros [|r s]; [exists [] | exists [r]]; reflexivity. Qed.


Lemma consuming_printError (message : string) (err : option error) :
  consuming (printError message err).
Proof. destruct err; apply consuming_emit. Qed.

Create HintDb consuming.
#[local] Hint Resolve consuming_ret consuming_halt consuming_emit consuming_clientDo
  consuming_printError : consuming.








(** ** The baseline after a recovery *)




Lemma tick_recovers (fuel : nat) (config : NestConfig) (last : Baseline)
  (s : list DoResult) (td : NestData) :
  res (nestGet config s) = Ret (td, None) ->
  restartNeeded last td = true ->
  tick fuel config last s =
  let o := recover fuel config td (rest (nestGet config s)) in
  match res o with
  | Ret next =>
      mkOut (Ret next) (rest o)
        (evs (reopen config s) ++ evs (nestGet config s) ++
         [EvWriteString (RowSample (IsCooling td) (CurrentTemperature td))] ++ evs o ++
         [EvSync; EvClose; EvSleep (minutes (Minutes config))])%list
  | Stop h =>
      mkOut (Stop h) (rest o)
        (evs (reopen config s) ++ evs (nestGet config s) ++
         [EvWriteString (RowSample (IsCooling td) (CurrentTemperature td))] ++ evs o)%list
  end.
Proof.
  intros E Hfault. rewrite (tick_after_read _ _ _ _ _ _ E).
  rewrite onSample_detector, Hfault. cbv zeta. rewrite !bind_eq.
  cbn -[recover reopen nestGet].
  destruct (res (recover fuel config td (rest (nestGet config s))));
    cbn -[recover reopen nestGet]; reflexivity.
Qed.


(** ** Failures inside the recovery sequence *)

Lemma notify_no_hooks (config : NestConfig) (s : list DoResult) :
  WebhookPost config = "" -> WebhookGet config = "" ->
  notify config s = mkOut (Ret tt) s [].
Proof. intros E1 E2. unfold notify. rewrite E1, E2. reflexivity. Qed.

(** With no webhook configured and writes that settle, first for "off" and
    then for the mode of the sample, and with enough iterations allowed, a
    recovery completes. *)
Lemma recover_completes (fuel : nat) (config : NestConfig) (thermostatData : NestData)
  (N1 N2 : nat) (s : list DoResult) :
  (N1 < fuel)%nat -> (N2 < fuel)%nat ->
  WebhookPost config = "" -> WebhookGet config = "" ->
  HvacMode thermostatData <> "unrestarted" ->
  writesSettle config "off" N1 s ->
  writesSettle config (HvacMode thermostatData) N2
    (rest (shutoffLoop fuel config unrestarted s)) ->
  exists d,
    res (recover fuel config thermostatData s) = Ret (baselineOf d) /\
    HvacMode d = HvacMode thermostatData /\
    countPuts (evs (recover fuel config thermostatData s)) = (S N1 + S N2)%nat.
Proof.
  intros H1 H2 Hp Hg Hne W1 W2.
  destruct (shutoffLoop_settles config N1 fuel unrestarted s H1 ltac:(discriminate) W1)
    as ((d1 & R1 & _) & P1 & _).
  assert (Hne' : HvacMode unrestarted <> HvacMode thermostatData) by (simpl; congruence).
  destruct (restartLoop_settles config thermostatData N2 fuel unrestarted _ H2 Hne' W2)
    as ((d2 & R2 & M2) & P2 & _).
  exists d2. unfold recover, go.
  rewrite bind_eq. cbn -[notify shutoffLoop restartLoop countPuts].
  rewrite bind_eq, (notify_no_hooks config _ Hp Hg).
  cbn -[notify shutoffLoop restartLoop countPuts].
  rewrite bind_eq, R1. cbn -[notify shutoffLoop restartLoop countPuts].
  rewrite bind_eq, R2. cbn -[notify shutoffLoop restartLoop countPuts].
  split; [reflexivity|]. split; [exact M2|].
  rewrite app_nil_r.
  change (EvWriteString ?r :: ?l) with ([EvWriteString r] ++ l)%list.
  rewrite !countPuts_app, P1, P2. reflexivity.
Qed.

(** A transport failure of a webhook call: the same [defer] before the test
    of [err] as in [nestPut]. *)
Lemma webhook_transport_failure (method url : string) (e : error) (s : list DoResult) :
  http_NewRequest method url = None ->
  webhook method url (DoErr e :: s) =
  mkOut (Stop PanicNilDeref) s [EvDo (mkRequest method url None [])].
Proof. intros E. unfold webhook. rewrite E. reflexivity. Qed.

(** A webhook answered with a status other than 200 is reported on the
    console and the sequence goes on. *)
Lemma notify_protocol_failure (config : NestConfig) (resp : Response) (s : list DoResult) :
  WebhookPost config <> "" -> WebhookGet config = "" ->
  http_NewRequest "POST" (WebhookPost config) = None ->
  StatusCode resp <> 200%Z ->
  notify config (DoResp resp :: s) =
  mkOut (Ret tt) s
    [EvDo (mkRequest "POST" (WebhookPost config) None []);
     EvPrintf ("Problem with webhook-post" +:+ ":" +:+ nl +:+
               wrapErr "Problem communicating with webhook" None +:+ nl)].
Proof.
  intros Hp Hg E Hs. unfold notify, webhook. rewrite Hg, E.
  apply String.eqb_neq in Hp. rewrite Hp.
  unfold bind; simpl. destruct (Z.eqb_spec (StatusCode resp) 200); [contradiction|].
  reflexivity.
Qed.

(** A status other than 200 on a write of the shut-off loop is logged and
    the write is tried again. *)
Lemma shutoffLoop_protocol_failure (fuel : nat) (config : NestConfig) (d0 : NestData)
  (resp : Response) (s : list DoResult) :
  http_NewRequest "PUT" (NEST_PUT +:+ ThermostatID config) = None ->
  StatusCode resp <> 200%Z ->
  HvacMode d0 <> "off" ->
  shutoffLoop (S fuel) config d0 (DoResp resp :: s) =
  let e := wrapErr "Problem getting an answer from Nest" None in
  let o' := shutoffLoop fuel config zeroData s in
  mkOut (res o') (rest o')
    ([EvDo (putRequest config "off");
      EvWriteString (RowNote ("Error turning system off:" +:+ nl +:+ e));
      EvPrintf ("Error turning system off" +:+ ":" +:+ nl +:+ e +:+ nl)] ++ evs o')%list.
Proof.
  intros E Hs Hne.
  pose proof (nestPut_protocol_failure config "off" resp s E Hs) as P.
  rewrite (shutoffLoop_step fuel config d0 zeroData
             (Some (wrapErr "Problem getting an answer from Nest" None)) _ Hne)
    by (rewrite P; reflexivity).
  rewrite P. reflexivity.
Qed.

(** C4: a transport failure of a write (no response from [client.Do]) ends
    the process with a panic: after the row that announces the restart and
    the one PUT, nothing is logged and nothing is retried. *)
Theorem write_transport_failure_crashes (fuel : nat) (config : NestConfig)
  (thermostatData : NestData) (e : error) (s : list DoResult) :
  http_NewRequest "PUT" (NEST_PUT +:+ ThermostatID config) = None ->
  WebhookPost config = "" -> WebhookGet config = "" ->
  let o := recover (S fuel) config thermostatData (DoErr e :: s) in
  res o = Stop PanicNilDeref /\
  exitStatus (res o) = Some 2%Z /\
  rowsOf (evs o) = [RowNote "RESTARTING SYSTEM"] /\
  countPuts (evs o) = 1%nat.
Proof.
  intros E Hp Hg o. subst o. unfold recover, go.
  rewrite bind_eq. cbn -[notify shutoffLoop restartLoop].
  rewrite bind_eq, (notify_no_hooks config _ Hp Hg).
  cbn -[notify shutoffLoop restartLoop].
  rewrite bind_eq, (shutoffLoop_stop fuel config unrestarted PanicNilDeref)
    by (try discriminate; rewrite (nestPut_transport_failure _ _ _ _ E); reflexivity).
  rewrite (nestPut_transport_failure _ _ _ _ E). repeat split.
Qed.

(** The function started with [go] panics when the first webhook it calls
    fails at transport level. *)
Lemma notify_transport_failure (config : NestConfig) (e : error) (s : list DoResult) :
  (WebhookPost config <> "" /\ http_NewRequest "POST" (WebhookPost config) = None) \/
  (WebhookPost config = "" /\ WebhookGet config <> "" /\
   http_NewRequest "GET" (WebhookGet config) = None) ->
  notify config (DoErr e :: s) =
  mkOut (Stop PanicNilDeref) s
    [EvDo (mkRequest (if String.eqb (WebhookPost config) "" then "GET" else "POST")
             (if String.eqb (WebhookPost config) ""
              then WebhookGet config else WebhookPost config) None [])].
Proof.
  intros Hhook. unfold notify. destruct Hhook as [[Hp E] | (Hp & Hg & E)].
  - apply String.eqb_neq in Hp. rewrite Hp. simpl.
    rewrite bind_eq, bind_eq, (webhook_transport_failure _ _ _ _ E). reflexivity.
  - apply String.eqb_neq in Hg. rewrite Hp, Hg. simpl.
    rewrite bind_eq. simpl.
    rewrite bind_eq, (webhook_transport_failure _ _ _ _ E). reflexivity.
Qed.

(** C5: a transport failure of a configured webhook call ends the process
    with a panic before any write is attempted: no shut-off, no restart and
    no confirmation row. *)
Theorem webhook_transport_failure_crashes (fuel : nat) (config : NestConfig)
  (thermostatData : NestData) (e : error) (s : list DoResult) :
  (WebhookPost config <> "" /\ http_NewRequest "POST" (WebhookPost config) = None) \/
  (WebhookPost config = "" /\ WebhookGet config <> "" /\
   http_NewRequest "GET" (WebhookGet config) = None) ->
  let o := recover fuel config thermostatData (DoErr e :: s) in
  res o = Stop PanicNilDeref /\
  exitStatus (res o) = Some 2%Z /\
  rowsOf (evs o) = [RowNote "RESTARTING SYSTEM"] /\
  countPuts (evs o) = 0%nat.
Proof.
  intros Hhook o. subst o. unfold recover, go.
  rewrite bind_eq. cbn -[notify shutoffLoop restartLoop].
  rewrite bind_eq.
  rewrite (notify_transport_failure config e s Hhook).
  cbn -[notify shutoffLoop restartLoop]. repeat split.
  unfold countPuts. simpl. destruct (String.eqb (WebhookPost config) ""); reflexivity.
Qed.

(** ** Documents without the expected fields *)

Lemma sampleIn_schema_faults (config : NestConfig) (m0 m1 m2 m3 : gmap string json) :
  (asObj (m0 !! "devices") = None -> sampleIn config (JObj m0) = None) /\
  (m0 !! "devices" = Some (JObj m1) -> m1 !! "thermostats" = Some (JObj m2) ->
   asObj (m2 !! ThermostatID config) = None -> sampleIn config (JObj m0) = None) /\
  (m0 !! "devices" = Some (JObj m1) -> m1 !! "thermostats" = Some (JObj m2) ->
   m2 !! ThermostatID config = Some (JObj m3) ->
   asNum (m3 !! "ambient_temperature_f") = None \/
   asStr (m3 !! "hvac_mode") = None \/
   asStr (m3 !! "hvac_state") = None ->
   sampleIn config (JObj m0) = None).
Proof.
  unfold sampleIn. simpl. repeat split.
  - intros ->. reflexivity.
  - intros E1 E2 E3. rewrite E1. simpl. rewrite E2. simpl. rewrite E3. reflexivity.
  - intros E1 E2 E3 E4. rewrite E1. simpl. rewrite E2. simpl. rewrite E3. simpl.
    destruct E4 as [-> | [-> | ->]]; simpl; try reflexivity.
    + destruct (asNum _); reflexivity.
    + destruct (asNum _); [destruct (asStr _)|]; reflexivity.
Qed.

Lemma nestGet_decodes (config : NestConfig) (raw : string) (rawData : json)
  (s : list DoResult) :
  http_NewRequest "GET" NEST_GET = None ->
  (Debug config = true -> os_Create (LastOutput config) = None) ->
  res (nestGet config (DoResp (mkResponse 200 (BodyBytes raw (inl rawData))) :: s)) =
  match sampleIn config rawData with
  | Some d => Ret (d, None)
  | None => Stop PanicInterfaceConversion
  end.
Proof.
  intros E Hdump. unfold nestGet. rewrite E. rewrite bind_eq. cbn -[readSample sampleIn].
  destruct (Debug config).
  - rewrite (Hdump eq_refl). rewrite !bind_eq. cbn -[readSample sampleIn].
    rewrite readSample_result. destruct (sampleIn config rawData); reflexivity.
  - apply readSample_result.
Qed.

(** C6: a 200 answer whose document lacks the device id under devices and
    thermostats, or one of the three fields with its type, makes [nestGet]
    panic on a type assertion: no error value is returned. *)
Theorem read_schema_fault_panics (config : NestConfig) (raw : string) (rawData : json)
  (s : list DoResult) :
  http_NewRequest "GET" NEST_GET = None ->
  (Debug config = true -> os_Create (LastOutput config) = None) ->
  sampleIn config rawData = None ->
  let o := nestGet config (DoResp (mkResponse 200 (BodyBytes raw (inl rawData))) :: s) in
  res o = Stop PanicInterfaceConversion /\ exitStatus (res o) = Some 2%Z.
Proof.
  intros E Hdump Hnone o. subst o.
  rewrite (nestGet_decodes config raw rawData s E Hdump), Hnone. split; reflexivity.
Qed.

(** The error written for a thermostat that is not found is never returned. *)
Lemma nestGet_never_reports_missing_thermostat (config : NestConfig) (s : list DoResult)
  (d : NestData) (e : error) :
  res (nestGet config s) = Ret (d, Some e) ->
  e <> wrapErr "Could not find thermoastat in Nest GET call" None.
Proof.
  nestGet_cases; try (simpl; intros [= <- <-]; discriminate);
    try discriminate;
    match goal with
    | |- context [res (readSample ?c ?dec ?s')] => destruct dec as [rawData|err]
    end;
    try (rewrite readSample_result; destruct (sampleIn _ _); discriminate);
    simpl; intros [= <- <-]; discriminate.
Qed.

(** ** Reads that fail inside a tick *)

Lemma loop_first_tick_stops (n : nat) (config : NestConfig) (s : list DoResult) (h : Halt) :
  res (tick (S n) config (mkBaseline false 0) s) = Stop h ->
  rowsOf (evs (tick (S n) config (mkBaseline false 0) s)) = [] ->
  res (loop (S n) config s) = Stop h /\ rowsOf (evs (loop (S n) config s)) = [RowHeader].
Proof.
  intros E R. unfold loop. rewrite !bind_eq. cbn -[tick ticks].
  assert (T : ticks (S n) config (mkBaseline false 0) s =
              mkOut (Stop h) (rest (tick (S n) config (mkBaseline false 0) s))
                    (evs (tick (S n) config (mkBaseline false 0) s)))
    by (simpl ticks; apply (bind_Stop _ _ _ h E)).
  destruct (os_Create (Output config)) as [err|]; cbn -[tick ticks];
    rewrite ?bind_eq; cbn -[tick ticks]; rewrite T; cbn -[tick ticks];
    (split; [reflexivity|]); rewrite R; reflexivity.
Qed.

(** C8: a tick whose read returns an error hands one row, the error, to the
    output file, returns the baseline as it was, attempts no write, does
    nothing but open the file, read, report, flush, close and sleep, and the
    loop goes on to the next tick with the same baseline.  A read that fails
    on the shape of the document returns no error: the type assertion
    panics inside the tick, which writes no row, and the loop ends there with
    the process (exit status 2), on whatever tick it happens. *)
Theorem tick_read_failure (fuel : nat) (config : NestConfig) (last : Baseline)
  (s : list DoResult) :
  (forall d e,
     res (nestGet config s) = Ret (d, Some e) ->
     let o := tick fuel config last s in
     res o = Ret last /\
     rest o = rest (nestGet config s) /\
     rowsOf (evs o) = [RowNote e] /\
     countPuts (evs o) = 0%nat /\
     evs o = (evs (reopen config s) ++ evs (nestGet config s) ++
              [EvWriteString (RowNote e);
               EvPrintf ("Error in GET request" +:+ ":" +:+ nl +:+ e +:+ nl);
               EvSync; EvClose; EvSleep (minutes (Minutes config))])%list /\
     (forall n,
        ticks (S n) config last s =
        let o' := ticks n config last (rest o) in
        mkOut (res o') (rest o') (evs o ++ evs o')%list)) /\
  (forall raw rawData,
     http_NewRequest "GET" NEST_GET = None ->
     (Debug config = true -> os_Create (LastOutput config) = None) ->
     sampleIn config rawData = None ->
     let answers := DoResp (mkResponse 200 (BodyBytes raw (inl rawData))) :: s in
     let o := tick fuel config last answers in
     res o = Stop PanicInterfaceConversion /\
     exitStatus (res o) = Some 2%Z /\
     rowsOf (evs o) = [] /\
     countPuts (evs o) = 0%nat /\
     (forall n,
        res (ticks (S n) config last answers) = Stop PanicInterfaceConversion /\
        rowsOf (evs (ticks (S n) config last answers)) = []) /\
     (forall n,
        exitStatus (res (loop (S n) config answers)) = Some 2%Z /\
        rowsOf (evs (loop (S n) config answers)) = [RowHeader])).
Proof.
  split.
  - intros d e E o. subst o. rewrite (tick_on_error fuel _ _ _ _ _ E). cbv zeta.
    unfold res at 1, rest at 1, evs at 1 2 3 4.
    split; [reflexivity|]. split; [reflexivity|].
    split; [apply read_rows|]. split; [apply read_puts|]. split; [reflexivity|].
    intros n. rewrite (ticks_step n config last last s);
      rewrite (tick_on_error (S n) _ _ _ _ _ E); reflexivity.
  - intros raw rawData E Hdump Hnone answers o.
    assert (P : res (nestGet config answers) = Stop PanicInterfaceConversion).
    { unfold answers. rewrite (nestGet_decodes config raw rawData s E Hdump), Hnone.
      reflexivity. }
    assert (T : forall fuel' last',
              res (tick fuel' config last' answers) = Stop PanicInterfaceConversion /\
              rowsOf (evs (tick fuel' config last' answers)) = [] /\
              countPuts (evs (tick fuel' config last' answers)) = 0%nat).
    { intros fuel' last'. rewrite (tick_read_stops _ _ _ _ _ P). cbn [res rest evs].
      rewrite <- (app_nil_r (evs (nestGet config answers))).
      split; [reflexivity|]. split; [apply read_rows | apply read_puts]. }
    subst o. destruct (T fuel last) as (T1 & T2 & T3).
    split; [exact T1|]. split; [rewrite T1; reflexivity|]. split; [exact T2|].
    split; [exact T3|]. split.
    + intros n. destruct (T (S n) last) as (U1 & U2 & _). simpl ticks.
      rewrite (bind_Stop _ _ _ _ U1). split; [reflexivity | exact U2].
    + intros n. destruct (T (S n) (mkBaseline false 0)) as (U1 & U2 & _).
      destruct (loop_first_tick_stops n config answers _ U1 U2) as [L1 L2].
      rewrite L1. split; [reflexivity | exact L2].
Qed.

(** ** Start-up *)

Lemma printsOnly_ret {A} (a : A) : printsOnly (ret a).
Proof. intros s. split; [exists a; reflexivity|]. split; [reflexivity | constructor]. Qed.

Lemma printsOnly_bind {A B} (m : M A) (k : A -> M B) :
  printsOnly m -> (forall a, printsOnly (k a)) -> printsOnly (bind m k).
Proof.
  intros Hm Hk s. rewrite bind_eq. destruct (Hm s) as ([a Ha] & Hr & He).
  rewrite Ha. destruct (Hk a (rest (m s))) as ([b Hb] & Hr' & He'). simpl.
  split; [exists b; exact Hb|]. split; [rewrite Hr', Hr; reflexivity|].
  apply Forall_app. split; assumption.
Qed.

Lemma printsOnly_printf (t : string) : printsOnly (emit (EvPrintf t)).
Proof.
  intros s. split; [exists tt; reflexivity|]. split; [reflexivity|].
  constructor; [exists t; reflexivity | constructor].
Qed.

Lemma printsOnly_printError (message : string) (err : option error) :
  printsOnly (printError message err).
Proof. destruct err; apply printsOnly_printf. Qed.

Create HintDb prints.
#[local] Hint Resolve printsOnly_ret printsOnly_printf printsOnly_printError : prints.

Ltac prints_auto :=
  repeat first
    [ apply printsOnly_bind; [|intros ?]
    | progress auto with prints
    | match goal with
      | |- printsOnly (match ?x with _ => _ end) => destruct x
      | |- printsOnly (if ?x then _ else _) => destruct x
      | |- printsOnly (let '(_, _) := ?x in _) => destruct x
      end ].

Lemma printsOnly_displayHelp : printsOnly displayHelp.
Proof. unfold displayHelp. prints_auto. Qed.

Lemma printsOnly_andThen (c : M (option NestConfig)) (k : NestConfig -> M (option NestConfig)) :
  printsOnly c -> (forall config, printsOnly (k config)) -> printsOnly (andThen c k).
Proof.
  intros Hc Hk. unfold andThen. apply printsOnly_bind; [exact Hc|].
  intros [config|]; [apply Hk | apply printsOnly_ret].
Qed.

Lemma allowedSingles_prints (name : string) (f : M unit) :
  allowedSingles !! name = Some f -> printsOnly f.
Proof.
  unfold allowedSingles. intros E.
  repeat (apply lookup_insert_Some in E as [[_ <-] | [_ E]]; [apply printsOnly_displayHelp|]).
  rewrite lookup_empty in E. discriminate E.
Qed.

Lemma printsOnly_mainSetup (args : list string) : printsOnly (mainSetup args).
Proof.
  unfold mainSetup, expectedArguments, unexpectedArgument.
  destruct (Nat.eqb (length args) 1); [prints_auto|].
  destruct (Nat.eqb (length args) 2).
  - destruct (allowedSingles !! strings_ToLower (nth 1 args "")) as [f|] eqn:E;
      [|prints_auto].
    apply printsOnly_bind; [eapply allowedSingles_prints; exact E | intros _; prints_auto].
  - destruct (parseArgs (tail args) ∅) as [argMap|]; [|prints_auto].
    repeat (apply printsOnly_andThen; [|intros ?]);
      unfold stepConfigFile, stepThermostatID, stepToken, stepMinutes, stepOutput,
        stepWebhookPost, stepWebhookGet; prints_auto.
Qed.

Lemma andThen_Some (c : M (option NestConfig)) (k : NestConfig -> M (option NestConfig))
  (s : list DoResult) (config : NestConfig) :
  res (andThen c k s) = Ret (Some config) ->
  exists config0, res (c s) = Ret (Some config0) /\
                  res (k config0 (rest (c s))) = Ret (Some config).
Proof.
  unfold andThen. intros E. apply bind_Ret_inv in E as ([config0|] & Hc & Hk).
  - exists config0. split; assumption.
  - discriminate Hk.
Qed.

Lemma processConfig_minutes (fileName : string) (config c : NestConfig) :
  processConfig fileName config = (c, None) ->
  (1 <= Minutes config)%Z -> (1 <= Minutes c)%Z.
Proof.
  unfold processConfig. destruct (ioutil_ReadFile fileName) as [content|]; [|discriminate].
  destruct (json_UnmarshalConfig content) as [o|]; [|discriminate].
  intros [= <-] Hmin.
  destruct (String.eqb (LastOutput _) ""), (String.eqb (Output _) "");
    destruct (Z.ltb_spec (Minutes o) 1); simpl; lia.
Qed.

Lemma stepConfigFile_Some (argMap : gmap string string) (config c : NestConfig)
  (s : list DoResult) :
  res (stepConfigFile argMap config s) = Ret (Some c) ->
  (1 <= Minutes config)%Z ->
  (1 <= Minutes c)%Z /\
  (at_ argMap cmdConfig <> "" ->
   exists c', processConfig (at_ argMap cmdConfig) config = (c', None)).
Proof.
  unfold stepConfigFile. destruct (String.eqb_spec (at_ argMap cmdConfig) "") as [E|E]; simpl.
  - intros [= <-] Hmin. split; [exact Hmin | contradiction].
  - destruct (processConfig (at_ argMap cmdConfig) config) as [c' [err|]] eqn:P;
      [discriminate|].
    intros [= <-] Hmin. split; [eapply processConfig_minutes; eassumption|].
    intros _. exists c'. reflexivity.
Qed.

Lemma stepThermostatID_Some (argMap : gmap string string) (config c : NestConfig)
  (s : list DoResult) :
  res (stepThermostatID argMap config s) = Ret (Some c) ->
  ThermostatID c <> "" /\ Minutes c = Minutes config.
Proof.
  unfold stepThermostatID.
  destruct (String.eqb_spec (at_ argMap cmdThermostatID) "") as [E|E]; simpl.
  - destruct (String.eqb_spec (ThermostatID config) ""); [discriminate|].
    intros [= <-]. split; [assumption | reflexivity].
  - intros [= <-]. split; [exact E | reflexivity].
Qed.

Lemma stepToken_Some (argMap : gmap string string) (config c : NestConfig)
  (s : list DoResult) :
  res (stepToken argMap config s) = Ret (Some c) ->
  Token c <> "" /\ ThermostatID c = ThermostatID config /\ Minutes c = Minutes config.
Proof.
  unfold stepToken.
  destruct (String.eqb_spec (at_ argMap cmdToken) "") as [E|E]; simpl.
  - destruct (String.eqb_spec (Token config) ""); [discriminate|].
    intros [= <-]. repeat split; assumption.
  - intros [= <-]. repeat split; exact E.
Qed.

Lemma stepMinutes_Some (argMap : gmap string string) (config c : NestConfig)
  (s : list DoResult) :
  res (stepMinutes argMap config s) = Ret (Some c) ->
  Token c = Token config /\ ThermostatID c = ThermostatID config /\
  (at_ argMap cmdMinutes = "" -> Minutes c = Minutes config) /\
  (at_ argMap cmdMinutes <> "" ->
   exists z, strconv_Atoi (at_ argMap cmdMinutes) = inl z /\ (1 <= z)%Z /\ Minutes c = z).
Proof.
  unfold stepMinutes.
  destruct (String.eqb_spec (at_ argMap cmdMinutes) "") as [E|E]; simpl.
  - intros [= <-]. repeat split; intros; try reflexivity; contradiction.
  - destruct (strconv_Atoi (at_ argMap cmdMinutes)) as [z|err]; [|discriminate].
    destruct (Z.ltb_spec z 1); [discriminate|].
    intros [= <-]. repeat split; try contradiction.
    intros _. exists z. repeat split. lia.
Qed.

Lemma stepOutput_Some (argMap : gmap string string) (config c : NestConfig)
  (s : list DoResult) :
  res (stepOutput argMap config s) = Ret (Some c) ->
  Token c = Token config /\ ThermostatID c = ThermostatID config /\
  Minutes c = Minutes config.
Proof.
  unfold stepOutput. destruct (negb (String.eqb (at_ argMap cmdOutput) ""));
    intros [= <-]; repeat split.
Qed.

Lemma stepWebhookPost_Some (argMap : gmap string string) (config c : NestConfig)
  (s : list DoResult) :
  res (stepWebhookPost argMap config s) = Ret (Some c) ->
  Token c = Token config /\ ThermostatID c = ThermostatID config /\
  Minutes c = Minutes config /\
  (at_ argMap cmdWebhookPost <> "" ->
   url_ParseRequestURI (at_ argMap cmdWebhookPost) = None).
Proof.
  unfold stepWebhookPost.
  destruct (String.eqb_spec (at_ argMap cmdWebhookPost) "") as [E|E]; simpl.
  - intros [= <-]. repeat split. contradiction.
  - destruct (url_ParseRequestURI (at_ argMap cmdWebhookPost)); [discriminate|].
    intros [= <-]. repeat split; intros; reflexivity.
Qed.

Lemma stepWebhookGet_Some (argMap : gmap string string) (config c : NestConfig)
  (s : list DoResult) :
  res (stepWebhookGet argMap config s) = Ret (Some c) ->
  Token c = Token config /\ ThermostatID c = ThermostatID config /\
  Minutes c = Minutes config /\
  (at_ argMap cmdWebhookGet <> "" ->
   url_ParseRequestURI (at_ argMap cmdWebhookGet) = None).
Proof.
  unfold stepWebhookGet.
  destruct (String.eqb_spec (at_ argMap cmdWebhookGet) "") as [E|E]; simpl.
  - intros [= <-]. repeat split. contradiction.
  - destruct (url_ParseRequestURI (at_ argMap cmdWebhookGet)); [discriminate|].
    intros [= <-]. repeat split; intros; reflexivity.
Qed.

Lemma mainSetup_validated (args : list string) (s : list DoResult) (config : NestConfig) :
  res (mainSetup args s) = Ret (Some config) -> validated args config.
Proof.
  unfold mainSetup.
  destruct (Nat.eqb (length args) 1); [discriminate|].
  destruct (Nat.eqb (length args) 2).
  { destruct (allowedSingles !! _) as [f|]; [|discriminate].
    intros E. apply bind_Ret_inv in E as (? & _ & E). discriminate E. }
  destruct (parseArgs (tail args) ∅) as [argMap|] eqn:P; [|discriminate].
  intros E.
  apply andThen_Some in E as (c6 & E & H7). apply stepWebhookGet_Some in H7.
  apply andThen_Some in E as (c5 & E & H6). apply stepWebhookPost_Some in H6.
  apply andThen_Some in E as (c4 & E & H5). apply stepOutput_Some in H5.
  apply andThen_Some in E as (c3 & E & H4). apply stepMinutes_Some in H4.
  apply andThen_Some in E as (c2 & E & H3). apply stepToken_Some in H3.
  apply andThen_Some in E as (c1 & E & H2). apply stepThermostatID_Some in H2.
  apply stepConfigFile_Some in E as (Hmin & Hfile); [|simpl; lia].
  destruct H7 as (T7 & I7 & M7 & U7), H6 as (T6 & I6 & M6 & U6), H5 as (T5 & I5 & M5),
    H4 as (T4 & I4 & M4 & A4), H3 as (T3 & I3 & M3), H2 as (I2 & M2).
  unfold validated. split; [congruence|]. split; [congruence|].
  assert (Hm : (1 <= Minutes c4)%Z).
  { destruct (String.eqb_spec (at_ argMap cmdMinutes) "") as [Z|Z].
    - rewrite (M4 Z). lia.
    - destruct (A4 Z) as (z & _ & Hz & ->). exact Hz. }
  split; [lia|].
  exists argMap. split; [exact P|]. split; [exact Hfile|]. split; [|split; assumption].
  intros Z. destruct (A4 Z) as (z & Hz & Hz1 & Hz2). exists z. repeat split; try assumption.
  congruence.
Qed.

Lemma out_eta {A} (o : Out A) : mkOut (res o) (rest o) (evs o) = o.
Proof. destruct o; reflexivity. Qed.

Lemma andThen_pass (c : M (option NestConfig)) (k : NestConfig -> M (option NestConfig))
  (s : list DoResult) (config : NestConfig) :
  c s = mkOut (Ret (Some config)) s [] -> andThen c k s = k config s.
Proof. intros E. unfold andThen. rewrite bind_eq, E. simpl. apply out_eta. Qed.

Lemma andThen_fail (c : M (option NestConfig)) (k : NestConfig -> M (option NestConfig))
  (s : list DoResult) (l : list Event) :
  c s = mkOut (Ret None) s l -> andThen c k s = mkOut (Ret None) s l.
Proof. intros E. unfold andThen. rewrite bind_eq, E. simpl. rewrite app_nil_r. reflexivity. Qed.

Lemma stepOutcome_andThen (P Q : NestConfig -> Prop) (c : M (option NestConfig))
  (k : NestConfig -> M (option NestConfig)) (s : list DoResult) (errors errors' : list string) :
  stepOutcome P c s errors ->
  (forall config, P config -> stepOutcome Q (k config) s errors') ->
  stepOutcome Q (andThen c k) s (errors ++ errors').
Proof.
  intros Hc Hk. destruct errors as [|text errors]; simpl in *.
  - destruct Hc as (config & E & HP). specialize (Hk config HP).
    unfold stepOutcome in *. rewrite (andThen_pass _ _ _ _ E). exact Hk.
  - apply andThen_fail. exact Hc.
Qed.

Lemma stepConfigFile_outcome (argMap : gmap string string) (s : list DoResult) :
  stepOutcome (fun config => config = baseConfig argMap)
    (stepConfigFile argMap defaultConfig) s (fileErrors argMap).
Proof.
  unfold stepOutcome, stepConfigFile, fileErrors, baseConfig.
  destruct (String.eqb (at_ argMap cmdConfig) ""); simpl.
  - exists defaultConfig. split; reflexivity.
  - destruct (processConfig (at_ argMap cmdConfig) defaultConfig) as [c [err|]]; simpl.
    + reflexivity.
    + exists c. split; reflexivity.
Qed.

Lemma stepThermostatID_outcome (argMap : gmap string string) (s : list DoResult)
  (config : NestConfig) :
  config = baseConfig argMap ->
  stepOutcome (fun config' => Token config' = Token (baseConfig argMap))
    (stepThermostatID argMap config) s (thermostatIDErrors argMap).
Proof.
  intros ->. unfold stepOutcome, stepThermostatID, thermostatIDErrors.
  destruct (String.eqb (at_ argMap cmdThermostatID) ""); simpl.
  - destruct (String.eqb (ThermostatID (baseConfig argMap)) ""); simpl.
    + reflexivity.
    + eexists. split; reflexivity.
  - eexists. split; reflexivity.
Qed.

Lemma stepToken_outcome (argMap : gmap string string) (s : list DoResult)
  (config : NestConfig) :
  Token config = Token (baseConfig argMap) ->
  stepOutcome (fun _ => True) (stepToken argMap config) s (tokenErrors argMap).
Proof.
  intros E. unfold stepOutcome, stepToken, tokenErrors. rewrite E.
  destruct (String.eqb (at_ argMap cmdToken) ""); simpl.
  - destruct (String.eqb (Token (baseConfig argMap)) ""); simpl.
    + reflexivity.
    + eexists. split; [reflexivity | exact I].
  - eexists. split; [reflexivity | exact I].
Qed.

Lemma stepMinutes_outcome (argMap : gmap string string) (s : list DoResult)
  (config : NestConfig) :
  stepOutcome (fun _ => True) (stepMinutes argMap config) s (minutesErrors argMap).
Proof.
  unfold stepOutcome, stepMinutes, minutesErrors.
  destruct (String.eqb (at_ argMap cmdMinutes) ""); simpl.
  - eexists. split; [reflexivity | exact I].
  - destruct (strconv_Atoi (at_ argMap cmdMinutes)) as [z|err]; simpl.
    + destruct (z <? 1)%Z; simpl; [reflexivity|]. eexists. split; [reflexivity | exact I].
    + reflexivity.
Qed.

Lemma stepOutput_outcome (argMap : gmap string string) (s : list DoResult)
  (config : NestConfig) :
  stepOutcome (fun _ => True) (stepOutput argMap config) s [].
Proof.
  unfold stepOutcome, stepOutput.
  destruct (negb (String.eqb (at_ argMap cmdOutput) "")); eexists;
    (split; [reflexivity | exact I]).
Qed.

Lemma stepWebhookPost_outcome (argMap : gmap string string) (s : list DoResult)
  (config : NestConfig) :
  stepOutcome (fun _ => True) (stepWebhookPost argMap config) s (webhookPostErrors argMap).
Proof.
  unfold stepOutcome, stepWebhookPost, webhookPostErrors.
  destruct (String.eqb (at_ argMap cmdWebhookPost) ""); simpl.
  - eexists. split; [reflexivity | exact I].
  - destruct (url_ParseRequestURI (at_ argMap cmdWebhookPost)); simpl;
      [reflexivity|]. eexists. split; [reflexivity | exact I].
Qed.

Lemma stepWebhookGet_outcome (argMap : gmap string string) (s : list DoResult)
  (config : NestConfig) :
  stepOutcome (fun _ => True) (stepWebhookGet argMap config) s (webhookGetErrors argMap).
Proof.
  unfold stepOutcome, stepWebhookGet, webhookGetErrors.
  destruct (String.eqb (at_ argMap cmdWebhookGet) ""); simpl.
  - eexists. split; [reflexivity | exact I].
  - destruct (url_ParseRequestURI (at_ argMap cmdWebhookGet)); simpl;
      [reflexivity|]. eexists. split; [reflexivity | exact I].
Qed.

(** With a command line of at least two arguments that the argument loop
    accepts, the start-up prints the first of the configuration errors and
    ends, or, when there is none, hands a configuration on, silently. *)
Lemma mainSetup_outcome (args : list string) (argMap : gmap string string)
  (s : list DoResult) :
  (3 <= length args)%nat ->
  parseArgs (tail args) ∅ = Some argMap ->
  stepOutcome (fun _ => True) (mainSetup args) s (configErrors argMap).
Proof.
  intros L P. unfold mainSetup.
  destruct (length args) as [|[|[|n]]] eqn:Len; try lia. simpl Nat.eqb. cbv iota.
  rewrite P. unfold configErrors.
  replace (fileErrors argMap ++ thermostatIDErrors argMap ++ tokenErrors argMap ++
           minutesErrors argMap ++ webhookPostErrors argMap ++ webhookGetErrors argMap)%list
    with ((((((fileErrors argMap ++ thermostatIDErrors argMap) ++ tokenErrors argMap) ++
              minutesErrors argMap) ++ []) ++ webhookPostErrors argMap) ++
          webhookGetErrors argMap)%list
    by (rewrite app_nil_r, <- !app_assoc; reflexivity).
  eapply stepOutcome_andThen; [|intros config _; apply stepWebhookGet_outcome].
  eapply stepOutcome_andThen; [|intros config _; apply stepWebhookPost_outcome].
  eapply stepOutcome_andThen; [|intros config _; apply stepOutput_outcome].
  eapply stepOutcome_andThen; [|intros config _; apply stepMinutes_outcome].
  eapply stepOutcome_andThen; [|intros config HT; apply stepToken_outcome; exact HT].
  eapply stepOutcome_andThen; [|intros config HB; apply stepThermostatID_outcome; exact HB].
  apply stepConfigFile_outcome.
Qed.

(** C7: whatever the command line, the start-up of [main] returns
    after at most printing; when it met a start-up error, [main] returns
    without calling [loop], having done nothing but print, and the exit
    status is 0; [loop] is called only with a configuration for which none
    of the start-up errors (no thermostat id, no token, minutes that do not
    parse or are below 1, a configuration file that cannot be read, a
    webhook URL of the command line that does not parse) was met.  On a
    command line that the argument loop accepts, whenever one of these
    errors is present, [main] prints the text of the first one in the order
    of its checks, and nothing else, sends nothing, does not call [loop]
    and returns: the exit status is 0; [loop] is called exactly when no such
    error is present.  A command line that the argument loop refuses is
    reported in the same way. *)
Theorem config_errors_end_main (fuel : nat) (args : list string) (s : list DoResult) :
  let o := mainSetup args s in
  (exists c, res o = Ret c) /\
  (res o = Ret None ->
   main fuel args s = mkOut (Ret tt) s (evs o) /\
   exitStatus (res (main fuel args s)) = Some 0%Z /\
   Forall (fun e => exists t, e = EvPrintf t) (evs (main fuel args s))) /\
  (forall config,
     res o = Ret (Some config) ->
     validated args config /\
     main fuel args s =
     mkOut (res (loop fuel config s)) (rest (loop fuel config s))
           (evs o ++ evs (loop fuel config s))%list) /\
  (forall argMap,
     (3 <= length args)%nat ->
     parseArgs (tail args) ∅ = Some argMap ->
     (forall text others,
        configErrors argMap = text :: others ->
        o = mkOut (Ret None) s [EvPrintf text] /\
        main fuel args s = mkOut (Ret tt) s [EvPrintf text] /\
        exitStatus (res (main fuel args s)) = Some 0%Z) /\
     (configErrors argMap = [] ->
      exists config, o = mkOut (Ret (Some config)) s [] /\ validated args config /\
                     main fuel args s = loop fuel config s)) /\
  ((3 <= length args)%nat ->
   parseArgs (tail args) ∅ = None ->
   main fuel args s =
   mkOut (Ret tt) s
     [EvPrintf (("Unrecognized or unexpected parameter. Please check your inputs or call '--help' for help"
                 +:+ nl) +:+ nl)]).
Proof.
  intros o. subst o.
  destruct (printsOnly_mainSetup args s) as ([c Hc] & Hr & He).
  split; [exists c; exact Hc|]. split; [|split; [|split]].
  4:{ intros L P. unfold main, mainSetup.
      destruct (length args) as [|[|[|n]]] eqn:Len; try lia. simpl Nat.eqb. cbv iota.
      rewrite P. reflexivity. }
  - intros E. unfold main. rewrite bind_eq, E, Hr. simpl. rewrite app_nil_r.
    repeat split. exact He.
  - intros config E. split; [eapply mainSetup_validated; exact E|].
    unfold main. rewrite bind_eq, E, Hr. reflexivity.
  - intros argMap L P. pose proof (mainSetup_outcome args argMap s L P) as O.
    unfold stepOutcome in O. split.
    + intros text others E. rewrite E in O.
      split; [exact O|]. unfold main. rewrite bind_eq, O. simpl. split; reflexivity.
    + intros E. rewrite E in O. destruct O as (config & O & _). exists config.
      split; [exact O|]. split.
      * apply mainSetup_validated with (s := s). rewrite O. reflexivity.
      * unfold main. rewrite bind_eq, O. cbn [res rest evs app]. apply out_eta.
Qed.

(** * Further properties *)

(** ** The command line *)

Lemma pairs_ind (P : list string -> Prop) :
  P [] -> (forall x, P [x]) -> (forall a b l, P l -> P (a :: b :: l)) -> forall l, P l.
Proof.
  intros H0 H1 H2. fix IH 1. intros [|a [|b l]]; [exact H0 | apply H1 | apply H2, IH].
Qed.

Lemma option_known (n : string) :
  (bool_decide (is_Some (allowedSingles !! n)) || String.eqb (at_ argTranslate n) "") = false
  <-> In n recognised.
Proof.
  split.
  - intros E. apply orb_false_elim in E as [_ E]. apply String.eqb_neq in E.
    unfold at_ in E. destruct (argTranslate !! n) as [v|] eqn:L; [|contradiction].
    unfold argTranslate in L. apply elem_of_list_to_map_2 in L.
    repeat (apply elem_of_cons in L as [L|L];
            [injection L as -> _; unfold recognised; simpl; auto 20|]).
    apply elem_of_nil in L. contradiction.
  - unfold recognised. simpl. intros I.
    repeat (destruct I as [<-|I]; [vm_compute; reflexivity|]). contradiction.
Qed.

Lemma parseArgs_pair (name value : string) (l : list string) (m : gmap string string) :
  parseArgs (name :: value :: l) m =
  if bool_decide (is_Some (allowedSingles !! strings_ToLower name))
     || String.eqb (at_ argTranslate (strings_ToLower name)) ""
  then None
  else parseArgs l (<[at_ argTranslate (strings_ToLower name) := value]> m).
Proof. reflexivity. Qed.

Lemma parseArgs_app (l1 l2 : list string) :
  Nat.even (length l1) = true ->
  forall m,
    parseArgs (l1 ++ l2) m =
    match parseArgs l1 m with
    | Some m1 => parseArgs l2 m1
    | None => None
    end.
Proof.
  induction l1 as [|x|a b l1 IH] using pairs_ind; intros E m.
  - reflexivity.
  - discriminate E.
  - change ((a :: b :: l1) ++ l2)%list with (a :: b :: (l1 ++ l2))%list.
    rewrite !parseArgs_pair.
    destruct (bool_decide _ || _); [reflexivity|]. apply IH. exact E.
Qed.

(** X1: the argument loop accepts a command line exactly when every option
    name it looks at, lower-cased, is one of the fourteen spellings of
    [argTranslate]; [help], [-h] and [--help] are refused as option names. *)
Theorem parseArgs_accepts_recognised (l : list string) (m : gmap string string) :
  (exists m', parseArgs l m = Some m') <->
  Forall (fun n => In n recognised) (optionNames l).
Proof.
  revert m. induction l as [|x|a b l IH] using pairs_ind; intros m.
  - split; [constructor | exists m; reflexivity].
  - split; [constructor | exists m; reflexivity].
  - rewrite parseArgs_pair. simpl optionNames.
    destruct (bool_decide _ || _) eqn:K.
    + split; [intros [m' E]; discriminate E|].
      intros F. inversion F as [|? ? I _]. apply option_known in I. congruence.
    + rewrite IH. split; [|intros F; inversion F; assumption].
      intros F. constructor; [apply option_known; exact K | exact F].
Qed.

Lemma parseArgs_untouched (command : string) (l : list string) :
  forall m m',
    Forall (fun n => at_ argTranslate n <> command) (optionNames l) ->
    parseArgs l m = Some m' ->
    at_ m' command = at_ m command.
Proof.
  induction l as [|x|a b l IH] using pairs_ind; intros m m' F P.
  - injection P as <-. reflexivity.
  - injection P as <-. reflexivity.
  - rewrite parseArgs_pair in P. destruct (bool_decide _ || _); [discriminate P|].
    simpl optionNames in F. inversion F as [|? ? Hn Hl]; subst.
    rewrite (IH _ _ Hl P). unfold at_ at 1 3. rewrite lookup_insert_ne by exact Hn.
    reflexivity.
Qed.

(** X2: the value the argument loop keeps for an option is that of the last
    pair that names it, under any of its spellings, wherever that pair stands
    on the command line; an option that no pair names keeps the value it had
    before the loop (the empty string, in [main]). *)
Theorem parseArgs_last_value_wins (l l' : list string) (name value : string)
  (m m' : gmap string string) :
  Nat.even (length l) = true ->
  Forall (fun n => at_ argTranslate n <> at_ argTranslate (strings_ToLower name))
    (optionNames l') ->
  parseArgs (l ++ [name; value] ++ l') m = Some m' ->
  at_ m' (at_ argTranslate (strings_ToLower name)) = value /\
  (forall command,
     Forall (fun n => at_ argTranslate n <> command)
       (optionNames (l ++ [name; value] ++ l')) ->
     at_ m' command = at_ m command).
Proof.
  intros E F P. split.
  - rewrite (parseArgs_app l ([name; value] ++ l') E) in P.
    destruct (parseArgs l m) as [m1|]; [|discriminate P].
    change ([name; value] ++ l')%list with (name :: value :: l') in P.
    rewrite parseArgs_pair in P. destruct (bool_decide _ || _); [discriminate P|].
    rewrite (parseArgs_untouched _ _ _ _ F P). unfold at_ at 1.
    rewrite lookup_insert_eq. reflexivity.
  - intros command Fc. exact (parseArgs_untouched _ _ _ _ Fc P).
Qed.

(** X3: an argument left over after the last complete pair is never looked
    at: with at least two arguments before it, [main] does the same with and
    without it, whatever it is. *)
Theorem main_ignores_unpaired_argument (fuel : nat) (args : list string) (x : string) :
  (3 <= length args)%nat -> Nat.odd (length args) = true ->
  mainSetup (args ++ [x]) = mainSetup args /\
  main fuel (args ++ [x]) = main fuel args.
Proof.
  intros L O.
  assert (S : mainSetup (args ++ [x]) = mainSetup args).
  { unfold mainSetup. rewrite length_app. simpl length.
    destruct args as [|a0 args]; [simpl in L; lia|].
    simpl tail. simpl length in *.
    destruct (length args) as [|[|n]] eqn:Len; [lia | lia |].
    replace (S (S (S n)) + 1)%nat with (S (S (S (S n)))) by lia. simpl Nat.eqb.
    rewrite (parseArgs_app args [x]).
    - destruct (parseArgs args ∅); reflexivity.
    - rewrite Len. rewrite Nat.odd_succ in O. exact O. }
  split; [exact S|]. unfold main. rewrite S. reflexivity.
Qed.

(** ** The configuration *)

Lemma processConfig_ok (fileName : string) (config c : NestConfig) :
  processConfig fileName config = (c, None) ->
  exists content file,
    ioutil_ReadFile fileName = inl content /\
    json_UnmarshalConfig content = inl file /\
    c = mkConfig (Token file) (ThermostatID file)
          (if (Minutes file <? 1)%Z then Minutes config else Minutes file)
          (preferring (Output file) (Output config))
          (preferring (LastOutput file) (LastOutput config))
          (Debug file) (WebhookPost file) (WebhookGet file).
Proof.
  unfold processConfig.
  destruct (ioutil_ReadFile fileName) as [content|] eqn:R; [|discriminate].
  destruct (json_UnmarshalConfig content) as [file|] eqn:U; [|discriminate].
  intros [= <-]. exists content, file. split; [reflexivity|]. split; [exact U|].
  unfold preferring. destruct file as [t i mi o lo d wp wg]. simpl.
  destruct (mi <? 1)%Z; simpl; destruct (String.eqb o ""); simpl;
    destruct (String.eqb lo ""); reflexivity.
Qed.

Lemma preferring_nonempty (given base : string) : base <> "" -> preferring given base <> "".
Proof.
  unfold preferring. destruct (String.eqb_spec given ""); intros; assumption.
Qed.

(** X4: a configuration file that is read and decoded replaces the defaults
    field by field, token, thermostat id, debug flag and webhooks included,
    except that minutes below 1 and empty output paths fall back to the
    defaults; so the result keeps minutes of at least 1 and non-empty paths
    when the defaults have them.  A file that cannot be read or decoded gives
    the zero configuration with the error. *)
Theorem processConfig_fallbacks (fileName : string) (config : NestConfig) :
  (forall c, processConfig fileName config = (c, None) ->
     (exists content file,
        ioutil_ReadFile fileName = inl content /\
        json_UnmarshalConfig content = inl file /\
        Token c = Token file /\ ThermostatID c = ThermostatID file /\
        Debug c = Debug file /\
        WebhookPost c = WebhookPost file /\ WebhookGet c = WebhookGet file /\
        ((1 <= Minutes file)%Z -> Minutes c = Minutes file) /\
        ((Minutes file < 1)%Z -> Minutes c = Minutes config) /\
        Output c = preferring (Output file) (Output config) /\
        LastOutput c = preferring (LastOutput file) (LastOutput config)) /\
     ((1 <= Minutes config)%Z -> (1 <= Minutes c)%Z) /\
     (Output config <> "" -> Output c <> "") /\
     (LastOutput config <> "" -> LastOutput c <> "")) /\
  (forall c e, processConfig fileName config = (c, Some e) ->
     c = zeroConfig /\
     (ioutil_ReadFile fileName = inr e \/
      exists content, ioutil_ReadFile fileName = inl content /\
                      json_UnmarshalConfig content = inr e)).
Proof.
  split.
  - intros c P. destruct (processConfig_ok _ _ _ P) as (content & file & R & U & ->).
    simpl. split.
    + exists content, file. repeat split; try assumption.
      * intros Hm. destruct (Z.ltb_spec (Minutes file) 1); [lia | reflexivity].
      * intros Hm. destruct (Z.ltb_spec (Minutes file) 1); [reflexivity | lia].
    + split; [|split; apply preferring_nonempty].
      intros Hm. destruct (Z.ltb_spec (Minutes file) 1); lia.
  - intros c e. unfold processConfig.
    destruct (ioutil_ReadFile fileName) as [content|e'] eqn:R.
    + destruct (json_UnmarshalConfig content) as [file|e''] eqn:U.
      * discriminate.
      * intros [= <- <-]. split; [reflexivity|]. right. exists content.
        split; [reflexivity | exact U].
    + intros [= <- <-]. split; [reflexivity | left; reflexivity].
Qed.

Lemma stepThermostatID_exact (argMap : gmap string string) (config c : NestConfig)
  (s : list DoResult) :
  res (stepThermostatID argMap config s) = Ret (Some c) ->
  c = setThermostatID config (preferring (at_ argMap cmdThermostatID) (ThermostatID config)).
Proof.
  unfold stepThermostatID, preferring.
  destruct (String.eqb (at_ argMap cmdThermostatID) ""); simpl.
  - destruct (String.eqb (ThermostatID config) ""); [discriminate|].
    intros [= <-]. destruct config; reflexivity.
  - intros [= <-]. reflexivity.
Qed.

Lemma stepToken_exact (argMap : gmap string string) (config c : NestConfig)
  (s : list DoResult) :
  res (stepToken argMap config s) = Ret (Some c) ->
  c = setToken config (preferring (at_ argMap cmdToken) (Token config)).
Proof.
  unfold stepToken, preferring.
  destruct (String.eqb (at_ argMap cmdToken) ""); simpl.
  - destruct (String.eqb (Token config) ""); [discriminate|].
    intros [= <-]. destruct config; reflexivity.
  - intros [= <-]. reflexivity.
Qed.

Lemma stepMinutes_exact (argMap : gmap string string) (config c : NestConfig)
  (s : list DoResult) :
  res (stepMinutes argMap config s) = Ret (Some c) ->
  exists minutes,
    c = setMinutes config minutes /\
    (at_ argMap cmdMinutes = "" -> minutes = Minutes config) /\
    (at_ argMap cmdMinutes <> "" -> strconv_Atoi (at_ argMap cmdMinutes) = inl minutes).
Proof.
  unfold stepMinutes.
  destruct (String.eqb_spec (at_ argMap cmdMinutes) "") as [Z|Z]; simpl.
  - intros [= <-]. exists (Minutes config).
    split; [destruct config; reflexivity|]. split; [reflexivity | contradiction].
  - destruct (strconv_Atoi (at_ argMap cmdMinutes)) as [z|err]; [|discriminate].
    destruct (z <? 1)%Z; [discriminate|].
    intros [= <-]. exists z. split; [reflexivity|]. split; [contradiction | reflexivity].
Qed.

Lemma stepOutput_exact (argMap : gmap string string) (config c : NestConfig)
  (s : list DoResult) :
  res (stepOutput argMap config s) = Ret (Some c) ->
  c = setOutput config (preferring (at_ argMap cmdOutput) (Output config)).
Proof.
  unfold stepOutput, preferring.
  destruct (String.eqb (at_ argMap cmdOutput) ""); simpl; intros [= <-];
    [destruct config|]; reflexivity.
Qed.

Lemma stepWebhookPost_exact (argMap : gmap string string) (config c : NestConfig)
  (s : list DoResult) :
  res (stepWebhookPost argMap config s) = Ret (Some c) ->
  c = setWebhookPost config (preferring (at_ argMap cmdWebhookPost) (WebhookPost config)).
Proof.
  unfold stepWebhookPost, preferring.
  destruct (String.eqb (at_ argMap cmdWebhookPost) ""); simpl.
  - intros [= <-]. destruct config; reflexivity.
  - destruct (url_ParseRequestURI _); [discriminate|]. intros [= <-]. reflexivity.
Qed.

Lemma stepWebhookGet_exact (argMap : gmap string string) (config c : NestConfig)
  (s : list DoResult) :
  res (stepWebhookGet argMap config s) = Ret (Some c) ->
  c = setWebhookGet config (preferring (at_ argMap cmdWebhookGet) (WebhookGet config)).
Proof.
  unfold stepWebhookGet, preferring.
  destruct (String.eqb (at_ argMap cmdWebhookGet) ""); simpl.
  - intros [= <-]. destruct config; reflexivity.
  - destruct (url_ParseRequestURI _); [discriminate|]. intros [= <-]. reflexivity.
Qed.

Lemma mainSetup_overridden (args : list string) (s : list DoResult) (config : NestConfig) :
  res (mainSetup args s) = Ret (Some config) ->
  exists argMap minutes,
    parseArgs (tail args) ∅ = Some argMap /\
    config = overridden argMap minutes (baseConfig argMap) /\
    (at_ argMap cmdConfig <> "" ->
     processConfig (at_ argMap cmdConfig) defaultConfig = (baseConfig argMap, None)) /\
    (at_ argMap cmdMinutes = "" -> minutes = Minutes (baseConfig argMap)) /\
    (at_ argMap cmdMinutes <> "" -> strconv_Atoi (at_ argMap cmdMinutes) = inl minutes).
Proof.
  unfold mainSetup.
  destruct (Nat.eqb (length args) 1); [discriminate|].
  destruct (Nat.eqb (length args) 2).
  { destruct (allowedSingles !! _) as [f|]; [|discriminate].
    intros E. apply bind_Ret_inv in E as (? & _ & E). discriminate E. }
  destruct (parseArgs (tail args) ∅) as [argMap|] eqn:P; [|discriminate].
  intros E.
  apply andThen_Some in E as (c6 & E & H7).
  apply andThen_Some in E as (c5 & E & H6).
  apply andThen_Some in E as (c4 & E & H5).
  apply andThen_Some in E as (c3 & E & H4).
  apply andThen_Some in E as (c2 & E & H3).
  apply andThen_Some in E as (c1 & E & H2).
  assert (B : c1 = baseConfig argMap /\
              (at_ argMap cmdConfig <> "" ->
               processConfig (at_ argMap cmdConfig) defaultConfig = (baseConfig argMap, None))).
  { clear - E. unfold stepConfigFile, baseConfig in *.
    destruct (String.eqb_spec (at_ argMap cmdConfig) "") as [Z|Z]; simpl in E.
    - injection E as <-. split; [reflexivity | contradiction].
    - destruct (processConfig (at_ argMap cmdConfig) defaultConfig) as [c' [err|]];
        [discriminate E|].
      injection E as <-. split; [reflexivity | intros _; reflexivity]. }
  destruct B as [-> Bfile]. clear E.
  apply stepThermostatID_exact in H2. apply stepToken_exact in H3.
  apply stepMinutes_exact in H4 as (minutes & H4 & Mnone & Msome).
  apply stepOutput_exact in H5. apply stepWebhookPost_exact in H6.
  apply stepWebhookGet_exact in H7.
  exists argMap, minutes. split; [reflexivity|]. split.
  - subst. destruct (baseConfig argMap). reflexivity.
  - split; [exact Bfile|]. subst c2 c3. simpl in Mnone. split; assumption.
Qed.

Lemma baseConfig_paths (argMap : gmap string string) :
  (at_ argMap cmdConfig <> "" ->
   processConfig (at_ argMap cmdConfig) defaultConfig = (baseConfig argMap, None)) ->
  Output (baseConfig argMap) <> "" /\ LastOutput (baseConfig argMap) <> "" /\
  (1 <= Minutes (baseConfig argMap))%Z.
Proof.
  intros B. destruct (String.eqb_spec (at_ argMap cmdConfig) "") as [Z|Z].
  - unfold baseConfig. rewrite Z. simpl. repeat split; discriminate.
  - destruct (processConfig_ok _ _ _ (B Z)) as (content & file & _ & _ & ->). simpl.
    split; [apply preferring_nonempty; discriminate|].
    split; [apply preferring_nonempty; discriminate|].
    destruct (Z.ltb_spec (Minutes file) 1); lia.
Qed.

(** X5: whenever [main] calls [loop], each of thermostat id, token, output
    path and the two webhook URLs is the value of the command line when one
    was given (and is not empty), and otherwise that of the configuration
    file, or of the defaults when no file was named; the minutes are those
    parsed from the command line when given; the debug flag and the dump
    path can only come from the file. *)
Theorem command_line_overrides_file (args : list string) (s : list DoResult)
  (config : NestConfig) :
  res (mainSetup args s) = Ret (Some config) ->
  exists argMap,
    parseArgs (tail args) ∅ = Some argMap /\
    let base := baseConfig argMap in
    ThermostatID config = preferring (at_ argMap cmdThermostatID) (ThermostatID base) /\
    Token config = preferring (at_ argMap cmdToken) (Token base) /\
    Output config = preferring (at_ argMap cmdOutput) (Output base) /\
    WebhookPost config = preferring (at_ argMap cmdWebhookPost) (WebhookPost base) /\
    WebhookGet config = preferring (at_ argMap cmdWebhookGet) (WebhookGet base) /\
    (at_ argMap cmdMinutes = "" -> Minutes config = Minutes base) /\
    (at_ argMap cmdMinutes <> "" ->
     strconv_Atoi (at_ argMap cmdMinutes) = inl (Minutes config)) /\
    Debug config = Debug base /\ LastOutput config = LastOutput base /\
    (at_ argMap cmdConfig = "" -> Debug config = false /\ LastOutput config = "nest_last.json").
Proof.
  intros E. destruct (mainSetup_overridden _ _ _ E) as (argMap & minutes & P & -> & _ & M0 & M1).
  exists argMap. split; [exact P|]. simpl.
  repeat (split; [first [reflexivity | assumption]|]).
  intros Z. unfold baseConfig. rewrite Z. split; reflexivity.
Qed.

(** X6: [loop] is only ever called with a non-empty output path, a
    non-empty dump path and minutes of at least 1, whatever the command line
    and the configuration file hold. *)
Theorem loop_called_with_usable_paths (args : list string) (s : list DoResult)
  (config : NestConfig) :
  res (mainSetup args s) = Ret (Some config) ->
  Output config <> "" /\ LastOutput config <> "" /\ (1 <= Minutes config)%Z.
Proof.
  intros E. destruct (mainSetup_overridden _ _ _ E) as (argMap & minutes & P & -> & B & M0 & M1).
  destruct (baseConfig_paths argMap B) as (O & L & M). simpl.
  split; [apply preferring_nonempty; exact O|]. split; [exact L|].
  destruct (mainSetup_validated _ _ _ E) as (_ & _ & V & _). exact V.
Qed.

(** X7: with no argument [main] asks for one; with a single argument it
    prints the help when the argument, lower-cased, is [help], [-h] or
    [--help], and refuses it otherwise, even when it is the name of an
    option; in all three cases it returns without calling [loop]. *)
Theorem single_argument_is_help_or_refused (fuel : nat) (prog a : string)
  (s : list DoResult) :
  main fuel [prog] s =
    mkOut (Ret tt) s
      [EvPrintf (("Expected at least one parameter. Please add arguments or call '--help' for help"
                  +:+ nl) +:+ nl)] /\
  (In (strings_ToLower a) ["help"; "-h"; "--help"] ->
   main fuel [prog; a] s = mkOut (Ret tt) s (evs (displayHelp s))) /\
  (~ In (strings_ToLower a) ["help"; "-h"; "--help"] ->
   main fuel [prog; a] s =
   mkOut (Ret tt) s
     [EvPrintf (("Unrecognized or unexpected parameter. Please check your inputs or call '--help' for help"
                 +:+ nl) +:+ nl)]).
Proof.
  split; [reflexivity|]. unfold main, mainSetup. simpl length. simpl Nat.eqb. simpl nth.
  split.
  - intros I.
    assert (L : allowedSingles !! strings_ToLower a = Some displayHelp).
    { simpl in I. destruct I as [<-|[<-|[<-|[]]]]; reflexivity. }
    rewrite L. reflexivity.
  - intros N.
    assert (L : allowedSingles !! strings_ToLower a = None).
    { destruct (allowedSingles !! strings_ToLower a) as [f|] eqn:E; [|reflexivity].
      exfalso. apply N. unfold allowedSingles in E. simpl.
      repeat (apply lookup_insert_Some in E as [[<- _] | [_ E]]; [auto|]).
      rewrite lookup_empty in E. discriminate E. }
    rewrite L. reflexivity.
Qed.

(** ** Reading the device state *)

Lemma nestGet_consumes_one (config : NestConfig) (r : DoResult) (s : list DoResult) :
  http_NewRequest "GET" NEST_GET = None -> rest (nestGet config (r :: s)) = s.
Proof.
  intros E. unfold nestGet. rewrite E. unfold bind. simpl.
  destruct r as [resp|resp e|e]; simpl; try reflexivity.
  repeat client_step; rewrite ?readSample_rest; try reflexivity;
    try (case_readSample; reflexivity).
Qed.

Lemma nestGet_no_sleep (config : NestConfig) (s : list DoResult) (n : Z) :
  ~ In (EvSleep n) (evs (nestGet config s)).
Proof.
  nestGet_cases; try case_readSample; simpl; intuition discriminate.
Qed.

(** X8: a read sends at most one request, the GET of the base address with
    the content type and the token as authorization, takes exactly the next
    answer, and neither sleeps nor hands a row to the output file; when the
    request cannot be built nothing is sent and no answer is taken. *)
Theorem read_sends_one_get (config : NestConfig) (s : list DoResult) :
  let o := nestGet config s in
  rowsOf (evs o) = [] /\
  (forall n, ~ In (EvSleep n) (evs o)) /\
  countPuts (evs o) = 0%nat /\
  (http_NewRequest "GET" NEST_GET = None ->
   requestsOf (evs o) =
     [mkRequest "GET" "https://developer-api.nest.com" None
        [("Content-Type", "application/json"); ("Authorization", Token config)]] /\
   rest o = tail s) /\
  (forall e, http_NewRequest "GET" NEST_GET = Some e ->
     o = mkOut (Ret (zeroData,
                     Some (wrapErr "Could not create GET request with included URL" (Some e))))
               s []).
Proof.
  intros o. subst o. split; [apply nestGet_rows|]. split; [intros n; apply nestGet_no_sleep|].
  split; [apply nestGet_puts|]. split.
  - intros E. split; [rewrite nestGet_requests, E; reflexivity|].
    destruct s as [|r s]; [|apply nestGet_consumes_one; exact E].
    unfold nestGet. rewrite E. reflexivity.
  - intros e E. unfold nestGet. rewrite E. reflexivity.
Qed.

(** X9: whenever a read or a write returns an error, the sample it returns
    with it is the zero sample: temperature 0, empty mode, not cooling. *)
Theorem failed_calls_return_zero_sample (config : NestConfig) (hvacMode : string)
  (s : list DoResult) (d : NestData) (e : error) :
  (res (nestGet config s) = Ret (d, Some e) -> d = mkData 0 "" false) /\
  (res (nestPut config hvacMode s) = Ret (d, Some e) -> d = mkData 0 "" false).
Proof.
  split; intros E; [eapply nestGet_err_zero | eapply nestPut_err_zero]; exact E.
Qed.

(** X10: on a 200 answer whose document has an object for the configured
    thermostat under devices and thermostats, with a number for the ambient
    temperature and strings for mode and state, a read returns no error and
    the sample made of the converted temperature, the mode as it is and a
    cooling flag that is set exactly when the state is ["cooling"];
    whatever else the document holds is ignored. *)
Theorem read_returns_the_sample (config : NestConfig) (raw : string)
  (m0 m1 m2 m3 : gmap string json) (t : float64) (mode state : string)
  (s : list DoResult) :
  http_NewRequest "GET" NEST_GET = None ->
  (Debug config = true -> os_Create (LastOutput config) = None) ->
  m0 !! "devices" = Some (JObj m1) ->
  m1 !! "thermostats" = Some (JObj m2) ->
  m2 !! ThermostatID config = Some (JObj m3) ->
  m3 !! "ambient_temperature_f" = Some (JNum t) ->
  m3 !! "hvac_mode" = Some (JStr mode) ->
  m3 !! "hvac_state" = Some (JStr state) ->
  let o := nestGet config (DoResp (mkResponse 200 (BodyBytes raw (inl (JObj m0)))) :: s) in
  exists d,
    res o = Ret (d, None) /\ rest o = s /\
    CurrentTemperature d = int_of_float64 t /\ HvacMode d = mode /\
    (IsCooling d = true <-> state = "cooling").
Proof.
  intros E Hdump L0 L1 L2 Lt Lm Ls o. subst o.
  exists (mkData (int_of_float64 t) mode (String.eqb state "cooling")).
  split.
  - rewrite (nestGet_decodes config raw (JObj m0) s E Hdump).
    unfold sampleIn. simpl. rewrite L0. simpl. rewrite L1. simpl. rewrite L2. simpl.
    rewrite Lt. simpl. rewrite Lm. simpl. rewrite Ls. reflexivity.
  - split; [apply nestGet_consumes_one; exact E|]. simpl.
    split; [reflexivity|]. split; [reflexivity|]. apply String.eqb_eq.
Qed.

Lemma filesTouched_app (l1 l2 : list Event) :
  filesTouched (l1 ++ l2) = (filesTouched l1 ++ filesTouched l2)%list.
Proof.
  induction l1 as [|e l1 IH]; simpl; [reflexivity|].
  destruct e; simpl; rewrite IH; reflexivity.
Qed.

Lemma nestGet_no_debug_no_file (config : NestConfig) (s : list DoResult) :
  Debug config = false -> filesTouched (evs (nestGet config s)) = [].
Proof.
  intros D. unfold nestGet, bind. rewrite D.
  repeat client_step; rewrite ?readSample_evs; try reflexivity;
    try (case_readSample; reflexivity).
Qed.

(** X11: without the debug flag neither a read nor a write creates or
    writes a file; with it, every 200 answer whose body could be read is
    written as it is to the dump path before it is decoded, so also when
    the decoding fails or panics. *)
Theorem debug_dump_only_with_flag (config : NestConfig) (hvacMode : string) :
  (Debug config = false ->
   forall s, filesTouched (evs (nestGet config s)) = [] /\
             filesTouched (evs (nestPut config hvacMode s)) = []) /\
  (Debug config = true ->
   http_NewRequest "GET" NEST_GET = None ->
   os_Create (LastOutput config) = None ->
   forall raw decoded s,
     exists after,
       evs (nestGet config (DoResp (mkResponse 200 (BodyBytes raw decoded)) :: s)) =
       (EvDo (getRequest config) :: EvCreate (LastOutput config)
        :: EvDump (LastOutput config) raw :: after)%list).
Proof.
  split.
  - intros D s. split; [apply nestGet_no_debug_no_file; exact D|].
    unfold nestPut, bind. repeat client_step; try reflexivity.
    apply nestGet_no_debug_no_file. exact D.
  - intros D E C raw decoded s. unfold nestGet. rewrite E, D, C.
    rewrite !bind_eq. cbn -[readSample].
    destruct (res (readSample config decoded s)); eexists; reflexivity.
Qed.

(** ** Writing a mode *)

(** X12: a write confirms by reading: when its PUT is answered with status
    200, whatever the body, it sleeps one minute and then does exactly what
    a read does on the answers that follow, returning the read's result;
    when the PUT is answered with another status, or refused on a redirect,
    it returns an error at once, without sleeping and without reading. *)
Theorem write_confirms_by_reading (config : NestConfig) (hvacMode : string)
  (resp : Response) (s : list DoResult) :
  http_NewRequest "PUT" (NEST_PUT +:+ ThermostatID config) = None ->
  (StatusCode resp = 200%Z ->
   nestPut config hvacMode (DoResp resp :: s) =
   let o := nestGet config s in
   mkOut (res o) (rest o)
     ([EvDo (mkRequest "PUT" (NEST_PUT +:+ ThermostatID config)
               (Some (putPayload hvacMode)) [("Authorization", Token config)]);
       EvSleep (minutes 1)] ++ evs o)%list) /\
  (StatusCode resp <> 200%Z ->
   nestPut config hvacMode (DoResp resp :: s) =
   mkOut (Ret (zeroData, Some (wrapErr "Problem getting an answer from Nest" None))) s
     [EvDo (putRequest config hvacMode)]) /\
  (forall e,
     nestPut config hvacMode (DoRedirectErr resp e :: s) =
     mkOut (Ret (zeroData, Some (wrapErr "Could not communicate with Nest" (Some e)))) s
       [EvDo (putRequest config hvacMode)]).
Proof.
  intros E. split; [|split].
  - intros S. unfold nestPut. rewrite E. rewrite !bind_eq. cbn -[nestGet].
    rewrite S. cbn -[nestGet]. rewrite ?bind_eq. cbn -[nestGet].
    destruct (res (nestGet config s)); reflexivity.
  - intros S. apply nestPut_protocol_failure; assumption.
  - intros e. unfold nestPut. rewrite E. reflexivity.
Qed.

(** ** The retry loops under refusals *)

Lemma prefix_app (a b : string) : String.prefix a (a +:+ b) = true.
Proof.
  induction a as [|c a IH]; simpl; [destruct b; reflexivity|].
  destruct (ascii_dec c c); [exact IH | contradiction].
Qed.

Lemma countNotesFrom_app (start : string) (l1 l2 : list Event) :
  countNotesFrom start (l1 ++ l2) = (countNotesFrom start l1 + countNotesFrom start l2)%nat.
Proof. unfold countNotesFrom. rewrite rowsOf_app, filter_app, length_app. reflexivity. Qed.

Lemma countNotesFrom_nestPut (start : string) (config : NestConfig) (hvacMode : string)
  (s : list DoResult) :
  countNotesFrom start (evs (nestPut config hvacMode s)) = 0%nat.
Proof. unfold countNotesFrom. rewrite nestPut_rows. reflexivity. Qed.

Lemma restartLoop_protocol_failure (fuel : nat) (config : NestConfig) (td d0 : NestData)
  (resp : Response) (s : list DoResult) :
  http_NewRequest "PUT" (NEST_PUT +:+ ThermostatID config) = None ->
  StatusCode resp <> 200%Z ->
  HvacMode d0 <> HvacMode td ->
  restartLoop (S fuel) config td d0 (DoResp resp :: s) =
  let e := wrapErr "Problem getting an answer from Nest" None in
  let o' := restartLoop fuel config td zeroData s in
  mkOut (res o') (rest o')
    ([EvDo (putRequest config (HvacMode td));
      EvWriteString (RowNote ("Error turning system back on:" +:+ nl +:+ e));
      EvPrintf ("Error turning system back on" +:+ ":" +:+ nl +:+ e +:+ nl)] ++ evs o')%list.
Proof.
  intros E Hs Hne.
  pose proof (nestPut_protocol_failure config (HvacMode td) resp s E Hs) as P.
  rewrite (restartLoop_step fuel config td d0 zeroData
             (Some (wrapErr "Problem getting an answer from Nest" None)) _ Hne)
    by (rewrite P; reflexivity).
  rewrite P. reflexivity.
Qed.

Lemma shutoffLoop_settles_errors (config : NestConfig) (N : nat) :
  forall fuel d0 s,
    (N < fuel)%nat -> HvacMode d0 <> "off" ->
    writesSettle config "off" N s ->
    countNotesFrom "Error turning system off:" (evs (shutoffLoop fuel config d0 s)) = 0%nat.
Proof.
  induction N as [|n IH]; intros fuel d0 s Hfuel Hne Hw;
    (destruct fuel as [|fuel]; [lia|]); simpl in Hw.
  - destruct Hw as (d & E & Hd).
    rewrite (shutoffLoop_step _ _ _ _ _ _ Hne E). cbv zeta.
    rewrite (shutoffLoop_done fuel config d _ Hd). unfold evs at 1.
    rewrite !countNotesFrom_app, countNotesFrom_nestPut.
    unfold shutoffReport. rewrite Hd. reflexivity.
  - destruct Hw as (d & E & Hd & Hw).
    rewrite (shutoffLoop_step _ _ _ _ _ _ Hne E). cbv zeta. unfold evs at 1.
    rewrite !countNotesFrom_app, countNotesFrom_nestPut,
      (IH fuel d _ ltac:(lia) Hd Hw).
    unfold shutoffReport. apply String.eqb_neq in Hd. rewrite Hd. reflexivity.
Qed.

Lemma restartLoop_settles_errors (config : NestConfig) (td : NestData) (N : nat) :
  forall fuel d0 s,
    (N < fuel)%nat -> HvacMode d0 <> HvacMode td ->
    writesSettle config (HvacMode td) N s ->
    countNotesFrom "Error turning system back on:"
      (evs (restartLoop fuel config td d0 s)) = 0%nat.
Proof.
  induction N as [|n IH]; intros fuel d0 s Hfuel Hne Hw;
    (destruct fuel as [|fuel]; [lia|]); simpl in Hw.
  - destruct Hw as (d & E & Hd).
    rewrite (restartLoop_step _ _ _ _ _ _ _ Hne E). cbv zeta.
    rewrite (restartLoop_done fuel config td d _ Hd). unfold evs at 1.
    rewrite !countNotesFrom_app, countNotesFrom_nestPut.
    unfold restartReport. rewrite Hd, String.eqb_refl. reflexivity.
  - destruct Hw as (d & E & Hd & Hw).
    rewrite (restartLoop_step _ _ _ _ _ _ _ Hne E). cbv zeta. unfold evs at 1.
    rewrite !countNotesFrom_app, countNotesFrom_nestPut,
      (IH fuel d _ ltac:(lia) Hd Hw).
    unfold restartReport. apply String.eqb_neq in Hd. rewrite Hd. reflexivity.
Qed.

Lemma shutoffLoop_refusals (config : NestConfig) (N K : nat) :
  http_NewRequest "PUT" (NEST_PUT +:+ ThermostatID config) = None ->
  forall fuel d0 s,
    (K + N < fuel)%nat -> HvacMode d0 <> "off" ->
    refusedThenSettle config "off" K N s ->
    let o := shutoffLoop fuel config d0 s in
    (exists d, res o = Ret d /\ HvacMode d = "off") /\
    countPuts (evs o) = S (K + N) /\
    countNotesFrom "Error turning system off:" (evs o) = K /\
    countNotes "RESTART: waiting on turn off" (evs o) = N.
Proof.
  intros E. induction K as [|k IH]; intros fuel d0 s Hfuel Hne Hr; simpl in Hr.
  - destruct (shutoffLoop_settles config N fuel d0 s Hfuel Hne Hr) as (R & P & W).
    cbv zeta. split; [exact R|]. split; [exact P|]. split; [|exact W].
    apply (shutoffLoop_settles_errors config N); assumption.
  - destruct s as [|[resp| |] s]; try contradiction. destruct Hr as [Hs Hr].
    destruct fuel as [|fuel]; [lia|].
    rewrite (shutoffLoop_protocol_failure fuel config d0 resp s E Hs Hne). cbv zeta.
    assert (Hf : (k + N < fuel)%nat) by lia.
    assert (Hz : HvacMode zeroData <> "off") by discriminate.
    destruct (IH fuel zeroData s Hf Hz Hr) as (R & P & Er & W).
    cbn [res rest evs].
    split; [exact R|].
    rewrite countPuts_app, countNotesFrom_app, countNotes_app, P, Er, W.
    split; [reflexivity|]. split; [|reflexivity].
    unfold countNotesFrom at 1. simpl rowsOf. unfold isNoteFrom.
    rewrite filter_cons_True by (cbv beta iota; apply prefix_app). reflexivity.
Qed.

Lemma restartLoop_refusals (config : NestConfig) (td : NestData) (N K : nat) :
  http_NewRequest "PUT" (NEST_PUT +:+ ThermostatID config) = None ->
  HvacMode td <> "" ->
  forall fuel d0 s,
    (K + N < fuel)%nat -> HvacMode d0 <> HvacMode td ->
    refusedThenSettle config (HvacMode td) K N s ->
    let o := restartLoop fuel config td d0 s in
    (exists d, res o = Ret d /\ HvacMode d = HvacMode td) /\
    countPuts (evs o) = S (K + N) /\
    countNotesFrom "Error turning system back on:" (evs o) = K /\
    countNotes "RESTART: waiting on turn on" (evs o) = N.
Proof.
  intros E Hmode. induction K as [|k IH]; intros fuel d0 s Hfuel Hne Hr; simpl in Hr.
  - destruct (restartLoop_settles config td N fuel d0 s Hfuel Hne Hr) as (R & P & W).
    cbv zeta. split; [exact R|]. split; [exact P|]. split; [|exact W].
    apply (restartLoop_settles_errors config td N); assumption.
  - destruct s as [|[resp| |] s]; try contradiction. destruct Hr as [Hs Hr].
    destruct fuel as [|fuel]; [lia|].
    rewrite (restartLoop_protocol_failure fuel config td d0 resp s E Hs Hne). cbv zeta.
    assert (Hz : HvacMode zeroData <> HvacMode td) by (simpl; congruence).
    assert (Hf : (k + N < fuel)%nat) by lia.
    destruct (IH fuel zeroData s Hf Hz Hr) as (R & P & Er & W).
    cbn [res rest evs].
    split; [exact R|].
    rewrite countPuts_app, countNotesFrom_app, countNotes_app, P, Er, W.
    split; [reflexivity|]. split; [|reflexivity].
    unfold countNotesFrom at 1. simpl rowsOf. unfold isNoteFrom.
    rewrite filter_cons_True by (cbv beta iota; apply prefix_app). reflexivity.
Qed.

(** X13: writes whose PUT is answered [K] times with a status other than
    200 and which then settle after [N] mismatches are retried to the end:
    the shut-off loop, and the restart loop for a mode that is neither empty
    nor ["unrestarted"], return a sample of the requested mode after
    [K + N + 1] write attempts, having logged [K] error rows and [N] waiting
    rows. *)
Theorem retry_loops_survive_refusals (fuel : nat) (config : NestConfig)
  (thermostatData : NestData) (K N : nat) (s : list DoResult) :
  http_NewRequest "PUT" (NEST_PUT +:+ ThermostatID config) = None ->
  (K + N < fuel)%nat ->
  (refusedThenSettle config "off" K N s ->
   let o := shutoffLoop fuel config unrestarted s in
   (exists d, res o = Ret d /\ HvacMode d = "off") /\
   countPuts (evs o) = S (K + N) /\
   countNotesFrom "Error turning system off:" (evs o) = K /\
   countNotes "RESTART: waiting on turn off" (evs o) = N) /\
  (HvacMode thermostatData <> "" -> HvacMode thermostatData <> "unrestarted" ->
   refusedThenSettle config (HvacMode thermostatData) K N s ->
   let o := restartLoop fuel config thermostatData unrestarted s in
   (exists d, res o = Ret d /\ HvacMode d = HvacMode thermostatData) /\
   countPuts (evs o) = S (K + N) /\
   countNotesFrom "Error turning system back on:" (evs o) = K /\
   countNotes "RESTART: waiting on turn on" (evs o) = N).
Proof.
  intros E Hfuel. split.
  - intros Hr. apply (shutoffLoop_refusals config N K E); [exact Hfuel | discriminate | exact Hr].
  - intros Hmode Hsent Hr.
    apply (restartLoop_refusals config thermostatData N K E Hmode); [exact Hfuel | | exact Hr].
    simpl. congruence.
Qed.

(** ** What the retry loops log *)

Lemma shutoffLoop_discipline (config : NestConfig) (fuel : nat) :
  http_NewRequest "PUT" (NEST_PUT +:+ ThermostatID config) = None ->
  forall d0 s d,
    HvacMode d0 <> "off" ->
    res (shutoffLoop fuel config d0 s) = Ret d ->
    let o := shutoffLoop fuel config d0 s in
    HvacMode d = "off" /\
    countPuts (evs o) = length (rowsOf (evs o)) /\
    countNotes "RESTART: system turned off" (evs o) = 1%nat /\
    exists before, rowsOf (evs o) = (before ++ [RowNote "RESTART: system turned off"])%list.
Proof.
  intros E. induction fuel as [|fuel IH]; intros d0 s d Hne Hres.
  - simpl in Hres. apply String.eqb_neq in Hne. rewrite Hne in Hres. discriminate Hres.
  - destruct (res (nestPut config "off" s)) as [[d1 err]|h] eqn:P.
    2:{ rewrite (shutoffLoop_stop _ _ _ _ _ Hne P) in Hres. discriminate Hres. }
    cbv zeta. rewrite (shutoffLoop_step _ _ _ _ _ _ Hne P) in *. cbv zeta in *.
    cbn [res rest evs] in *.
    assert (Puts : countPuts (evs (nestPut config "off" s)) = 1%nat)
      by (rewrite nestPut_puts, E; reflexivity).
    rewrite !countPuts_app, !countNotes_app, !rowsOf_app, !length_app, Puts,
      nestPut_rows, countNotes_nestPut.
    assert (Hcont : HvacMode d1 <> "off" ->
              length (rowsOf (evs (shutoffReport d1 err (rest (nestPut config "off" s))))) = 1%nat ->
              countPuts (evs (shutoffReport d1 err (rest (nestPut config "off" s)))) = 0%nat ->
              countNotes "RESTART: system turned off"
                (evs (shutoffReport d1 err (rest (nestPut config "off" s)))) = 0%nat ->
              HvacMode d = "off" /\
              (1 + (countPuts (evs (shutoffReport d1 err (rest (nestPut config "off" s)))) +
                    countPuts (evs (shutoffLoop fuel config d1 (rest (nestPut config "off" s)))))
               = length (@nil Row) +
                 (length (rowsOf (evs (shutoffReport d1 err (rest (nestPut config "off" s))))) +
                  length (rowsOf (evs (shutoffLoop fuel config d1
                                         (rest (nestPut config "off" s)))))))%nat /\
              (0 + (countNotes "RESTART: system turned off"
                      (evs (shutoffReport d1 err (rest (nestPut config "off" s)))) +
                    countNotes "RESTART: system turned off"
                      (evs (shutoffLoop fuel config d1 (rest (nestPut config "off" s)))))
               = 1)%nat /\
              exists before,
                ([] ++ rowsOf (evs (shutoffReport d1 err (rest (nestPut config "off" s)))) ++
                 rowsOf (evs (shutoffLoop fuel config d1 (rest (nestPut config "off" s)))) =
                 before ++ [RowNote "RESTART: system turned off"])%list).
    { intros Hne1 L1 P1 N1.
      destruct (IH d1 _ d Hne1 Hres) as (Hd & Hp & Hn & before & Hb).
      split; [exact Hd|]. rewrite L1, P1, N1, Hp, Hn. split; [reflexivity|].
      split; [reflexivity|].
      exists (rowsOf (evs (shutoffReport d1 err (rest (nestPut config "off" s)))) ++ before)%list.
      rewrite Hb. simpl. rewrite <- app_assoc. reflexivity. }
    destruct err as [e|].
    + apply Hcont; try reflexivity.
      rewrite (nestPut_err_zero _ _ _ _ _ P). discriminate.
    + destruct (String.eqb_spec (HvacMode d1) "off") as [Heq|Hne1].
      * rewrite (shutoffLoop_done fuel config d1 _ Heq) in *.
        simpl in Hres. injection Hres as <-.
        unfold shutoffReport. rewrite Heq. simpl.
        split; [reflexivity|]. repeat split. exists []. reflexivity.
      * apply Hcont; try assumption; unfold shutoffReport;
          apply String.eqb_neq in Hne1; rewrite Hne1; reflexivity.
Qed.

Lemma restartLoop_discipline (config : NestConfig) (td : NestData) (fuel : nat) :
  http_NewRequest "PUT" (NEST_PUT +:+ ThermostatID config) = None ->
  HvacMode td <> "" ->
  forall d0 s d,
    HvacMode d0 <> HvacMode td ->
    res (restartLoop fuel config td d0 s) = Ret d ->
    let o := restartLoop fuel config td d0 s in
    HvacMode d = HvacMode td /\
    countPuts (evs o) = length (rowsOf (evs o)) /\
    countNotes "RESTART: system turned on" (evs o) = 1%nat /\
    exists before, rowsOf (evs o) = (before ++ [RowNote "RESTART: system turned on"])%list.
Proof.
  intros E Hmode. induction fuel as [|fuel IH]; intros d0 s d Hne Hres.
  - simpl in Hres. apply String.eqb_neq in Hne. rewrite Hne in Hres. discriminate Hres.
  - destruct (res (nestPut config (HvacMode td) s)) as [[d1 err]|h] eqn:P.
    2:{ rewrite (restartLoop_stop _ _ _ _ _ _ Hne P) in Hres. discriminate Hres. }
    cbv zeta. rewrite (restartLoop_step _ _ _ _ _ _ _ Hne P) in *. cbv zeta in *.
    cbn [res rest evs] in *.
    assert (Puts : countPuts (evs (nestPut config (HvacMode td) s)) = 1%nat)
      by (rewrite nestPut_puts, E; reflexivity).
    rewrite !countPuts_app, !countNotes_app, !rowsOf_app, !length_app, Puts,
      nestPut_rows, countNotes_nestPut.
    set (s' := rest (nestPut config (HvacMode td) s)) in *.
    assert (Hcont : HvacMode d1 <> HvacMode td ->
              length (rowsOf (evs (restartReport td d1 err s'))) = 1%nat ->
              countPuts (evs (restartReport td d1 err s')) = 0%nat ->
              countNotes "RESTART: system turned on" (evs (restartReport td d1 err s')) = 0%nat ->
              HvacMode d = HvacMode td /\
              (1 + (countPuts (evs (restartReport td d1 err s')) +
                    countPuts (evs (restartLoop fuel config td d1 s')))
               = length (@nil Row) +
                 (length (rowsOf (evs (restartReport td d1 err s'))) +
                  length (rowsOf (evs (restartLoop fuel config td d1 s')))))%nat /\
              (0 + (countNotes "RESTART: system turned on" (evs (restartReport td d1 err s')) +
                    countNotes "RESTART: system turned on"
                      (evs (restartLoop fuel config td d1 s')))
               = 1)%nat /\
              exists before,
                ([] ++ rowsOf (evs (restartReport td d1 err s')) ++
                 rowsOf (evs (restartLoop fuel config td d1 s')) =
                 before ++ [RowNote "RESTART: system turned on"])%list).
    { intros Hne1 L1 P1 N1.
      destruct (IH d1 _ d Hne1 Hres) as (Hd & Hp & Hn & before & Hb).
      split; [exact Hd|]. rewrite L1, P1, N1, Hp, Hn. split; [reflexivity|].
      split; [reflexivity|].
      exists (rowsOf (evs (restartReport td d1 err s')) ++ before)%list.
      rewrite Hb. simpl. rewrite <- app_assoc. reflexivity. }
    destruct err as [e|].
    + apply Hcont; try reflexivity.
      rewrite (nestPut_err_zero _ _ _ _ _ P). simpl. congruence.
    + destruct (String.eqb_spec (HvacMode d1) (HvacMode td)) as [Heq|Hne1].
      * rewrite (restartLoop_done fuel config td d1 _ Heq) in *.
        simpl in Hres. injection Hres as <-.
        unfold restartReport. rewrite Heq, String.eqb_refl. simpl.
        split; [reflexivity|]. repeat split. exists []. reflexivity.
      * apply Hcont; try assumption; unfold restartReport;
          apply String.eqb_neq in Hne1; rewrite Hne1; reflexivity.
Qed.

(** X14: whatever the answers, when the shut-off loop returns, the sample
    it returns has the mode "off", every write attempt was logged by
    exactly one row, and the row "RESTART: system turned off" was written
    once, as the last row; the same holds of the restart loop and its
    confirmation row for a requested mode that is neither empty nor
    ["unrestarted"]. *)
Theorem retry_loops_log_every_attempt (fuel : nat) (config : NestConfig)
  (thermostatData : NestData) (s : list DoResult) (d : NestData) :
  http_NewRequest "PUT" (NEST_PUT +:+ ThermostatID config) = None ->
  (res (shutoffLoop fuel config unrestarted s) = Ret d ->
   let o := shutoffLoop fuel config unrestarted s in
   HvacMode d = "off" /\
   countPuts (evs o) = length (rowsOf (evs o)) /\
   countNotes "RESTART: system turned off" (evs o) = 1%nat /\
   exists before, rowsOf (evs o) = (before ++ [RowNote "RESTART: system turned off"])%list) /\
  (HvacMode thermostatData <> "" -> HvacMode thermostatData <> "unrestarted" ->
   res (restartLoop fuel config thermostatData unrestarted s) = Ret d ->
   let o := restartLoop fuel config thermostatData unrestarted s in
   HvacMode d = HvacMode thermostatData /\
   countPuts (evs o) = length (rowsOf (evs o)) /\
   countNotes "RESTART: system turned on" (evs o) = 1%nat /\
   exists before, rowsOf (evs o) = (before ++ [RowNote "RESTART: system turned on"])%list).
Proof.
  intros E. split.
  - intros R. apply (shutoffLoop_discipline config fuel E); [discriminate | exact R].
  - intros Hmode Hsent R.
    apply (restartLoop_discipline config thermostatData fuel E Hmode); [|exact R].
    simpl. congruence.
Qed.

(** ** The webhooks *)

Lemma webhook_answered (method url : string) (r : DoResult) (s : list DoResult) :
  http_NewRequest method url = None ->
  hasResponse r = true ->
  exists err,
    webhook method url (r :: s) =
      mkOut (Ret err) s [EvDo (mkRequest method url None [])] /\
    (err = None <-> is200 r = true).
Proof.
  intros E Hr. unfold webhook. rewrite E. rewrite !bind_eq.
  destruct r as [resp|resp e|e]; [| |discriminate Hr]; simpl.
  - destruct (Z.eqb (StatusCode resp) 200); simpl; eexists; (split; [reflexivity|]);
      split; congruence.
  - eexists. split; [reflexivity|]. split; discriminate.
Qed.

(** X15: the two webhooks are called one after the other and independently:
    when both are configured and both calls come back with a response, the
    POST hook is called first and the GET hook second whatever the first
    call gave, each takes one answer, a row is handed to the output file
    for exactly those answered with status 200, and the function returns. *)
Theorem webhooks_are_independent (config : NestConfig) (r1 r2 : DoResult)
  (s : list DoResult) :
  WebhookPost config <> "" -> WebhookGet config <> "" ->
  http_NewRequest "POST" (WebhookPost config) = None ->
  http_NewRequest "GET" (WebhookGet config) = None ->
  hasResponse r1 = true -> hasResponse r2 = true ->
  let o := notify config (r1 :: r2 :: s) in
  res o = Ret tt /\ rest o = s /\
  requestsOf (evs o) =
    [mkRequest "POST" (WebhookPost config) None [];
     mkRequest "GET" (WebhookGet config) None []] /\
  rowsOf (evs o) =
    ((if is200 r1 then [RowNote "webhook-post performed"] else []) ++
     (if is200 r2 then [RowNote "webhook-get performed"] else []))%list.
Proof.
  intros Hp Hg Ep Eg H1 H2 o. subst o. unfold notify.
  apply String.eqb_neq in Hp, Hg. rewrite Hp, Hg. simpl negb. cbv iota.
  destruct (webhook_answered "POST" (WebhookPost config) r1 (r2 :: s) Ep H1) as (e1 & W1 & I1).
  destruct (webhook_answered "GET" (WebhookGet config) r2 s Eg H2) as (e2 & W2 & I2).
  rewrite !bind_eq, W1. cbn [res rest evs].
  assert (R1 : exists l1,
             (match e1 with
              | Some e => printError "Problem with webhook-post" (Some e)
              | None => writeString (RowNote "webhook-post performed")
              end) (r2 :: s) = mkOut (Ret tt) (r2 :: s) l1 /\
             requestsOf l1 = [] /\
             rowsOf l1 = if is200 r1 then [RowNote "webhook-post performed"] else []).
  { destruct e1 as [e|].
    - eexists. split; [reflexivity|]. split; [reflexivity|].
      destruct (is200 r1); [|reflexivity]. destruct I1 as [_ I1]. discriminate (I1 eq_refl).
    - eexists. split; [reflexivity|]. split; [reflexivity|].
      rewrite (proj1 I1 eq_refl). reflexivity. }
  destruct R1 as (l1 & -> & Q1 & Rw1). cbn [res rest evs].
  rewrite ?bind_eq, W2. cbn [res rest evs].
  assert (R2 : exists l2,
             (match e2 with
              | Some e => printError "Problem with webhook-get" (Some e)
              | None => writeString (RowNote "webhook-get performed")
              end) s = mkOut (Ret tt) s l2 /\
             requestsOf l2 = [] /\
             rowsOf l2 = if is200 r2 then [RowNote "webhook-get performed"] else []).
  { destruct e2 as [e|].
    - eexists. split; [reflexivity|]. split; [reflexivity|].
      destruct (is200 r2); [|reflexivity]. destruct I2 as [_ I2]. discriminate (I2 eq_refl).
    - eexists. split; [reflexivity|]. split; [reflexivity|].
      rewrite (proj1 I2 eq_refl). reflexivity. }
  destruct R2 as (l2 & -> & Q2 & Rw2). cbn [res rest evs].
  split; [reflexivity|]. split; [reflexivity|].
  rewrite !requestsOf_app, !rowsOf_app, Q1, Q2, Rw1, Rw2. split; reflexivity.
Qed.

Lemma webhook_requests (method url : string) (s : list DoResult) :
  rowsOf (evs (webhook method url s)) = [] /\
  (requestsOf (evs (webhook method url s)) = [] \/
   requestsOf (evs (webhook method url s)) = [mkRequest method url None []]).
Proof.
  unfold webhook. destruct (http_NewRequest method url); [split; [|left]; reflexivity|].
  rewrite !bind_eq. destruct s as [|[resp|resp e|e] s]; simpl;
    try (split; [|right]; reflexivity).
  destruct (Z.eqb (StatusCode resp) 200); split; try right; reflexivity.
Qed.

Lemma notify_part_requests (method url problem performed : string) (s : list DoResult) :
  let o := (err <- webhook method url ;;
            match err with
            | Some e => printError problem (Some e)
            | None => writeString (RowNote performed)
            end) s in
  requestsOf (evs o) = [] \/ requestsOf (evs o) = [mkRequest method url None []].
Proof.
  cbv zeta. rewrite bind_eq.
  destruct (webhook_requests method url s) as [_ Q].
  destruct (res (webhook method url s)) as [[e|]|h]; cbn [res rest evs];
    rewrite ?requestsOf_app; simpl; rewrite ?app_nil_r; exact Q.
Qed.

(** X16: whatever the answers, the function started with [go] sends at most
    two requests, none of them a PUT, and each is the POST to the configured
    POST hook or the GET to the configured GET hook with no body and no
    header: the token is never sent to a webhook. *)
Theorem webhooks_never_carry_the_token (config : NestConfig) (s : list DoResult) :
  let requests := requestsOf (evs (notify config s)) in
  (length requests <= 2)%nat /\
  countPuts (evs (notify config s)) = 0%nat /\
  Forall (fun r => Header r = [] /\ Payload r = None /\
                   ((Method r = "POST" /\ URL r = WebhookPost config /\
                     WebhookPost config <> "") \/
                    (Method r = "GET" /\ URL r = WebhookGet config /\
                     WebhookGet config <> ""))) requests.
Proof.
  cbv zeta. unfold notify, countPuts.
  set (post := (if negb (String.eqb (WebhookPost config) "") then _ else ret tt)).
  set (get := (if negb (String.eqb (WebhookGet config) "") then _ else ret tt)).
  assert (Qp : forall s', requestsOf (evs (post s')) = [] \/
                 (WebhookPost config <> "" /\
                  requestsOf (evs (post s')) = [mkRequest "POST" (WebhookPost config) None []])).
  { intros s'. subst post. destruct (String.eqb_spec (WebhookPost config) "") as [Z|Z]; simpl.
    - left. reflexivity.
    - destruct (notify_part_requests "POST" (WebhookPost config) "Problem with webhook-post"
                  "webhook-post performed" s') as [Q|Q]; [left | right; split]; assumption. }
  assert (Qg : forall s', requestsOf (evs (get s')) = [] \/
                 (WebhookGet config <> "" /\
                  requestsOf (evs (get s')) = [mkRequest "GET" (WebhookGet config) None []])).
  { intros s'. subst get. destruct (String.eqb_spec (WebhookGet config) "") as [Z|Z]; simpl.
    - left. reflexivity.
    - destruct (notify_part_requests "GET" (WebhookGet config) "Problem with webhook-get"
                  "webhook-get performed" s') as [Q|Q]; [left | right; split]; assumption. }
  rewrite bind_eq. clearbody post get.
  destruct (Qp s) as [Q1 | [Z1 Q1]];
    (destruct (res (post s)) as [u|h]; cbn [res rest evs];
     [ rewrite requestsOf_app, Q1;
       destruct (Qg (rest (post s))) as [Q2 | [Z2 Q2]]; rewrite Q2
     | rewrite Q1 ]);
    simpl; (split; [lia|]); (split; [reflexivity|]);
    repeat (constructor; [simpl; auto 10|]); constructor.
Qed.

(** ** The writes of a recovery *)











(** ** Every tick *)

Lemma recover_starts_with_row (fuel : nat) (config : NestConfig) (td : NestData)
  (s : list DoResult) :
  exists after,
    evs (recover fuel config td s) =
    (EvWriteString (RowNote "RESTARTING SYSTEM") :: after)%list.
Proof.
  unfold recover. rewrite bind_eq. cbn -[go notify shutoffLoop restartLoop bind].
  eexists. reflexivity.
Qed.

Lemma minutes_exact (n : Z) :
  (-153722867 <= n <= 153722867)%Z -> minutes n = (60000000000 * n)%Z.
Proof.
  intros R. unfold minutes, int64, time_Minute.
  change (2 ^ 63)%Z with 9223372036854775808%Z.
  change (2 ^ 64)%Z with 18446744073709551616%Z.
  rewrite Z.mod_small by lia. lia.
Qed.

Lemma minutes_wraps (n : Z) :
  (153722868 <= n <= 307445734)%Z ->
  minutes n = (60000000000 * n - 18446744073709551616)%Z /\ (minutes n < 0)%Z.
Proof.
  intros R. unfold minutes, int64, time_Minute.
  change (2 ^ 63)%Z with 9223372036854775808%Z.
  change (2 ^ 64)%Z with 18446744073709551616%Z.
  replace (60000000000 * n + 9223372036854775808)%Z
    with ((60000000000 * n - 9223372036854775808) + 1 * 18446744073709551616)%Z by lia.
  rewrite Z_mod_plus_full, Z.mod_small by lia. lia.
Qed.

(** X17: a tick that completes has first handed one row to the output file
    for what its read returned, the error text or the sample, and nothing
    more unless a recovery followed.  When the tick has started no function
    with [go], or one that has nothing to do (no webhook is configured), its
    last actions are to flush the file, to close it and to call
    [time.Sleep] with [time.Minute * time.Duration(config.Minutes)].  That
    product is computed in [int64]: up to 153722867 minutes it is the
    configured time; from 153722868 to 307445734 minutes it is negative, and
    the loop does not sleep at all. *)
Theorem completed_tick_logs_and_sleeps (fuel : nat) (config : NestConfig)
  (last next : Baseline) (s : list DoResult) :
  res (tick fuel config last s) = Ret next ->
  let o := tick fuel config last s in
  (exists d err rows,
     res (nestGet config s) = Ret (d, err) /\
     rowsOf (evs o) =
       (match err with
        | Some e => RowNote e
        | None => RowSample (IsCooling d) (CurrentTemperature d)
        end :: rows)%list /\
     (rows <> [] -> err = None /\ restartNeeded last d = true) /\
     (err <> None \/ restartNeeded last d = false \/
      (WebhookPost config = "" /\ WebhookGet config = "") ->
      exists before,
        evs o = (before ++ [EvSync; EvClose; EvSleep (minutes (Minutes config))])%list)) /\
  ((1 <= Minutes config <= 153722867)%Z ->
   minutes (Minutes config) = (60000000000 * Minutes config)%Z) /\
  ((153722868 <= Minutes config <= 307445734)%Z -> (minutes (Minutes config) < 0)%Z).
Proof.
  intros R o. subst o.
  split; [|split; [intros B; apply minutes_exact; lia | intros B; apply minutes_wraps; exact B]].
  destruct (res (nestGet config s)) as [[d [e|]]|h] eqn:E.
  - rewrite (tick_on_error fuel _ _ _ _ _ E) in R |- *. cbn [res rest evs].
    exists d, (Some e), []. split; [reflexivity|]. split; [apply read_rows|].
    split; [intros N; contradiction|]. intros _.
    exists (evs (reopen config s) ++ evs (nestGet config s) ++
            [EvWriteString (RowNote e);
             EvPrintf ("Error in GET request" +:+ ":" +:+ nl +:+ e +:+ nl)])%list.
    rewrite <- !app_assoc. reflexivity.
  - destruct (restartNeeded last d) eqn:D.
    + rewrite (tick_recovers fuel _ _ _ _ E D) in R |- *. cbv zeta in R |- *.
      destruct (res (recover fuel config d (rest (nestGet config s)))) as [b|h] eqn:Rc;
        [|discriminate R].
      cbn [res rest evs].
      exists d, None,
        (rowsOf (evs (recover fuel config d (rest (nestGet config s)))
                 ++ [EvSync; EvClose; EvSleep (minutes (Minutes config))])).
      split; [reflexivity|]. split; [rewrite read_rows; reflexivity|].
      split; [intros _; split; [reflexivity | exact D]|]. intros _.
      exists (evs (reopen config s) ++ evs (nestGet config s) ++
              [EvWriteString (RowSample (IsCooling d) (CurrentTemperature d))] ++
              evs (recover fuel config d (rest (nestGet config s))))%list.
      rewrite <- !app_assoc. reflexivity.
    + rewrite (tick_on_calm_sample fuel _ _ _ _ E D) in R |- *. cbn [res rest evs].
      exists d, None, []. split; [reflexivity|]. split; [apply read_rows|].
      split; [intros N; contradiction|]. intros _.
      exists (evs (reopen config s) ++ evs (nestGet config s) ++
              [EvWriteString (RowSample (IsCooling d) (CurrentTemperature d))])%list.
      rewrite <- !app_assoc. reflexivity.
  - rewrite (tick_read_stops _ _ _ _ _ E) in R. discriminate R.
Qed.

(** X18: when the detector fires, the tick hands the sample row and then
    the row "RESTARTING SYSTEM" to the output file before any webhook or
    write request goes out, whether or not the recovery gets to its end. *)
Theorem fault_is_logged_before_acting (fuel : nat) (config : NestConfig)
  (last : Baseline) (s : list DoResult) (d : NestData) :
  res (nestGet config s) = Ret (d, None) ->
  restartNeeded last d = true ->
  exists after,
    evs (tick fuel config last s) =
    (evs (reopen config s) ++ evs (nestGet config s) ++
     [EvWriteString (RowSample (IsCooling d) (CurrentTemperature d));
      EvWriteString (RowNote "RESTARTING SYSTEM")] ++ after)%list /\
    countPuts (evs (reopen config s) ++ evs (nestGet config s)) = 0%nat.
Proof.
  intros E D. rewrite (tick_recovers fuel _ _ _ _ E D). cbv zeta.
  destruct (recover_starts_with_row fuel config d (rest (nestGet config s))) as [after A].
  assert (P : countPuts (evs (reopen config s) ++ evs (nestGet config s)) = 0%nat).
  { rewrite <- (app_nil_r (evs (nestGet config s))). apply read_puts. }
  destruct (res (recover fuel config d (rest (nestGet config s)))); cbn [res rest evs];
    rewrite A.
  - exists (after ++ [EvSync; EvClose; EvSleep (minutes (Minutes config))])%list.
    split; [reflexivity | exact P].
  - exists after. split; [reflexivity | exact P].
Qed.

(** ** The process never leaves the loop by itself *)

Lemma neverExits_ret {A} (a : A) : neverExits (ret a).
Proof. intros s code. discriminate. Qed.

Lemma neverExits_emit (e : Event) : neverExits (emit e).
Proof. intros s code. discriminate. Qed.

Lemma neverExits_clientDo (req : Request) : neverExits (clientDo req).
Proof. intros [|r s] code; discriminate. Qed.

Lemma neverExits_halt {A} (h : Halt) :
  (forall code, h <> Exit code) -> neverExits (halt (A := A) h).
Proof. intros N s code E. injection E as E. exact (N code E). Qed.

Lemma neverExits_bind {A B} (m : M A) (k : A -> M B) :
  neverExits m -> (forall a, neverExits (k a)) -> neverExits (bind m k).
Proof.
  intros Hm Hk s code. rewrite bind_eq. destruct (res (m s)) as [a|h] eqn:E; simpl.
  - apply Hk.
  - intros Z. injection Z as ->. exact (Hm s code E).
Qed.

Lemma neverExits_printError (message : string) (err : option error) :
  neverExits (printError message err).
Proof. destruct err; apply neverExits_emit. Qed.

Create HintDb stays.
#[local] Hint Resolve neverExits_ret neverExits_emit neverExits_clientDo
  neverExits_printError : stays.

Ltac stays_auto :=
  repeat first
    [ apply neverExits_bind; [|intros ?]
    | apply neverExits_halt; discriminate
    | progress auto with stays
    | match goal with
      | |- neverExits (match ?x with _ => _ end) => destruct x
      | |- neverExits (if ?x then _ else _) => destruct x
      | |- neverExits (let '(_, _) := ?x in _) => destruct x
      end ].

Lemma neverExits_navigate (dataPath : list string) :
  forall dataNavigator, neverExits (navigate dataNavigator dataPath).
Proof.
  induction dataPath as [|key dataPath IH]; intros [m|]; simpl; auto with stays.
  apply neverExits_bind; [unfold assertMap; stays_auto | intros a; apply IH].
Qed.

Lemma neverExits_nestGet (config : NestConfig) : neverExits (nestGet config).
Proof.
  unfold nestGet, readSample, assertMap, assertFloat64, assertString.
  stays_auto; apply neverExits_navigate.
Qed.

Lemma neverExits_nestPut (config : NestConfig) (hvacMode : string) :
  neverExits (nestPut config hvacMode).
Proof.
  unfold nestPut, deferBodyClose, sleepMinutes. stays_auto; apply neverExits_nestGet.
Qed.

Lemma neverExits_webhook (method url : string) : neverExits (webhook method url).
Proof. unfold webhook, deferBodyClose. stays_auto. Qed.

Lemma neverExits_notify (config : NestConfig) : neverExits (notify config).
Proof. unfold notify, writeString. stays_auto; apply neverExits_webhook. Qed.

Lemma neverExits_shutoffLoop (config : NestConfig) (fuel : nat) :
  forall d0, neverExits (shutoffLoop fuel config d0).
Proof.
  induction fuel as [|fuel IH]; intros d0; simpl;
    destruct (negb (String.eqb (HvacMode d0) "off")); try solve [stays_auto].
  apply neverExits_bind; [apply neverExits_nestPut|]. intros [d err].
  apply neverExits_bind; [unfold shutoffReport, writeString; stays_auto | intros _; apply IH].
Qed.

Lemma neverExits_restartLoop (config : NestConfig) (td : NestData) (fuel : nat) :
  forall d0, neverExits (restartLoop fuel config td d0).
Proof.
  induction fuel as [|fuel IH]; intros d0; simpl;
    destruct (negb (String.eqb (HvacMode d0) (HvacMode td))); try solve [stays_auto].
  apply neverExits_bind; [apply neverExits_nestPut|]. intros [d err].
  apply neverExits_bind; [unfold restartReport, writeString; stays_auto | intros _; apply IH].
Qed.

Lemma neverExits_tick (fuel : nat) (config : NestConfig) (last : Baseline) :
  neverExits (tick fuel config last).
Proof.
  unfold tick, reopen, onSample, recover, go, writeString, sleepMinutes.
  stays_auto;
    first [apply neverExits_nestGet | apply neverExits_webhook
          | apply neverExits_shutoffLoop | apply neverExits_restartLoop
          | apply neverExits_emit].
Qed.

Lemma ticks_never_return (config : NestConfig) (fuel : nat) :
  forall last s, exists h, res (ticks fuel config last s) = Stop h /\
                           forall code, h <> Exit code.
Proof.
  induction fuel as [|fuel IH]; intros last s.
  - exists OutOfFuel. split; [reflexivity | discriminate].
  - simpl. rewrite bind_eq.
    destruct (res (tick (S fuel) config last s)) as [next|h] eqn:E; simpl.
    + apply IH.
    + exists h. split; [reflexivity|]. intros code ->.
      exact (neverExits_tick (S fuel) config last s code E).
Qed.

(** X19: once [loop] is called it never returns and never calls [os.Exit]:
    within any number of iterations the process is still running, waiting
    for an answer, or has ended with a panic (exit status 2); so [main] ends
    with status 0 only when it did not call [loop]. *)
Theorem loop_is_left_only_by_a_panic (fuel : nat) (config : NestConfig)
  (args : list string) (s : list DoResult) :
  (exists h, res (loop fuel config s) = Stop h /\
             (h = Blocked \/ h = OutOfFuel \/ h = PanicNilDeref \/
              h = PanicInterfaceConversion)) /\
  (exitStatus (res (loop fuel config s)) = None \/
   exitStatus (res (loop fuel config s)) = Some 2%Z) /\
  (exitStatus (res (main fuel args s)) = Some 0%Z ->
   res (mainSetup args s) = Ret None).
Proof.
  assert (L : forall cfg s', exists h, res (loop fuel cfg s') = Stop h /\
                (h = Blocked \/ h = OutOfFuel \/ h = PanicNilDeref \/
                 h = PanicInterfaceConversion)).
  { intros cfg s'. unfold loop. rewrite !bind_eq.
    assert (Q : forall l s0, exists h,
               res (ticks fuel cfg l s0) = Stop h /\
               (h = Blocked \/ h = OutOfFuel \/ h = PanicNilDeref \/
                h = PanicInterfaceConversion)).
    { intros l s0. destruct (ticks_never_return cfg fuel l s0) as (h & R & N).
      exists h. split; [exact R|]. destruct h; auto. exfalso. exact (N code eq_refl). }
    unfold printError. destruct (os_Create (Output cfg)); cbn -[ticks]; apply Q. }
  split; [apply L|]. split.
  - destruct (L config s) as (h & -> & [-> | [-> | [-> | ->]]]); simpl; auto.
  - intros Z. unfold main in Z. rewrite bind_eq in Z.
    destruct (printsOnly_mainSetup args s) as ([c Hc] & Hr & _).
    rewrite Hc in *. destruct c as [cfg|]; [|reflexivity].
    exfalso.
    destruct (L cfg (rest (mainSetup args s))) as (h & Rl & [-> | [-> | [-> | ->]]]);
      rewrite Rl in Z; discriminate Z.
Qed.

End Properties.

(** * Closed instances on the host [Demo.host] *)

(** A read that fails at transport level: the baseline (true, 72) survives
    the tick and exactly the error row is written.  A read that is answered
    with the empty document: the tick panics and writes no row. *)
Lemma tick_read_failure_witness :
  let e := wrapErr "Could not communicate with Nest" (Some "dial tcp: i/o timeout") in
  let s := [@DoErr Demo.host "dial tcp: i/o timeout"] in
  let empty := [Demo.answer (JObj ∅)] in
  res (@nestGet Demo.host Demo.config s) = Ret (zeroData, Some e) /\
  res (@tick Demo.host 1 Demo.config (mkBaseline true 72) s) = Ret (mkBaseline true 72) /\
  rowsOf (evs (@tick Demo.host 1 Demo.config (mkBaseline true 72) s)) = [RowNote e] /\
  @sampleIn Demo.host Demo.config (JObj ∅) = None /\
  res (@tick Demo.host 1 Demo.config (mkBaseline true 72) empty) =
    Stop PanicInterfaceConversion /\
  rowsOf (evs (@tick Demo.host 1 Demo.config (mkBaseline true 72) empty)) = [] /\
  exitStatus (res (@loop Demo.host 1 Demo.config empty)) = Some 2%Z.
Proof.
  cbv zeta.
  assert (E : res (@nestGet Demo.host Demo.config [@DoErr Demo.host "dial tcp: i/o timeout"]) =
              Ret (zeroData,
                   Some (wrapErr "Could not communicate with Nest"
                           (Some "dial tcp: i/o timeout")))) by reflexivity.
  pose proof (proj1 (@tick_read_failure Demo.host 1 Demo.config (mkBaseline true 72) _)
                _ _ E) as T.
  cbv zeta in T. destruct T as (T1 & _ & T3 & _).
  split; [exact E|]. split; [exact T1|]. split; [exact T3|].
  assert (N : @sampleIn Demo.host Demo.config (JObj ∅) = None) by reflexivity.
  assert (D : Debug Demo.config = true ->
              @os_Create Demo.host (LastOutput Demo.config) = None) by discriminate.
  pose proof (proj2 (@tick_read_failure Demo.host 1 Demo.config (mkBaseline true 72) [])
                "" (JObj ∅) eq_refl D N) as U.
  cbv zeta in U. destruct U as (U1 & _ & U3 & _ & _ & U6).
  split; [exact N|]. split; [exact U1|]. split; [exact U3|].
  exact (proj1 (U6 0%nat)).
Defined.

(** The scenario of the specification: previous (cooling, 72), current
    (cooling, 70): no recovery, the baseline becomes the current sample. *)
Lemma tick_advances_baseline_witness :
  let s := [Demo.answer (Demo.document 70 "cool" "cooling")] in
  res (@nestGet Demo.host Demo.config s) = Ret (mkData 70 "cool" true, None) /\
  restartNeeded (mkBaseline true 72) (mkData 70 "cool" true) = false /\
  exists next,
    res (@tick Demo.host 1 Demo.config (mkBaseline true 72) s) = Ret next /\
    lastIsCooling next = true /\ lastTemp next = 70%Z.
Proof.
  cbv zeta.
  assert (E : res (@nestGet Demo.host Demo.config
                     [Demo.answer (Demo.document 70 "cool" "cooling")]) =
              Ret (mkData 70 "cool" true, None)) by (vm_compute; reflexivity).
  assert (D : restartNeeded (mkBaseline true 72) (mkData 70 "cool" true) = false)
    by reflexivity.
  pose proof (@tick_advances_baseline Demo.host 1 Demo.config (mkBaseline true 72) _ _ E D)
    as T.
  cbv zeta in T. destruct T as (next & T1 & T2 & T3 & _).
  split; [exact E|]. split; [exact D|]. exists next. split; [exact T1|].
  split; [exact T2 | exact T3].
Defined.


(** The restart loop asked for the mode "unrestarted": the device would
    answer the first write with that mode, but the loop makes no write. *)
Lemma restart_loop_skipped_for_placeholder_mode :
  (0 < 1)%nat /\
  ~ @restartRetries Demo.host 1 Demo.config (mkData 72 "unrestarted" true) 0
      (Demo.written 72 "unrestarted" "cooling").
Proof.
  split; [lia|]. intros C.
  assert (W : @writesSettle Demo.host Demo.config "unrestarted" 0
                (Demo.written 72 "unrestarted" "cooling")).
  { exists (mkData 72 "unrestarted" true). split; [vm_compute; reflexivity | reflexivity]. }
  destruct (C W) as (_ & P & _). vm_compute in P. discriminate P.
Qed.


(** A fault on a sample whose mode is "unrestarted": the shut-off write is
    confirmed, no restart write is made and no row confirms a restart. *)
Lemma recovery_skipped_for_placeholder_mode :
  let o := @tick Demo.host 2 Demo.config (mkBaseline true 70)
             (Demo.answer (Demo.document 72 "unrestarted" "cooling")
              :: Demo.written 72 "off" "off") in
  res o = Ret (mkBaseline false 0) /\
  putsOf (evs o) = [putRequest Demo.config "off"] /\
  rowsOf (evs o) = [RowSample true 72; RowNote "RESTARTING SYSTEM";
                    RowNote "RESTART: system turned off"].
Proof. cbv zeta. repeat split; vm_compute; reflexivity. Qed.

(** A fault on a sample whose mode is empty: the restart write is refused
    with status 503, its zero sample has the requested (empty) mode, and the
    tick completes with the baseline (false, 0) of a write that failed. *)
Lemma recovery_ends_on_failed_write_for_empty_mode :
  let o := @tick Demo.host 2 Demo.config (mkBaseline true 70)
             (Demo.answer (Demo.document 72 "" "cooling")
              :: Demo.written 72 "off" "off" ++ [Demo.refused])%list in
  res o = Ret (mkBaseline false 0) /\
  putsOf (evs o) = [putRequest Demo.config "off"; putRequest Demo.config ""] /\
  countNotes "RESTART: system turned on" (evs o) = 0%nat /\
  countNotesFrom "Error turning system back on:" (evs o) = 1%nat.
Proof. cbv zeta. repeat split; vm_compute; reflexivity. Qed.

(** The first write of a recovery is refused at transport level. *)
Lemma write_transport_failure_crashes_witness :
  let o := @recover Demo.host 1 Demo.config (mkData 72 "cool" true)
             [@DoErr Demo.host "dial tcp: connection refused"] in
  @http_NewRequest Demo.host "PUT" (NEST_PUT +:+ ThermostatID Demo.config) = None /\
  WebhookPost Demo.config = "" /\ WebhookGet Demo.config = "" /\
  res o = Stop PanicNilDeref /\
  exitStatus (res o) = Some 2%Z /\
  rowsOf (evs o) = [RowNote "RESTARTING SYSTEM"] /\
  countPuts (evs o) = 1%nat.
Proof.
  cbv zeta. split; [reflexivity|]. split; [reflexivity|]. split; [reflexivity|].
  exact (@write_transport_failure_crashes Demo.host 0 Demo.config (mkData 72 "cool" true)
           "dial tcp: connection refused" [] eq_refl eq_refl eq_refl).
Defined.

(** The host of the POST webhook cannot be reached. *)
Lemma webhook_transport_failure_crashes_witness :
  let o := @recover Demo.host 5 Demo.configWithHook (mkData 72 "cool" true)
             (@DoErr Demo.host "dial tcp: lookup hooks.example: no such host"
              :: Demo.written 72 "off" "off" ++ Demo.written 71 "cool" "cooling")%list in
  WebhookPost Demo.configWithHook <> "" /\
  @http_NewRequest Demo.host "POST" (WebhookPost Demo.configWithHook) = None /\
  res o = Stop PanicNilDeref /\
  exitStatus (res o) = Some 2%Z /\
  rowsOf (evs o) = [RowNote "RESTARTING SYSTEM"] /\
  countPuts (evs o) = 0%nat.
Proof.
  cbv zeta.
  assert (P : WebhookPost Demo.configWithHook <> "") by discriminate.
  split; [exact P|]. split; [reflexivity|].
  exact (@webhook_transport_failure_crashes Demo.host 5 Demo.configWithHook
           (mkData 72 "cool" true) "dial tcp: lookup hooks.example: no such host" _
           (or_introl (conj P eq_refl))).
Defined.

(** A 200 answer with the empty document, and one whose thermostat has no
    mode. *)
Lemma read_schema_fault_panics_witness :
  let noMode : @json Demo.host :=
    JObj {[ "devices" := JObj {[ "thermostats" := JObj {[ "dev1" :=
      JObj (<["ambient_temperature_f" := @JNum Demo.host 72]>
              {[ "hvac_state" := JStr "cooling" ]}) ]} ]} ]} in
  @sampleIn Demo.host Demo.config (JObj ∅) = None /\
  @sampleIn Demo.host Demo.config noMode = None /\
  res (@nestGet Demo.host Demo.config [Demo.answer (JObj ∅)]) = Stop PanicInterfaceConversion /\
  res (@nestGet Demo.host Demo.config [Demo.answer noMode]) = Stop PanicInterfaceConversion.
Proof.
  cbv zeta.
  split; [reflexivity|]. split; [vm_compute; reflexivity|]. split.
  - refine (proj1 (@read_schema_fault_panics Demo.host Demo.config "" (JObj ∅) []
                     eq_refl _ eq_refl)).
    discriminate.
  - refine (proj1 (@read_schema_fault_panics Demo.host Demo.config "" _ [] eq_refl _ _)).
    + discriminate.
    + vm_compute. reflexivity.
Defined.

(** No thermostat id on the command line: [main] prints and returns, the
    exit status is 0. *)
Lemma missing_thermostat_id_exits_zero :
  let o := @main Demo.host 1 ["nest"; "--token"; "c.token"] [] in
  evs o = [EvPrintf ("Must provide a thermostat ID" +:+ nl)] /\
  exitStatus (res o) = Some 0%Z /\
  ~ (exists code, exitStatus (res o) = Some code /\ code <> 0%Z).
Proof.
  cbv zeta. split; [vm_compute; reflexivity|]. split; [vm_compute; reflexivity|].
  intros (code & E & N). vm_compute in E. congruence.
Qed.

(** Minutes below 1 on the command line end [main] with status 0 after the
    one message; a complete command line reaches [loop] with the values it
    gives; a configuration file that cannot be read is reported first, also
    when the thermostat id and the token are missing and the webhook URL does
    not parse. *)
Lemma config_errors_end_main_witness :
  let bad := ["nest"; "-id"; "dev1"; "-t"; "c.token"; "-m"; "0"] in
  let good := ["nest"; "-id"; "dev1"; "-t"; "c.token"; "-m"; "5"] in
  let noFile := ["nest"; "-c"; "missing.json"; "-wp"; "nowhere"] in
  res (@mainSetup Demo.host bad []) = Ret None /\
  @main Demo.host 1 bad [] =
    mkOut (Ret tt) [] [EvPrintf ("minutes parameter must be at least 1" +:+ nl)] /\
  exitStatus (res (@main Demo.host 1 bad [])) = Some 0%Z /\
  res (@mainSetup Demo.host good []) =
    Ret (Some (mkConfig "c.token" "dev1" 5 "nest.tsv" "nest_last.json" false "" "")) /\
  @validated Demo.host good (mkConfig "c.token" "dev1" 5 "nest.tsv" "nest_last.json" false "" "") /\
  @main Demo.host 1 noFile [] =
    mkOut (Ret tt) []
      [EvPrintf ("Error reading config file" +:+ ":" +:+ nl +:+
                 "no such file or directory" +:+ nl)] /\
  exitStatus (res (@main Demo.host 1 noFile [])) = Some 0%Z.
Proof.
  cbv zeta.
  assert (B : res (@mainSetup Demo.host
                     ["nest"; "-id"; "dev1"; "-t"; "c.token"; "-m"; "0"] []) = Ret None)
    by (vm_compute; reflexivity).
  assert (G : res (@mainSetup Demo.host
                     ["nest"; "-id"; "dev1"; "-t"; "c.token"; "-m"; "5"] []) =
              Ret (Some (mkConfig "c.token" "dev1" 5 "nest.tsv" "nest_last.json" false "" "")))
    by (vm_compute; reflexivity).
  split; [exact B|].
  pose (badMap := <["minute" := "0"]> (<["token" := "c.token"]>
                    (<["thermostatID" := "dev1"]> ∅)) : gmap string string).
  assert (PB : @parseArgs Demo.host (tail ["nest"; "-id"; "dev1"; "-t"; "c.token"; "-m"; "0"]) ∅
               = Some badMap) by reflexivity.
  assert (EB : @configErrors Demo.host badMap =
               ["minutes parameter must be at least 1" +:+ nl]) by reflexivity.
  assert (LB : (3 <= length ["nest"; "-id"; "dev1"; "-t"; "c.token"; "-m"; "0"])%nat)
    by (simpl; lia).
  destruct (@config_errors_end_main Demo.host 1
              ["nest"; "-id"; "dev1"; "-t"; "c.token"; "-m"; "0"] []) as (_ & _ & _ & CB & _).
  destruct (proj1 (CB badMap LB PB) _ _ EB) as (_ & MB & XB).
  split; [exact MB|]. split; [exact XB|]. split; [exact G|].
  split.
  { destruct (@config_errors_end_main Demo.host 1
                ["nest"; "-id"; "dev1"; "-t"; "c.token"; "-m"; "5"] []) as (_ & _ & CG & _).
    exact (proj1 (CG _ G)). }
  pose (fileMap := <["webhook-post" := "nowhere"]> (<["config" := "missing.json"]> ∅)
                   : gmap string string).
  assert (PF : @parseArgs Demo.host (tail ["nest"; "-c"; "missing.json"; "-wp"; "nowhere"]) ∅
               = Some fileMap) by reflexivity.
  assert (EF : @configErrors Demo.host fileMap =
               [ "Error reading config file" +:+ ":" +:+ nl +:+
                 "no such file or directory" +:+ nl;
                 "Must provide a thermostat ID" +:+ nl;
                 "Must provide a token" +:+ nl;
                 "invalid webhook-post url" +:+ ":" +:+ nl +:+ "invalid URI for request" +:+ nl ])
    by reflexivity.
  assert (LF : (3 <= length ["nest"; "-c"; "missing.json"; "-wp"; "nowhere"])%nat)
    by (simpl; lia).
  destruct (@config_errors_end_main Demo.host 1
              ["nest"; "-c"; "missing.json"; "-wp"; "nowhere"] []) as (_ & _ & _ & CF & _).
  destruct (proj1 (CF fileMap LF PF) _ _ EF) as (_ & MF & XF).
  split; [exact MF | exact XF].
Defined.

(** * Closed instances of the further properties *)

(** The token is given twice, under its two spellings, and the minutes
    follow: the second token is kept, and no output path has been set. *)
Lemma parseArgs_last_value_wins_witness :
  let args := (["-t"; "first"] ++ ["--TOKEN"; "second"] ++ ["-m"; "5"])%list in
  let argMap := <["minute" := "5"]> (<["token" := "second"]> (<["token" := "first"]> ∅)) in
  Nat.even (length ["-t"; "first"]) = true /\
  @parseArgs Demo.host args ∅ = Some argMap /\
  at_ argMap "token" = "second" /\
  at_ argMap "output" = at_ ∅ "output".
Proof.
  cbv zeta.
  assert (E : Nat.even (length ["-t"; "first"]) = true) by reflexivity.
  assert (P : @parseArgs Demo.host
                (["-t"; "first"] ++ ["--TOKEN"; "second"] ++ ["-m"; "5"]) ∅ =
              Some (<["minute" := "5"]> (<["token" := "second"]> (<["token" := "first"]> ∅))))
    by reflexivity.
  assert (F : Forall (fun n => at_ argTranslate n <>
                               at_ argTranslate (@strings_ToLower Demo.host "--TOKEN"))
                (@optionNames Demo.host ["-m"; "5"])).
  { constructor; [discriminate | constructor]. }
  assert (Fo : Forall (fun n => at_ argTranslate n <> "output")
                 (@optionNames Demo.host
                    (["-t"; "first"] ++ ["--TOKEN"; "second"] ++ ["-m"; "5"]))).
  { repeat (constructor; [discriminate|]). constructor. }
  destruct (@parseArgs_last_value_wins Demo.host _ _ _ _ _ _ E F P) as [V U].
  split; [exact E|]. split; [exact P|]. split; [exact V | exact (U "output" Fo)].
Defined.

(** A dangling option name after a complete command line. *)
Lemma main_ignores_unpaired_argument_witness :
  (3 <= length ["nest"; "-id"; "dev1"])%nat /\
  Nat.odd (length ["nest"; "-id"; "dev1"]) = true /\
  @mainSetup Demo.host (["nest"; "-id"; "dev1"] ++ ["--bogus"]) =
  @mainSetup Demo.host ["nest"; "-id"; "dev1"].
Proof.
  assert (L : (3 <= length ["nest"; "-id"; "dev1"])%nat) by (simpl; lia).
  assert (O : Nat.odd (length ["nest"; "-id"; "dev1"]) = true) by reflexivity.
  split; [exact L|]. split; [exact O|].
  exact (proj1 (@main_ignores_unpaired_argument Demo.host 0 _ "--bogus" L O)).
Defined.

(** The file [nest.json] is read; its minutes and paths fall back. *)
Lemma processConfig_fallbacks_witness :
  @processConfig Demo.hostWithFile "nest.json" defaultConfig =
    (mkConfig "f.token" "dev9" 10 "nest.tsv" "nest_last.json" true ""
       "http://hooks.example/seen", None) /\
  (1 <= Minutes (fst (@processConfig Demo.hostWithFile "nest.json" defaultConfig)))%Z /\
  @processConfig Demo.hostWithFile "missing.json" defaultConfig =
    (zeroConfig, Some "no such file or directory").
Proof.
  assert (P : @processConfig Demo.hostWithFile "nest.json" defaultConfig =
              (mkConfig "f.token" "dev9" 10 "nest.tsv" "nest_last.json" true ""
                 "http://hooks.example/seen", None)) by reflexivity.
  split; [exact P|]. split; [|reflexivity].
  destruct (proj1 (@processConfig_fallbacks Demo.hostWithFile "nest.json" defaultConfig) _ P)
    as (_ & M & _).
  rewrite P. apply M. simpl. lia.
Defined.

(** The thermostat id of the command line wins over the one of the file;
    the token, the debug flag and the GET webhook come from the file. *)
Lemma command_line_overrides_file_witness :
  let args := ["nest"; "-c"; "nest.json"; "-id"; "dev1"; "-m"; "3"] in
  let config := mkConfig "f.token" "dev1" 3 "nest.tsv" "nest_last.json" true ""
                  "http://hooks.example/seen" in
  res (@mainSetup Demo.hostWithFile args []) = Ret (Some config) /\
  exists argMap,
    @parseArgs Demo.hostWithFile (tail args) ∅ = Some argMap /\
    ThermostatID config =
      preferring (at_ argMap cmdThermostatID)
        (ThermostatID (@baseConfig Demo.hostWithFile argMap)) /\
    Token config =
      preferring (at_ argMap cmdToken) (Token (@baseConfig Demo.hostWithFile argMap)).
Proof.
  cbv zeta.
  assert (E : res (@mainSetup Demo.hostWithFile
                     ["nest"; "-c"; "nest.json"; "-id"; "dev1"; "-m"; "3"] []) =
              Ret (Some (mkConfig "f.token" "dev1" 3 "nest.tsv" "nest_last.json" true ""
                           "http://hooks.example/seen"))) by (vm_compute; reflexivity).
  split; [exact E|].
  destruct (@command_line_overrides_file Demo.hostWithFile _ _ _ E) as (argMap & P & T).
  cbv zeta in T. destruct T as (T1 & T2 & _).
  exists argMap. split; [exact P|]. split; [exact T1 | exact T2].
Defined.

Lemma loop_called_with_usable_paths_witness :
  let args := ["nest"; "-c"; "nest.json"; "-id"; "dev1"; "-m"; "3"] in
  let config := mkConfig "f.token" "dev1" 3 "nest.tsv" "nest_last.json" true ""
                  "http://hooks.example/seen" in
  res (@mainSetup Demo.hostWithFile args []) = Ret (Some config) /\
  Output config <> "" /\ LastOutput config <> "" /\ (1 <= Minutes config)%Z.
Proof.
  cbv zeta.
  assert (E : res (@mainSetup Demo.hostWithFile
                     ["nest"; "-c"; "nest.json"; "-id"; "dev1"; "-m"; "3"] []) =
              Ret (Some (mkConfig "f.token" "dev1" 3 "nest.tsv" "nest_last.json" true ""
                           "http://hooks.example/seen"))) by (vm_compute; reflexivity).
  split; [exact E|].
  exact (@loop_called_with_usable_paths Demo.hostWithFile _ _ _ E).
Defined.

(** "HELP" is lower-cased to the help word; "--token" alone is refused. *)
Lemma single_argument_is_help_or_refused_witness :
  In (@strings_ToLower Demo.host "HELP") ["help"; "-h"; "--help"] /\
  ~ In (@strings_ToLower Demo.host "--token") ["help"; "-h"; "--help"] /\
  length (evs (@main Demo.host 1 ["nest"; "HELP"] [])) = 8%nat /\
  res (@main Demo.host 1 ["nest"; "--token"] []) = Ret tt.
Proof.
  assert (I : In (@strings_ToLower Demo.host "HELP") ["help"; "-h"; "--help"])
    by (left; reflexivity).
  assert (N : ~ In (@strings_ToLower Demo.host "--token") ["help"; "-h"; "--help"]).
  { simpl. intros [Z|[Z|[Z|[]]]]; discriminate Z. }
  split; [exact I|]. split; [exact N|].
  destruct (@single_argument_is_help_or_refused Demo.host 1 "nest" "HELP" []) as (_ & Hh & _).
  destruct (@single_argument_is_help_or_refused Demo.host 1 "nest" "--token" [])
    as (_ & _ & Hr).
  rewrite (Hh I), (Hr N). split; reflexivity.
Defined.

(** A read refused with status 503, and a write whose confirming read is. *)
Lemma failed_calls_return_zero_sample_witness :
  exists d e,
    res (@nestGet Demo.host Demo.config [Demo.refused]) = Ret (d, Some e) /\
    res (@nestPut Demo.host Demo.config "off" [Demo.ok200; Demo.refused]) = Ret (d, Some e) /\
    d = mkData 0 "" false.
Proof.
  exists zeroData, (wrapErr "Problem getting an answer from Nest" None).
  assert (G : res (@nestGet Demo.host Demo.config [Demo.refused]) =
              Ret (zeroData, Some (wrapErr "Problem getting an answer from Nest" None)))
    by reflexivity.
  split; [exact G|]. split; [reflexivity|].
  exact (proj1 (@failed_calls_return_zero_sample Demo.host Demo.config "off" _ _ _) G).
Defined.

(** The document of thermostat [dev1] with the state "heating": the mode and
    the temperature are read, the cooling flag is not set. *)
Lemma read_returns_the_sample_witness :
  exists d,
    res (@nestGet Demo.host Demo.config [Demo.answer (Demo.document 72 "heat" "heating")]) =
      Ret (d, None) /\
    CurrentTemperature d = 72%Z /\ HvacMode d = "heat" /\
    (IsCooling d = true <-> "heating" = "cooling").
Proof.
  pose (m3 := <["ambient_temperature_f" := @JNum Demo.host 72]>
                (<["hvac_mode" := JStr "heat"]> {[ "hvac_state" := JStr "heating" ]})
              : gmap string (@json Demo.host)).
  pose (m2 := {[ "dev1" := JObj m3 ]} : gmap string (@json Demo.host)).
  pose (m1 := {[ "thermostats" := JObj m2 ]} : gmap string (@json Demo.host)).
  pose (m0 := {[ "devices" := JObj m1 ]} : gmap string (@json Demo.host)).
  assert (Hd : Debug Demo.config = true ->
               @os_Create Demo.host (LastOutput Demo.config) = None) by discriminate.
  assert (L0 : m0 !! "devices" = Some (JObj m1)) by apply lookup_singleton_eq.
  assert (L1 : m1 !! "thermostats" = Some (JObj m2)) by apply lookup_singleton_eq.
  assert (L2 : m2 !! ThermostatID Demo.config = Some (JObj m3))
    by apply lookup_singleton_eq.
  assert (Lt : m3 !! "ambient_temperature_f" = Some (@JNum Demo.host 72))
    by apply lookup_insert_eq.
  assert (Lm : m3 !! "hvac_mode" = Some (@JStr Demo.host "heat")).
  { unfold m3. rewrite lookup_insert_ne by discriminate. apply lookup_insert_eq. }
  assert (Ls : m3 !! "hvac_state" = Some (@JStr Demo.host "heating")).
  { unfold m3. rewrite !lookup_insert_ne by discriminate. apply lookup_singleton_eq. }
  destruct (@read_returns_the_sample Demo.host Demo.config "" m0 m1 m2 m3
              72%Z "heat" "heating" [] eq_refl Hd L0 L1 L2 Lt Lm Ls)
    as (d & R & _ & T & Mo & C).
  exists d. split; [exact R|]. split; [exact T|]. split; [exact Mo | exact C].
Defined.

(** A read without the debug flag touches no file; with the flag, the body
    of the answer is dumped right after the request. *)
Lemma debug_dump_only_with_flag_witness :
  filesTouched (evs (@nestGet Demo.host Demo.config
                       [Demo.answer (Demo.document 72 "cool" "cooling")])) = [] /\
  exists after,
    evs (@nestGet Demo.host Demo.configDebug [Demo.ok200]) =
    (EvDo (getRequest Demo.configDebug) :: EvCreate "nest_last.json"
     :: EvDump "nest_last.json" "" :: after)%list.
Proof.
  destruct (@debug_dump_only_with_flag Demo.host Demo.config "off") as [A _].
  destruct (@debug_dump_only_with_flag Demo.host Demo.configDebug "off") as [_ B].
  split.
  - exact (proj1 (A eq_refl _)).
  - exact (B eq_refl eq_refl eq_refl "" (inr "unexpected end of JSON input") []).
Defined.

(** A read under the demo host sends the one GET request with both headers. *)
Lemma read_sends_one_get_witness :
  requestsOf (evs (@nestGet Demo.host Demo.config [Demo.refused])) =
    [mkRequest "GET" "https://developer-api.nest.com" None
       [("Content-Type", "application/json"); ("Authorization", "c.token")]].
Proof.
  destruct (@read_sends_one_get Demo.host Demo.config [Demo.refused]) as (_ & _ & _ & G & _).
  exact (proj1 (G eq_refl)).
Defined.

(** An accepted write is followed by the pause and the confirming read; a
    write refused with status 503 returns at once. *)
Lemma write_confirms_by_reading_witness :
  evs (@nestPut Demo.host Demo.config "off" (Demo.written 73 "off" "off")) =
    ([EvDo (putRequest Demo.config "off"); EvSleep (minutes 1)] ++
     evs (@nestGet Demo.host Demo.config [Demo.answer (Demo.document 73 "off" "off")]))%list /\
  evs (@nestPut Demo.host Demo.config "off" [Demo.refused]) =
    [EvDo (putRequest Demo.config "off")].
Proof.
  split.
  - destruct (@write_confirms_by_reading Demo.host Demo.config "off"
                (mkResponse 200 (BodyBytes "" (inr "unexpected end of JSON input")))
                [Demo.answer (Demo.document 73 "off" "off")] eq_refl) as (A & _ & _).
    exact (f_equal evs (A eq_refl)).
  - destruct (@write_confirms_by_reading Demo.host Demo.config "off"
                (mkResponse 503 (BodyBytes "" (inr "unexpected end of JSON input")))
                [] eq_refl) as (_ & B & _).
    refine (f_equal evs (B _)). discriminate.
Defined.

(** One refusal, one write that has not settled, one that has: three writes,
    one error row, one waiting row, for either loop. *)
Lemma retry_loops_survive_refusals_witness :
  let off := (Demo.refused :: Demo.written 72 "cool" "off" ++
              Demo.written 73 "off" "off")%list in
  let on := (Demo.refused :: Demo.written 73 "off" "off" ++
             Demo.written 73 "cool" "cooling")%list in
  (1 + 1 < 3)%nat /\
  @refusedThenSettle Demo.host Demo.config "off" 1 1 off /\
  @refusedThenSettle Demo.host Demo.config "cool" 1 1 on /\
  (let o := @shutoffLoop Demo.host 3 Demo.config unrestarted off in
   countPuts (evs o) = 3%nat /\
   countNotesFrom "Error turning system off:" (evs o) = 1%nat /\
   countNotes "RESTART: waiting on turn off" (evs o) = 1%nat) /\
  (let o := @restartLoop Demo.host 3 Demo.config (mkData 72 "cool" true) unrestarted on in
   countPuts (evs o) = 3%nat /\
   countNotesFrom "Error turning system back on:" (evs o) = 1%nat /\
   countNotes "RESTART: waiting on turn on" (evs o) = 1%nat).
Proof.
  cbv zeta.
  assert (L : (1 + 1 < 3)%nat) by lia.
  assert (W1 : @refusedThenSettle Demo.host Demo.config "off" 1 1
                 (Demo.refused :: Demo.written 72 "cool" "off" ++
                  Demo.written 73 "off" "off")%list).
  { split; [discriminate|].
    exists (mkData 72 "cool" false). split; [vm_compute; reflexivity|].
    split; [discriminate|].
    exists (mkData 73 "off" false). split; [vm_compute; reflexivity | reflexivity]. }
  assert (W2 : @refusedThenSettle Demo.host Demo.config "cool" 1 1
                 (Demo.refused :: Demo.written 73 "off" "off" ++
                  Demo.written 73 "cool" "cooling")%list).
  { split; [discriminate|].
    exists (mkData 73 "off" false). split; [vm_compute; reflexivity|].
    split; [discriminate|].
    exists (mkData 73 "cool" true). split; [vm_compute; reflexivity | reflexivity]. }
  split; [exact L|]. split; [exact W1|]. split; [exact W2|]. split.
  - destruct (proj1 (@retry_loops_survive_refusals Demo.host 3 Demo.config
                       (mkData 72 "cool" true) 1 1 _ eq_refl L) W1) as (_ & P & E & Wt).
    split; [exact P|]. split; [exact E | exact Wt].
  - assert (N1 : HvacMode (mkData 72 "cool" true) <> "") by discriminate.
    assert (N2 : HvacMode (mkData 72 "cool" true) <> "unrestarted") by discriminate.
    destruct (proj2 (@retry_loops_survive_refusals Demo.host 3 Demo.config
                       (mkData 72 "cool" true) 1 1 _ eq_refl L) N1 N2 W2)
      as (_ & P & E & Wt).
    split; [exact P|]. split; [exact E | exact Wt].
Defined.

(** The same two runs: every write has its row, and the last row is the
    confirmation. *)
Lemma retry_loops_log_every_attempt_witness :
  let off := (Demo.refused :: Demo.written 72 "cool" "off" ++
              Demo.written 73 "off" "off")%list in
  let on := (Demo.refused :: Demo.written 73 "off" "off" ++
             Demo.written 73 "cool" "cooling")%list in
  res (@shutoffLoop Demo.host 3 Demo.config unrestarted off) = Ret (mkData 73 "off" false) /\
  res (@restartLoop Demo.host 3 Demo.config (mkData 72 "cool" true) unrestarted on) =
    Ret (mkData 73 "cool" true) /\
  (let o := @shutoffLoop Demo.host 3 Demo.config unrestarted off in
   countPuts (evs o) = length (rowsOf (evs o)) /\
   countNotes "RESTART: system turned off" (evs o) = 1%nat) /\
  (let o := @restartLoop Demo.host 3 Demo.config (mkData 72 "cool" true) unrestarted on in
   countPuts (evs o) = length (rowsOf (evs o)) /\
   countNotes "RESTART: system turned on" (evs o) = 1%nat).
Proof.
  cbv zeta.
  assert (R1 : res (@shutoffLoop Demo.host 3 Demo.config unrestarted
                      (Demo.refused :: Demo.written 72 "cool" "off" ++
                       Demo.written 73 "off" "off")%list) = Ret (mkData 73 "off" false))
    by (vm_compute; reflexivity).
  assert (R2 : res (@restartLoop Demo.host 3 Demo.config (mkData 72 "cool" true) unrestarted
                      (Demo.refused :: Demo.written 73 "off" "off" ++
                       Demo.written 73 "cool" "cooling")%list) = Ret (mkData 73 "cool" true))
    by (vm_compute; reflexivity).
  split; [exact R1|]. split; [exact R2|]. split.
  - destruct (proj1 (@retry_loops_log_every_attempt Demo.host 3 Demo.config
                       (mkData 72 "cool" true) _ _ eq_refl) R1) as (_ & P & C & _).
    split; [exact P | exact C].
  - assert (N1 : HvacMode (mkData 72 "cool" true) <> "") by discriminate.
    assert (N2 : HvacMode (mkData 72 "cool" true) <> "unrestarted") by discriminate.
    destruct (proj2 (@retry_loops_log_every_attempt Demo.host 3 Demo.config
                       (mkData 72 "cool" true) _ _ eq_refl) N1 N2 R2) as (_ & P & C & _).
    split; [exact P | exact C].
Defined.

(** The POST webhook is refused with status 503, the GET webhook is still
    called and is the only one reported as performed. *)
Lemma webhooks_are_independent_witness :
  let o := @notify Demo.host Demo.configBothHooks [Demo.refused; Demo.ok200] in
  res o = Ret tt /\
  requestsOf (evs o) =
    [mkRequest "POST" "http://hooks.example/fire" None [];
     mkRequest "GET" "http://hooks.example/seen" None []] /\
  rowsOf (evs o) = [RowNote "webhook-get performed"].
Proof.
  cbv zeta.
  assert (P : WebhookPost Demo.configBothHooks <> "") by discriminate.
  assert (G : WebhookGet Demo.configBothHooks <> "") by discriminate.
  pose proof (@webhooks_are_independent Demo.host Demo.configBothHooks
                Demo.refused Demo.ok200 [] P G eq_refl eq_refl eq_refl eq_refl) as W.
  cbv zeta in W. destruct W as (R & _ & Q & L).
  split; [exact R|]. split; [exact Q | exact L].
Defined.

(** A calm tick: its events end with the sync, the close and the pause of
    ten minutes, that is 600000000000 nanoseconds. *)
Lemma completed_tick_logs_and_sleeps_witness :
  let s := [Demo.answer (Demo.document 70 "cool" "cooling")] in
  res (@tick Demo.host 1 Demo.config (mkBaseline true 72) s) = Ret (mkBaseline true 70) /\
  (exists before,
     evs (@tick Demo.host 1 Demo.config (mkBaseline true 72) s) =
     (before ++ [EvSync; EvClose; EvSleep (minutes 10)])%list) /\
  minutes 10 = 600000000000%Z.
Proof.
  cbv zeta.
  assert (T : res (@tick Demo.host 1 Demo.config (mkBaseline true 72)
                     [Demo.answer (Demo.document 70 "cool" "cooling")]) =
              Ret (mkBaseline true 70)) by (vm_compute; reflexivity).
  split; [exact T|].
  pose proof (@completed_tick_logs_and_sleeps Demo.host 1 Demo.config _ _ _ T) as C.
  cbv zeta in C. destruct C as ((d & err & rows & _ & _ & _ & B) & M & _).
  split.
  - apply B. right. right. split; reflexivity.
  - apply M. simpl. lia.
Defined.

(** A fault sample: the sample row and the restart row are written before
    anything else happens. *)
Lemma fault_is_logged_before_acting_witness :
  let s := [Demo.answer (Demo.document 72 "cool" "cooling")] in
  res (@nestGet Demo.host Demo.config s) = Ret (mkData 72 "cool" true, None) /\
  restartNeeded (mkBaseline true 70) (mkData 72 "cool" true) = true /\
  exists after,
    evs (@tick Demo.host 3 Demo.config (mkBaseline true 70) s) =
    (evs (@reopen Demo.host Demo.config s) ++ evs (@nestGet Demo.host Demo.config s) ++
     [EvWriteString (RowSample true 72);
      EvWriteString (RowNote "RESTARTING SYSTEM")] ++ after)%list.
Proof.
  cbv zeta.
  assert (E : res (@nestGet Demo.host Demo.config
                     [Demo.answer (Demo.document 72 "cool" "cooling")]) =
              Ret (mkData 72 "cool" true, None)) by (vm_compute; reflexivity).
  assert (D : restartNeeded (mkBaseline true 70) (mkData 72 "cool" true) = true)
    by reflexivity.
  split; [exact E|]. split; [exact D|].
  destruct (@fault_is_logged_before_acting Demo.host 3 Demo.config (mkBaseline true 70)
              _ _ E D) as (after & A & _).
  exists after. exact A.
Defined.

(** The help request: main ends with status 0 and the setup has asked for
    no loop. *)
Lemma loop_is_left_only_by_a_panic_witness :
  exitStatus (res (@main Demo.host 1 ["nest"; "-h"] [])) = Some 0%Z /\
  res (@mainSetup Demo.host ["nest"; "-h"] []) = Ret None.
Proof.
  assert (E : exitStatus (res (@main Demo.host 1 ["nest"; "-h"] [])) = Some 0%Z)
    by (vm_compute; reflexivity).
  split; [exact E|].
  destruct (@loop_is_left_only_by_a_panic Demo.host 1 Demo.config ["nest"; "-h"] [])
    as (_ & _ & S).
  exact (S E).
Defined.
